(** * Pocket CO2 detector: a shallow embedding of [User/main.c]

    The firmware is a single C translation unit.  Its globals ([state],
    [iSample], the sensor's [_iCO2]), the FLASH page that holds the
    persisted settings and the calls it makes to the board, the display and
    the sensor are gathered in a record [World]; every C function becomes
    a function on [World].  The functions the firmware calls in its
    collaborators (OLED, SCD41, GPIO, FLASH programming) are recorded as
    events in a trace, most recent first.  Loops without a static bound
    take a fuel argument and report [Timeout] with the world reached so
    far when it runs out.

    Not modelled: the code under [#ifdef FUTURE] and [DEBUG_MODE] (neither
    macro is defined), the wake interrupt handler, [Option_Byte_CFG]
    (never called) and the pixels the display draws. *)

From Stdlib Require Import String ZArith List Bool Lia.
Import ListNotations.
Local Open Scope Z_scope.

(** ** Machine integers *)

(** [int] on the target is 32 bits wide; [wrap32] is the value an [int]
    holds after an arithmetic result is stored in it. *)
Definition wrap32 (z : Z) : Z := (z + 2147483648) mod 4294967296 - 2147483648.

(** A [uint32_t] word as stored in FLASH. *)
Definition to_uint32 (z : Z) : Z := z mod 4294967296.

(** Reading a [uint32_t] word through an [int] lvalue. *)
Definition to_int32 (z : Z) : Z := wrap32 z.

(** The byte a [char] holds after an [int] is stored in it. *)
Definition wrap8 (z : Z) : Z := z mod 256.

Definition in_int32 (z : Z) : Prop := -2147483648 <= z < 2147483648.

(** ** Constants of main.c *)

Definition BUTTON0_PIN : Z := 0xd2.
Definition BUTTON1_PIN : Z := 0xd3.
Definition LED_GREEN : Z := 0xc3.
Definition LED_RED : Z := 0xc4.
Definition MOTOR_PIN : Z := 0xc5.

Definition MODE_CONTINUOUS : Z := 0.
Definition MODE_LOW_POWER : Z := 1.
Definition MODE_STEALTH : Z := 2.
Definition MODE_CALIBRATE : Z := 3.
Definition MODE_TIMER : Z := 4.
Definition MODE_COUNT : Z := 5.

Definition ALERT_VIBRATION : Z := 0.
Definition ALERT_LED : Z := 1.
Definition ALERT_BOTH : Z := 2.
Definition ALERT_COUNT : Z := 3.

Definition MENU_START : Z := 0.
Definition MENU_MODE : Z := 1.
Definition MENU_FREQ : Z := 2.
Definition MENU_ALERT : Z := 3.
Definition MENU_TIME : Z := 4.
Definition MENU_COUNT : Z := 5.

(** Modelled from the spec: scd41.h is not among the sources; the sensor
    contract only says that recalibration answers Success or Failure.
    The success code is taken to be 0; no theorem depends on its value. *)
Definition SCD_SUCCESS : Z := 0.

Inductive PowerMode := SCD_POWERMODE_NORMAL | SCD_POWERMODE_LOW.
Inductive PinMode := OUTPUT | INPUT_PULLUP.
Inductive Font := FONT_6x8 | FONT_8x8 | FONT_12x16 | Roboto_Black_13 | Roboto_Black_40.

(** ** The settings record *)

Record STATE := mkSTATE {
  iMode : Z;
  iAlert : Z;
  iFreq : Z;
  iPeriod : Z
}.

Definition STATE_eqb (a b : STATE) : bool :=
  (iMode a =? iMode b) && (iAlert a =? iAlert b)
  && (iFreq a =? iFreq b) && (iPeriod a =? iPeriod b).

(** ** Events, inputs and the world *)

Inductive Event :=
| EvPinMode (pin : Z) (m : PinMode)
| EvDigitalWrite (pin : Z) (v : Z)
| EvDelay_Ms (ms : Z)
| EvStandby82ms (n : Z)
| EvI2CInit (speed : Z)
| EvI2CSetSpeed (speed : Z)
| EvOledInit
| EvOledFill (c : Z)
| EvOledContrast (c : Z)
| EvOledPower (on : Z)
| EvOledClearLine (y : Z)
| EvOledWriteString (x y : Z) (s : string) (f : Font)
| EvOledWriteBytes (x y : Z) (s : list Z) (f : Font)
| EvDrawMenu (iSelItem : Z) (st : STATE)
| EvDrawCurrent (co2 emoji : Z)
| EvSensorStart (m : PowerMode)
| EvSensorStop
| EvSensorGetSample
| EvSensorRecalibrate (ref : Z)
| EvFlashErasePage
| EvFlashProgramPage (page : list Z)
| CallWriteFlash
| CallShowAlert
| CallShowTime (iSecs : Z).

(** What the outside world answers: the levels [digitalRead] returns for
    the two button pins at the n-th call of [GetButtons], the CO2 value
    the n-th [scd41_getSample] leaves in [_iCO2], and the code the n-th
    [scd41_recalibrate] returns. *)
Record Env := mkEnv {
  button_levels : nat -> Z * Z;
  sensor_co2 : nat -> Z;
  recal_code : nat -> Z
}.

Record World := mkWorld {
  env : Env;
  state : STATE;
  flash : list Z;
  iSample : Z;
  _iCO2 : Z;
  nbtn : nat;
  nsmp : nat;
  nrecal : nat;
  trace : list Event
}.

Definition set_state (s : STATE) (w : World) : World :=
  mkWorld (env w) s (flash w) (iSample w) (_iCO2 w) (nbtn w) (nsmp w) (nrecal w) (trace w).

Definition set_flash (p : list Z) (w : World) : World :=
  mkWorld (env w) (state w) p (iSample w) (_iCO2 w) (nbtn w) (nsmp w) (nrecal w) (trace w).

Definition set_iSample (n : Z) (w : World) : World :=
  mkWorld (env w) (state w) (flash w) n (_iCO2 w) (nbtn w) (nsmp w) (nrecal w) (trace w).

Definition emit (e : Event) (w : World) : World :=
  mkWorld (env w) (state w) (flash w) (iSample w) (_iCO2 w) (nbtn w) (nsmp w) (nrecal w)
          (e :: trace w).

(** Result of a function that contains an unbounded loop. *)
Inductive Outcome (A : Type) :=
| Returned (a : A) (w : World)
| Timeout (w : World).
Arguments Returned {A} a w.
Arguments Timeout {A} w.

Definition world_of {A} (o : Outcome A) : World :=
  match o with Returned _ w => w | Timeout w => w end.

Definition bindO {A B} (o : Outcome A) (k : A -> World -> Outcome B) : Outcome B :=
  match o with
  | Returned a w => k a w
  | Timeout w => Timeout w
  end.

Notation "'call' x , w <- m ; k" := (bindO m (fun x w => k))
  (at level 10, x name, w name, m at level 100, k at level 200).

(** ** Board, display and sensor calls *)

Definition pinMode (pin : Z) (m : PinMode) := emit (EvPinMode pin m).
Definition digitalWrite (pin v : Z) := emit (EvDigitalWrite pin v).
Definition Delay_Ms (ms : Z) := emit (EvDelay_Ms ms).
Definition Standby82ms (n : Z) := emit (EvStandby82ms n).
Definition I2CInit (speed : Z) := emit (EvI2CInit speed).
Definition I2CSetSpeed (speed : Z) := emit (EvI2CSetSpeed speed).
Definition oledFill (c : Z) := emit (EvOledFill c).
Definition oledPower (on : Z) := emit (EvOledPower on).
Definition oledClearLine (y : Z) := emit (EvOledClearLine y).
Definition oledWriteString (x y : Z) (s : string) (f : Font) := emit (EvOledWriteString x y s f).
Definition scd41_start (m : PowerMode) := emit (EvSensorStart m).
Definition scd41_stop := emit EvSensorStop.

Definition scd41_getSample (w : World) : World :=
  let v := sensor_co2 (env w) (nsmp w) in
  mkWorld (env w) (state w) (flash w) (iSample w) v (nbtn w) (S (nsmp w)) (nrecal w)
          (EvSensorGetSample :: trace w).

Definition scd41_recalibrate (ref : Z) (w : World) : Z * World :=
  let r := recal_code (env w) (nrecal w) in
  (r, mkWorld (env w) (state w) (flash w) (iSample w) (_iCO2 w) (nbtn w) (nsmp w)
              (S (nrecal w)) (EvSensorRecalibrate ref :: trace w)).

(** [GetButtons]: bit 0 is button 0, bit 1 is button 1; a pressed button
    reads as level 0. *)
Definition button_mask (l : Z * Z) : Z :=
  let i := 0 in
  let i := if fst l =? 0 then Z.lor i 1 else i in
  let i := if snd l =? 0 then Z.lor i 2 else i in
  i.

Definition GetButtons (w : World) : Z * World :=
  let w1 := pinMode BUTTON0_PIN INPUT_PULLUP w in
  let w2 := pinMode BUTTON1_PIN INPUT_PULLUP w1 in
  (button_mask (button_levels (env w) (nbtn w)),
   mkWorld (env w2) (state w2) (flash w2) (iSample w2) (_iCO2 w2) (S (nbtn w2))
           (nsmp w2) (nrecal w2) (trace w2)).

Definition BlinkLED (u8LED iDuration : Z) (w : World) : World :=
  let w := pinMode u8LED OUTPUT w in
  let w := digitalWrite u8LED 1 w in
  let w := Delay_Ms iDuration w in
  digitalWrite u8LED 0 w.

Definition Vibrate (iDuration : Z) (w : World) : World :=
  let w := pinMode MOTOR_PIN OUTPUT w in
  let w := digitalWrite MOTOR_PIN 1 w in
  let w := Delay_Ms iDuration w in
  digitalWrite MOTOR_PIN 0 w.

(** ** WriteFlash and ReadFlash

    The FLASH routines of the vendor library are not among the sources.
    The page at [FLASH_START] is kept as its sixteen 32-bit words:
    [FLASH_ErasePage_Fast] leaves every word at 0xFFFFFFFF, [FLASH_BufLoad]
    places a word in the page buffer and [FLASH_ProgramPage_Fast] commits
    the buffer. *)

Definition ERASED : Z := 0xFFFFFFFF.
Definition PAGE_WORDS : nat := 16.

Fixpoint upd_nth (i : nat) (v : Z) (l : list Z) : list Z :=
  match l, i with
  | [], _ => []
  | _ :: t, O => v :: t
  | h :: t, S i' => h :: upd_nth i' v t
  end.

Definition state_words (s : STATE) : list Z :=
  [to_uint32 (iMode s); to_uint32 (iAlert s); to_uint32 (iFreq s); to_uint32 (iPeriod s)].

(** The loop [for (i=0; i<sizeof(state)/4; i++) FLASH_BufLoad(FLASH_START+4*i, s[i])]. *)
Fixpoint buf_load (i : nat) (ws : list Z) (page : list Z) : list Z :=
  match ws with
  | [] => page
  | v :: r => buf_load (S i) r (upd_nth i v page)
  end.

Definition WriteFlash (w : World) : World :=
  let w := emit CallWriteFlash w in
  let w := emit EvFlashErasePage (set_flash (repeat ERASED PAGE_WORDS) w) in
  let page := buf_load 0 (state_words (state w)) (flash w) in
  emit (EvFlashProgramPage page) (set_flash page w).

Definition read_word (page : list Z) (i : nat) : Z := nth i page ERASED.

(** The record as the copy loop of [ReadFlash] leaves it in [state]. *)
Definition persisted (page : list Z) : STATE :=
  mkSTATE (to_int32 (read_word page 0)) (to_int32 (read_word page 1))
          (to_int32 (read_word page 2)) (to_int32 (read_word page 3)).

Definition ReadFlash (w : World) : World :=
  let w := set_state (persisted (flash w)) w in
  if (iPeriod (state w) <? 5) || (iPeriod (state w) >? 60) then
    let s := state w in
    let s := mkSTATE MODE_CONTINUOUS (iAlert s) (iFreq s) (iPeriod s) in
    let s := mkSTATE (iMode s) 0 (iFreq s) (iPeriod s) in
    let s := mkSTATE (iMode s) (iAlert s) 30 (iPeriod s) in
    let s := mkSTATE (iMode s) (iAlert s) (iFreq s) 5 in
    WriteFlash (set_state s w)
  else w.

Definition default_state : STATE := mkSTATE MODE_CONTINUOUS ALERT_VIBRATION 30 5.

Definition is_flash_write (e : Event) : bool :=
  match e with CallWriteFlash => true | _ => false end.

(** How many times [WriteFlash] has been called. *)
Definition flash_writes (tr : list Event) : nat := length (filter is_flash_write tr).

(** ** ShowTime and ShowAlert *)

Definition ShowTime_szTemp (iSecs : Z) : list Z :=
  [ 48;
    wrap8 (Z.quot iSecs 60 + 48);
    58;
    wrap8 (Z.quot (Z.rem iSecs 60) 10 + 48);
    wrap8 (Z.rem iSecs 10 + 48) ].

Definition ShowTime (iSecs : Z) (w : World) : World :=
  let w := emit (CallShowTime iSecs) w in
  emit (EvOledWriteBytes 10 56 (ShowTime_szTemp iSecs) Roboto_Black_40) w.

Fixpoint repeat_do (n : nat) (body : World -> World) (w : World) : World :=
  match n with
  | O => w
  | S n' => repeat_do n' body (body w)
  end.

Definition ShowAlert (w : World) : World :=
  let w := emit CallShowAlert w in
  let a := iAlert (state w) in
  if a =? ALERT_VIBRATION then
    repeat_do 3 (fun w => Delay_Ms 820 (Vibrate 150 w)) w
  else if a =? ALERT_LED then
    repeat_do 4 (fun w => BlinkLED LED_RED 300 (BlinkLED LED_GREEN 300 w)) w
  else if a =? ALERT_BOTH then
    repeat_do 3 (fun w => BlinkLED LED_RED 400 (BlinkLED LED_GREEN 400 (Vibrate 150 w))) w
  else w.

(** ** Polling loops

    [while (c(GetButtons())) Delay_Ms(20);] returning the mask that ended
    the loop. *)
Fixpoint wait_while (c : Z -> bool) (fuel : nat) (w : World) : Outcome Z :=
  match fuel with
  | O => Timeout w
  | S f =>
      let (j, w) := GetButtons w in
      if c j then wait_while c f (Delay_Ms 20 w) else Returned j w
  end.

Definition nonzero (z : Z) : bool := negb (z =? 0).

(** ** RunTimer *)

(** One pass of the body of the countdown loop for second [i]; [None] is
    the [return] on both buttons. *)
Definition timer_tick (i iTicks : Z) (w : World) : option Z * World :=
  let w := ShowTime i w in
  let (j, w) := GetButtons w in
  if j =? 3 then (None, w)
  else
    let '(iTicks, w) :=
      if nonzero j && (iTicks =? 0) then (5, oledPower 1 w) else (iTicks, w) in
    let '(iTicks, w) :=
      if i =? 10 then (11, if iTicks =? 0 then oledPower 1 w else w) else (iTicks, w) in
    let '(iTicks, w) :=
      if nonzero iTicks then
        let iTicks := iTicks - 1 in
        (iTicks, if iTicks =? 0 then oledPower 0 w else w)
      else (iTicks, w) in
    let w := BlinkLED (if nonzero (Z.land i 1) then LED_GREEN else LED_RED) 10 w in
    let w := Delay_Ms 990 w in
    (Some iTicks, w).

(** [for (i = n-1; i >= 0; i--)]: the second argument of the pair tells
    whether the loop ran to its end ([true]) or returned on the exit
    gesture ([false]). *)
Fixpoint timer_loop (n : nat) (iTicks : Z) (w : World) : World * bool :=
  match n with
  | O => (w, true)
  | S n' =>
      match timer_tick (Z.of_nat n') iTicks w with
      | (None, w) => (w, false)
      | (Some iTicks, w) => timer_loop n' iTicks w
      end
  end.

Definition RunTimer (w : World) : World :=
  let w := oledFill 0 w in
  let w := oledWriteString 0 0 "Timer Mode" FONT_12x16 w in
  let i := wrap32 (iPeriod (state w) * 60) in
  match timer_loop (Z.to_nat (i + 1)) 5 w with
  | (w, true) => ShowAlert w
  | (w, false) => w
  end.

(** ** RunMenu *)

(** The [switch (iSelItem)] executed when button 1 is pressed; the
    boolean is [bDone]. *)
Definition menu_action (iSelItem : Z) (s : STATE) : STATE * bool :=
  if iSelItem =? MENU_START then (s, true)
  else if iSelItem =? MENU_MODE then
    let m := wrap32 (iMode s + 1) in
    let m := if m >=? MODE_COUNT then 0 else m in
    (mkSTATE m (iAlert s) (iFreq s) (iPeriod s), false)
  else if iSelItem =? MENU_FREQ then
    let f := wrap32 (iFreq s + 15) in
    let f := if f >? 60 then 15 else f in
    (mkSTATE (iMode s) (iAlert s) f (iPeriod s), false)
  else if iSelItem =? MENU_ALERT then
    let a := wrap32 (iAlert s + 1) in
    let a := if a >=? ALERT_COUNT then 0 else a in
    (mkSTATE (iMode s) a (iFreq s) (iPeriod s), false)
  else if iSelItem =? MENU_TIME then
    let p := wrap32 (iPeriod s + 5) in
    let p := if p >? 60 then 5 else p in
    (mkSTATE (iMode s) (iAlert s) (iFreq s) p, false)
  else (s, false).

(** The menu drawing (nine [oledWriteString] calls and two [i2str]) is
    recorded as one event carrying what it shows. *)
Definition draw_menu (iSelItem : Z) (w : World) : World :=
  emit (EvDrawMenu iSelItem (state w)) w.

Fixpoint menu_loop (fuel : nat) (iSelItem : Z) (w : World) : Outcome unit :=
  match fuel with
  | O => Timeout w
  | S f =>
      let w := draw_menu iSelItem w in
      call _, w <- wait_while nonzero f w;
      call _, w <- wait_while (fun j => j =? 0) f w;
      let (y, w) := GetButtons w in
      if nonzero (Z.land y 1) then
        let iSelItem := wrap32 (iSelItem + 1) in
        let iSelItem := if iSelItem =? MENU_COUNT then 0 else iSelItem in
        menu_loop f iSelItem w
      else if nonzero (Z.land y 2) then
        let (s, bDone) := menu_action iSelItem (state w) in
        let w := set_state s w in
        if bDone then Returned tt w else menu_loop f iSelItem w
      else menu_loop f iSelItem w
  end.

Definition RunMenu (fuel : nat) (w : World) : Outcome unit :=
  let iSelItem := 0 in
  let oldstate := state w in
  let w := pinMode MOTOR_PIN OUTPUT w in
  let w := emit EvOledInit w in
  let w := oledFill 0 w in
  let w := emit (EvOledContrast 150) w in
  let w := oledWriteString 4 0 "Pocket CO2" FONT_12x16 w in
  call _, w <- menu_loop fuel iSelItem w;
  if negb (iMode (state w) =? MODE_CALIBRATE) && negb (STATE_eqb (state w) oldstate)
  then Returned tt (WriteFlash w)
  else Returned tt w.

(** ** ShowCurrent

    The text of the reading is drawn by the display collaborator; the
    model keeps the CO2 value shown and the index of the emoji. *)
Definition emoji_index (co2 : Z) : Z :=
  let x := Z.quot (wrap32 (co2 - 500)) 500 in
  if x <? 0 then 0 else if x >? 4 then 4 else x.

Definition ShowCurrent (w : World) : World :=
  let w := I2CSetSpeed 400000 w in
  emit (EvDrawCurrent (_iCO2 w) (emoji_index (_iCO2 w))) w.

(** ** RunLowPower *)

(** The LED cue shown after each sample. *)
Definition co2_led_cue (w : World) : World :=
  if _iCO2 w <? 1000 then
    BlinkLED LED_GREEN 2 w
  else if (_iCO2 w >? 1000) && (_iCO2 w <? 2000) then
    BlinkLED LED_RED 3 (BlinkLED LED_GREEN 2 w)
  else
    BlinkLED LED_RED 3 w.

Record LowPowerVars := mkLP {
  iUITick : Z;
  iSampleTick : Z;
  bWasSuspended : Z
}.

(** One pass of [while (1)] in [RunLowPower]; [None] is the [return]. *)
Definition lowpower_iter (v : LowPowerVars) (w : World) : option LowPowerVars * World :=
  let (i, w) := GetButtons w in
  if i =? 3 then
    let w := if bWasSuspended v =? 1 then I2CInit 50000 w else w in
    (None, scd41_stop w)
  else
    let '(v, w) :=
      if nonzero i && (iUITick v =? 0) then
        let '(v, w) :=
          if bWasSuspended v =? 1
          then (mkLP (iUITick v) (iSampleTick v) 0, I2CInit 400000 w)
          else (v, w) in
        let w := oledPower 1 w in
        let w := ShowCurrent w in
        (mkLP 20 (iSampleTick v) (bWasSuspended v), w)
      else (v, w) in
    let w := Standby82ms 3 w in
    let v := mkLP (iUITick v) (iSampleTick v) 1 in
    let v := mkLP (iUITick v) (wrap32 (iSampleTick v + 1)) (bWasSuspended v) in
    let '(v, w) :=
      if iSampleTick v =? 120 then
        let '(v, w) :=
          if bWasSuspended v =? 1
          then (mkLP (iUITick v) (iSampleTick v) 0, I2CInit 50000 w)
          else (v, I2CSetSpeed 50000 w) in
        let w := scd41_getSample w in
        let w := co2_led_cue w in
        (mkLP (iUITick v) 0 (bWasSuspended v), w)
      else (v, w) in
    let '(v, w) :=
      if iUITick v >? 0 then
        let v := mkLP (iUITick v - 1) (iSampleTick v) (bWasSuspended v) in
        if iUITick v =? 0 then
          let '(v, w) :=
            if nonzero (bWasSuspended v)
            then (mkLP (iUITick v) (iSampleTick v) 0, I2CInit 400000 w)
            else (v, I2CSetSpeed 400000 w) in
          (v, oledPower 0 w)
        else (v, w)
      else (v, w) in
    (Some v, w).

Fixpoint lowpower_loop (fuel : nat) (v : LowPowerVars) (w : World) : Outcome unit :=
  match fuel with
  | O => Timeout w
  | S f =>
      match lowpower_iter v w with
      | (None, w) => Returned tt w
      | (Some v, w) => lowpower_loop f v w
      end
  end.

Definition RunLowPower (fuel : nat) (w : World) : Outcome unit :=
  let w := I2CSetSpeed 50000 w in
  let w := scd41_start SCD_POWERMODE_LOW w in
  lowpower_loop fuel (mkLP 20 0 0) w.

(** ** RunStealth *)

Definition stealth_level (co2 : Z) : Z :=
  let iLevel := wrap32 (1 + Z.quot co2 500) in
  if iLevel <? 1 then 1 else if iLevel >? 6 then 6 else iLevel.

(** [for (j=0; j<iLevel; j++) { Vibrate(100); Delay_Ms(395); iTick += 2; }] *)
Fixpoint buzz (n : nat) (iTick : Z) (w : World) : Z * World :=
  match n with
  | O => (iTick, w)
  | S n' =>
      let w := Vibrate 100 w in
      let w := Delay_Ms 395 w in
      buzz n' (wrap32 (iTick + 2)) w
  end.

(** One pass of [while (1)] in [RunStealth] after the exit test; the
    result is the new [(iTick, iLevel)]. *)
Definition stealth_body (iUpdate iTick iLevel : Z) (w : World) : (Z * Z) * World :=
  let w := Delay_Ms 250 w in
  let '(iLevel, w) :=
    if Z.rem iTick 20 =? 19 then
      let w := scd41_getSample w in
      (stealth_level (_iCO2 w), w)
    else (iLevel, w) in
  let '(iTick, w) :=
    if Z.rem iTick iUpdate =? wrap32 (iUpdate - 1)
    then buzz (Z.to_nat iLevel) iTick w
    else (iTick, w) in
  ((wrap32 (iTick + 1), iLevel), w).

Fixpoint stealth_loop (fuel : nat) (iUpdate iTick iLevel : Z) (w : World) : Outcome unit :=
  match fuel with
  | O => Timeout w
  | S f =>
      let (j, w) := GetButtons w in
      if j =? 3 then
        let w := oledFill 0 w in
        Returned tt (scd41_stop w)
      else
        let '((iTick, iLevel), w) := stealth_body iUpdate iTick iLevel w in
        stealth_loop f iUpdate iTick iLevel w
  end.

Definition RunStealth (fuel : nat) (w : World) : Outcome unit :=
  let iTick := 0 in
  let iLevel := 1 in
  let iUpdate := wrap32 (iFreq (state w) * 4) in
  let w := oledFill 0 w in
  let w := oledWriteString 22 0 "Stealth" FONT_12x16 w in
  let w := oledWriteString 0 16 "CO2 measurements will" FONT_6x8 w in
  let w := oledWriteString 0 24 "be converted to 1-6" FONT_6x8 w in
  let w := oledWriteString 0 32 "pulses. 1=good, 6=bad" FONT_6x8 w in
  let w := oledWriteString 0 56 "press button to start" FONT_6x8 w in
  call _, w <- wait_while nonzero fuel w;
  call _, w <- wait_while (fun j => j =? 0) fuel w;
  let w := oledFill 0 w in
  let w := oledPower 0 w in
  let w := I2CSetSpeed 50000 w in
  let w := scd41_start SCD_POWERMODE_NORMAL w in
  stealth_loop fuel iUpdate iTick iLevel w.

(** Rising edges of the motor pin: the vibration pulses. *)
Definition is_pulse (e : Event) : bool :=
  match e with
  | EvDigitalWrite pin v => (pin =? MOTOR_PIN) && (v =? 1)
  | _ => false
  end.

Definition pulses (tr : list Event) : nat := length (filter is_pulse tr).

(** ** RunCalibrate *)

(** [for (i = n-1; i >= 0; i--)] of the calibration countdown; [false]
    is the [return] after the user quit. *)
Fixpoint calib_countdown (n : nat) (w : World) : World * bool :=
  match n with
  | O => (w, true)
  | S n' =>
      let w := ShowTime (Z.of_nat n') w in
      let (j, w) := GetButtons w in
      if j =? 3 then (scd41_stop w, false)
      else calib_countdown n' (Delay_Ms 1000 w)
  end.

Definition RunCalibrate (fuel : nat) (w : World) : Outcome unit :=
  let w := oledFill 0 w in
  let w := oledWriteString 10 0 "Calibrate" FONT_12x16 w in
  let w := oledWriteString 0 16 "Place device in a" FONT_6x8 w in
  let w := oledWriteString 0 24 "free air environment." FONT_6x8 w in
  let w := oledWriteString 0 32 "Press either button" FONT_6x8 w in
  let w := oledWriteString 0 40 "to start. When timer" FONT_6x8 w in
  let w := oledWriteString 0 48 "finishes, result will" FONT_6x8 w in
  let w := oledWriteString 0 56 "show success or fail" FONT_6x8 w in
  call _, w <- wait_while nonzero fuel w;
  call j, w <- wait_while (fun j => j =? 0) fuel w;
  if j =? 3 then Returned tt w
  else
    let w := oledFill 0 w in
    let w := oledWriteString 0 0 "Calibration running" FONT_6x8 w in
    let w := I2CSetSpeed 50000 w in
    let w := scd41_start SCD_POWERMODE_NORMAL w in
    match calib_countdown (Z.to_nat (210 + 1)) w with
    | (w, false) => Returned tt w
    | (w, true) =>
        let w := oledClearLine 24 w in
        let w := oledClearLine 32 w in
        let w := oledClearLine 40 w in
        let w := oledClearLine 48 w in
        let w := scd41_stop w in
        let (i, w) := scd41_recalibrate 423 w in
        let w := if i =? SCD_SUCCESS
                 then oledWriteString 0 32 "Success!" FONT_12x16 w
                 else oledWriteString 0 32 "Failed" FONT_12x16 w in
        let w := oledWriteString 0 56 "Press button to exit" FONT_6x8 w in
        call _, w <- wait_while (fun j => j =? 0) fuel w;
        Returned tt w
    end.

(** ** The continuous-mode branch of main *)

(** [for (i=0; i<61; i+=3)]: sleep, then poll the buttons.  The result is
    [(true, bWasSuspended)] when both buttons were seen (the path that
    stops the sensor and jumps to [menu_top]). *)
Fixpoint cont_poll (n : nat) (i bWas : Z) (w : World) : (bool * Z) * World :=
  if i <? 61 then
    match n with
    | O => ((false, bWas), w)
    | S n' =>
        let w := Standby82ms 3 w in
        let bWas := 1 in
        let (j, w) := GetButtons w in
        if j =? 3 then
          let '(bWas, w) := if bWas =? 1 then (0, I2CInit 50000 w) else (bWas, w) in
          ((true, bWas), scd41_stop w)
        else cont_poll n' (i + 3) bWas w
    end
  else ((false, bWas), w).

(** The statement [if (iSample == 16 && state.iMode != MODE_CONTINUOUS) oledPower(0);] *)
Definition display_off_guard (w : World) : bool :=
  (iSample w =? 16) && negb (iMode (state w) =? MODE_CONTINUOUS).

Fixpoint cont_loop (fuel : nat) (bWas : Z) (w : World) : Outcome Z :=
  match fuel with
  | O => Timeout w
  | S f =>
      let w := I2CInit 50000 w in
      let w := scd41_getSample w in
      let w := set_iSample (wrap32 (iSample w + 1)) w in
      let w := if display_off_guard w then oledPower 0 w else w in
      let w := ShowCurrent w in
      match cont_poll 61 0 bWas w with
      | ((true, bWas), w) => Returned bWas w
      | ((false, bWas), w) => cont_loop f bWas w
      end
  end.

Definition RunContinuous (fuel : nat) (bWas : Z) (w : World) : Outcome Z :=
  let w := I2CSetSpeed 50000 w in
  let w := scd41_start SCD_POWERMODE_NORMAL w in
  let w := Standby82ms 59 w in
  cont_loop fuel bWas w.

(** ** main *)

Definition szMode : list string :=
  ["Continuous"; "Low Power "; "Stealth   "; "Calibrate "; "Timer     "]%string.

(** Which branch of the [if]/[else if] chain after [RunMenu] is taken. *)
Inductive Branch := BrTimer | BrCalibrate | BrLowPower | BrStealth | BrContinuous.

Definition dispatch (s : STATE) : Branch :=
  if iMode s =? MODE_TIMER then BrTimer
  else if iMode s =? MODE_CALIBRATE then BrCalibrate
  else if iMode s =? MODE_LOW_POWER then BrLowPower
  else if iMode s =? MODE_STEALTH then BrStealth
  else BrContinuous.

(** The run-mode selected by [dispatch]; the value carried is main's
    local [bWasSuspended]. *)
Definition run_mode (fuel : nat) (bWas : Z) (w : World) : Outcome Z :=
  match dispatch (state w) with
  | BrTimer => Returned bWas (RunTimer w)
  | BrCalibrate => call _, w <- RunCalibrate fuel w; Returned bWas w
  | BrLowPower => call _, w <- RunLowPower fuel w; Returned bWas w
  | BrStealth => call _, w <- RunStealth fuel w; Returned bWas w
  | BrContinuous => RunContinuous fuel bWas w
  end.

(** From [menu_top:] to the next [goto menu_top]. *)
Definition main_session (fuel : nat) (bWas : Z) (w : World) : Outcome Z :=
  call _, w <- RunMenu fuel w;
  let w := oledFill 0 w in
  let w := oledWriteString 0 0 (nth (Z.to_nat (iMode (state w))) szMode ""%string) FONT_8x8 w in
  let w := oledWriteString 0 8 "Starting..." FONT_8x8 w in
  run_mode fuel bWas w.

Fixpoint main_loop (sessions fuel : nat) (bWas : Z) (w : World) : Outcome Z :=
  match sessions with
  | O => Returned bWas w
  | S n =>
      call bWas, w <- main_session fuel bWas w;
      main_loop n fuel bWas w
  end.

(** [main] never returns; the model runs it for a number of sessions. *)
Definition main (sessions fuel : nat) (w : World) : Outcome Z :=
  let bWasSuspended := 0 in
  let w := ReadFlash w in
  let w := pinMode MOTOR_PIN OUTPUT w in
  let w := digitalWrite MOTOR_PIN 0 w in
  let s := state w in
  let w := set_state (mkSTATE (iMode s) ALERT_LED (iFreq s) (iPeriod s)) w in
  let w := ShowAlert w in
  main_loop sessions fuel bWasSuspended w.

(** ** Observations on traces *)

Definition is_sensor_call (e : Event) : bool :=
  match e with
  | EvSensorStart _ | EvSensorStop => true
  | _ => false
  end.

(** The start and stop calls made to the sensor, most recent first. *)
Definition sensor_calls (tr : list Event) : list Event := filter is_sensor_call tr.



Inductive TimerCall := TShowTime (iSecs : Z) | TShowAlert.

(** The calls of [ShowTime] and [ShowAlert], most recent first. *)
Fixpoint timer_calls (tr : list Event) : list TimerCall :=
  match tr with
  | [] => []
  | CallShowTime i :: r => TShowTime i :: timer_calls r
  | CallShowAlert :: r => TShowAlert :: timer_calls r
  | _ :: r => timer_calls r
  end.

(** Inputs for examples: a stream of button masks, 0 after its end. *)
Definition levels_of_mask (m : Z) : Z * Z :=
  (if Z.testbit m 0 then 0 else 1, if Z.testbit m 1 then 0 else 1).

Definition env_of (masks : list Z) (co2 : Z) (code : Z) : Env :=
  mkEnv (fun n => levels_of_mask (nth n masks 0)) (fun _ => co2) (fun _ => code).

Definition boot (e : Env) (s : STATE) : World :=
  mkWorld e s (repeat ERASED PAGE_WORDS) 0 0 0 0 0 [].

(** [activate item s] is the settings record after button 1 is pressed on
    [item]. *)
Definition activate (item : Z) (s : STATE) : STATE := fst (menu_action item s).

Definition is_digit (c : Z) : bool := (48 <=? c) && (c <=? 57).

(** Reading a five-character "0M:SS" string back as a number of seconds;
    [None] when a position does not hold what the format asks for. *)
Definition decode_0M_SS (s : list Z) : option Z :=
  match s with
  | [c0; c1; c2; c3; c4] =>
      if (c0 =? 48) && is_digit c1 && (c2 =? 58) && is_digit c3 && (c3 <=? 53) && is_digit c4
      then Some ((c1 - 48) * 60 + (c3 - 48) * 10 + (c4 - 48))
      else None
  | _ => None
  end.

(** The values the Timer and Update menu items step through. *)
Definition period_cycle : list Z := [5; 10; 15; 20; 25; 30; 35; 40; 45; 50; 55; 60].
Definition freq_cycle : list Z := [15; 30; 45; 60].

(** The mask [GetButtons] returns at its k-th call from [w] on. *)
Definition mask_at (w : World) (k : nat) : Z :=
  button_mask (button_levels (env w) (nbtn w + k)).

(** [ShowTime n-1], ..., [ShowTime from] as [timer_calls] lists them. *)
Definition ticks (from len : nat) : list TimerCall :=
  map (fun k => TShowTime (Z.of_nat k)) (seq from len).

Definition is_tick (c : TimerCall) : bool :=
  match c with TShowTime _ => true | TShowAlert => false end.

Definition tick_count (tr : list Event) : nat := length (filter is_tick (timer_calls tr)).
Definition alert_count (tr : list Event) : nat :=
  length (filter (fun c => negb (is_tick c)) (timer_calls tr)).

Definition sensor_starts (tr : list Event) : nat :=
  length (filter (fun e => match e with EvSensorStart _ => true | _ => false end) tr).

Definition sensor_stops (tr : list Event) : nat :=
  length (filter (fun e => match e with EvSensorStop => true | _ => false end) tr).

(** Example inputs.  In the menu a press is read three times: once by
    the wait for release (0), once by the wait for a press and once as
    the value acted on. *)
Definition menu_world_mode : World :=
  boot (env_of [0;1;1; 0;2;2; 0;1;1; 0;1;1; 0;1;1; 0;1;1; 0;2;2] 0 0) (mkSTATE 0 0 30 5).

Definition menu_world_calibrate : World :=
  boot (env_of [0;1;1; 0;2;2; 0;2;2; 0;2;2; 0;1;1; 0;1;1; 0;1;1; 0;1;1; 0;2;2] 0 0)
       (mkSTATE 0 0 30 5).

(** The calls by which a calibration session is judged: the countdown
    shown, the one-second delays, the sensor calls and the result text. *)
Definition is_calib_event (e : Event) : bool :=
  match e with
  | CallShowTime _ | EvSensorStart _ | EvSensorStop | EvSensorRecalibrate _ => true
  | EvDelay_Ms ms => ms =? 1000
  | EvOledWriteString _ y _ FONT_12x16 => y =? 32
  | _ => false
  end.

Definition calib_view (tr : list Event) : list Event := filter is_calib_event tr.

(** The seconds n-1 down to 0 shown and waited for, most recent first. *)
Definition countdown_view (n : nat) : list Event :=
  flat_map (fun k => [EvDelay_Ms 1000; CallShowTime (Z.of_nat k)]) (seq 0 n).

(** The reference values passed to [scd41_recalibrate]. *)
Fixpoint recal_refs (tr : list Event) : list Z :=
  match tr with
  | [] => []
  | EvSensorRecalibrate r :: t => r :: recal_refs t
  | _ :: t => recal_refs t
  end.

(** The LEDs switched on, most recent first. *)
Fixpoint led_blinks (tr : list Event) : list Z :=
  match tr with
  | [] => []
  | EvDigitalWrite pin v :: t =>
      if ((pin =? LED_GREEN) || (pin =? LED_RED)) && (v =? 1)
      then pin :: led_blinks t
      else led_blinks t
  | _ :: t => led_blinks t
  end.

(** A LowPower session left alone until its first sample (120 passes of
    82 ms x 3), which reads [co2], and then ended with both buttons. *)
Definition lowpower_sampling (co2 : Z) : World :=
  boot (env_of (repeat 0 120 ++ [3]) co2 0) (mkSTATE 1 0 30 5).

(** [clamp(x, lo, hi)] and the Stealth level as the specification words
    them. *)
Definition clamp (x lo hi : Z) : Z := Z.max lo (Z.min hi x).
Definition spec_level (co2 : Z) : Z := clamp (1 + Z.quot co2 500) 1 6.

Definition lowpower_world : World :=
  boot (env_of [0; 1; 0; 3] 800 0) (mkSTATE 1 0 30 5).

Definition stealth_world : World :=
  boot (env_of [0; 1; 0; 0; 3] 750 0) (mkSTATE 2 0 15 5).

Definition continuous_world : World :=
  boot (env_of [0; 0; 3] 600 0) (mkSTATE 0 0 30 5).

(** Calibration started with button 0, left alone during the countdown
    and ended with button 1. *)
Definition calibrate_world : World :=
  boot (env_of ([0; 1] ++ repeat 0 211 ++ [2]) 400 0) (mkSTATE 3 0 30 5).


Definition timer_world : World :=
  boot (env_of [] 0 0) (mkSTATE 4 0 30 1).

(** ** i2str

    The string is kept as the list of the bytes written before the
    terminator.  One pass of [while (iPlaceVal)] for the place value
    [iPlaceVal]; the state is [(iVal, iDigits, d)]. *)
Definition i2str_step (iPlaceVal : Z) (st : Z * Z * list Z) : Z * Z * list Z :=
  let '(iVal, iDigits, d) := st in
  if iVal >=? iPlaceVal then
    let i := Z.quot iVal iPlaceVal in
    let d := d ++ [wrap8 (48 + wrap8 i)] in
    let iVal := wrap32 (iVal - wrap32 (i * iPlaceVal)) in
    (iVal, wrap32 (iDigits + 1), d)
  else if nonzero iDigits then (iVal, iDigits, d ++ [48])
  else (iVal, iDigits, d).

Fixpoint i2str_loop (fuel : nat) (iPlaceVal : Z) (st : Z * Z * list Z) : Z * Z * list Z :=
  if iPlaceVal =? 0 then st
  else
    match fuel with
    | O => st
    | S f => i2str_loop f (Z.quot iPlaceVal 10) (i2str_step iPlaceVal st)
    end.

(** [i2str] returns the bytes written and the length it reports.  Five
    divisions by ten take [iPlaceVal] from 10000 to 0. *)
Definition i2str (iVal : Z) : list Z * Z :=
  let st := if iVal <? 0 then (wrap32 (- iVal), 1, [45]) else (iVal, 0, []) in
  let '(_, _, d) := i2str_loop 5 10000 st in
  let d := match d with [] => [48] | _ => d end in
  (d, wrap32 (Z.of_nat (length d))).

(** The number a string of decimal digits denotes. *)
Definition decimal_value (s : list Z) : Z :=
  fold_left (fun acc c => acc * 10 + (c - 48)) s 0.

(** The temperature text of [ShowCurrent]: whole part, ".", fraction and
    "C ", as the four [oledWriteStringCustom] calls write it, for the
    reading [t] in tenths of a degree. *)
Definition ShowCurrent_temperature (t : Z) : list Z :=
  fst (i2str (Z.quot t 10)) ++ [46] ++ fst (i2str (Z.rem t 10)) ++ [67; 32].

(** ** Further observations *)

(** The settings, the FLASH page and the number of [WriteFlash] calls. *)
Definition persistent_view (w : World) : STATE * list Z * nat :=
  (state w, flash w, flash_writes (trace w)).

(** The arguments of [oledPower], most recent first. *)
Fixpoint power_events (tr : list Event) : list Z :=
  match tr with
  | [] => []
  | EvOledPower on :: t => on :: power_events t
  | _ :: t => power_events t
  end.

(** The milliseconds spent in [Delay_Ms]. *)
Fixpoint busy_ms (tr : list Event) : Z :=
  match tr with
  | [] => 0
  | EvDelay_Ms ms :: t => ms + busy_ms t
  | _ :: t => busy_ms t
  end.

Definition state_in_int32 (s : STATE) : Prop :=
  in_int32 (iMode s) /\ in_int32 (iAlert s) /\ in_int32 (iFreq s) /\ in_int32 (iPeriod s).

(** Settings whose four fields hold values the menu can show. *)
Definition well_formed (s : STATE) : Prop :=
  0 <= iMode s < MODE_COUNT /\ 0 <= iAlert s < ALERT_COUNT
  /\ 15 <= iFreq s <= 60 /\ 5 <= iPeriod s <= 60.

(** [main] up to the label [menu_top]. *)
Definition main_boot (w : World) : World :=
  let w := ReadFlash w in
  let w := pinMode MOTOR_PIN OUTPUT w in
  let w := digitalWrite MOTOR_PIN 0 w in
  let s := state w in
  let w := set_state (mkSTATE (iMode s) ALERT_LED (iFreq s) (iPeriod s)) w in
  ShowAlert w.

(** The mask read at the n-th [GetButtons] call since power-up. *)
Definition mask_abs (w : World) (n : nat) : Z := button_mask (button_levels (env w) n).

(** The decimal digit of [v] at place value [k], as a character. *)
Definition digit_of (v k : Z) : Z := 48 + (v / k) mod 10.

(** The place values [i2str] goes through. *)
Definition places : list Z := [10000; 1000; 100; 10; 1].

(** No button is pressed at any of the next [n] polls. *)
Definition idle (w : World) (n : nat) : Prop := forall k, (k < n)%nat -> mask_at w k = 0.

(** ** The button stream of a session *)

(** [scan c fuel e n] follows [while (c(GetButtons())) Delay_Ms(20);] on
    the button stream of [e], the first poll being number [n]: the mask
    that ended the loop and the number of the next poll, or [None] when
    [fuel] polls did not end it. *)
Fixpoint scan (c : Z -> bool) (fuel : nat) (e : Env) (n : nat) : option (Z * nat) :=
  match fuel with
  | O => None
  | S f =>
      let j := button_mask (button_levels e n) in
      if c j then scan c f e (S n) else Some (j, S n)
  end.

(** The two loops of a start prompt, "wait for release" and "wait for a
    press": the mask of the press and the number of the next poll. *)
Definition prompt_end (fuel : nat) (e : Env) (n : nat) : option (Z * nat) :=
  match scan nonzero fuel e n with
  | Some (_, n1) => scan (fun j => j =? 0) fuel e n1
  | None => None
  end.

(** [RunCalibrate] from the [oledFill(0)] after its prompt on. *)
Definition RunCalibrate_started (fuel : nat) (w : World) : Outcome unit :=
  let w := oledFill 0 w in
  let w := oledWriteString 0 0 "Calibration running" FONT_6x8 w in
  let w := I2CSetSpeed 50000 w in
  let w := scd41_start SCD_POWERMODE_NORMAL w in
  match calib_countdown (Z.to_nat (210 + 1)) w with
  | (w, false) => Returned tt w
  | (w, true) =>
      let w := oledClearLine 24 w in
      let w := oledClearLine 32 w in
      let w := oledClearLine 40 w in
      let w := oledClearLine 48 w in
      let w := scd41_stop w in
      let (i, w) := scd41_recalibrate 423 w in
      let w := if i =? SCD_SUCCESS
               then oledWriteString 0 32 "Success!" FONT_12x16 w
               else oledWriteString 0 32 "Failed" FONT_12x16 w in
      let w := oledWriteString 0 56 "Press button to exit" FONT_6x8 w in
      call _, w <- wait_while (fun j => j =? 0) fuel w;
      Returned tt w
  end.

(** A calibration cancelled at its prompt, and one quit during the
    countdown. *)
Definition calibrate_cancel_world : World :=
  boot (env_of [0; 3] 400 0) (mkSTATE 3 0 30 5).

Definition calibrate_quit_world : World :=
  boot (env_of [0; 1; 0; 0; 3] 400 0) (mkSTATE 3 0 30 5).


(** A device whose settings page holds mode Stealth with an update
    period of 1 second; the user starts the stored mode from the menu and
    lets it run. *)
Definition stored_period1_world : World :=
  mkWorld (env_of [0; 2; 2; 0; 1] 750 0) (mkSTATE 0 0 0 0)
          ([2; 0; 1; 20] ++ repeat ERASED (PAGE_WORDS - 4)) 0 0 0 0 0 [].

(** The pulses of the first [c] update cycles of a Stealth session with
    update period [f] seconds that began when [s0] samples had been read:
    a sample is taken every 5 s, so cycle [k] ends with the sample number
    [k * (f / 5)] of the session, and has the level of that sample. *)
Fixpoint cycle_pulses (e : Env) (s0 : nat) (f : Z) (c : nat) : Z :=
  match c with
  | O => 0
  | S c' =>
      cycle_pulses e s0 f c'
      + spec_level (sensor_co2 e (s0 + c * Z.to_nat (f / 5) - 1))
  end.

(** The invariant of the loop of [RunStealth], in a session with update
    period [f] that began with [s0] samples read and [P0] pulses given:
    [t] quarter-second ticks into the session, the samples of the ticks
    19, 39, ... below [t] have been read and the pulses of the cycles
    that ended below [t] have been given. *)
Definition stealth_inv (e : Env) (s0 P0 : nat) (f t : Z) (w : World) : Prop :=
  env w = e
  /\ 0 <= t
  /\ Z.of_nat (nsmp w) = Z.of_nat s0 + t / 20
  /\ Z.of_nat (pulses (trace w))
     = Z.of_nat P0 + cycle_pulses e s0 f (Z.to_nat (t / (4 * f))).

(** A Stealth session at 750 ppm with a 15 s update period, left after
    130 passes of its loop. *)
Definition stealth_cycles_world : World :=
  boot (env_of ([0; 1] ++ repeat 0 130 ++ [3]) 750 0) (mkSTATE 2 0 15 5).

(** The argument of the latest [ShowTime] call of a trace. *)
Fixpoint last_shown (tr : list Event) : option Z :=
  match tr with
  | [] => None
  | CallShowTime i :: _ => Some i
  | _ :: r => last_shown r
  end.

(** The [oledPower] calls of a trace, each with the second that was on
    the display when it was made, and the [ShowAlert] calls; most recent
    first. *)
Inductive DisplayEvent :=
  | PowerAt (iSecs : option Z) (bOn : Z)
  | AlertShown.

Fixpoint display_schedule (tr : list Event) : list DisplayEvent :=
  match tr with
  | [] => []
  | EvOledPower on :: r => PowerAt (last_shown r) on :: display_schedule r
  | CallShowAlert :: r => AlertShown :: display_schedule r
  | _ :: r => display_schedule r
  end.

(** * Theorems *)

(** ** ConfigStore: ReadFlash and WriteFlash *)

Lemma wrap32_id (z : Z) : in_int32 z -> wrap32 z = z.
Proof.
  unfold in_int32, wrap32. intros H.
  rewrite Z.mod_small by lia. lia.
Qed.

Lemma wrap32_range (z : Z) : in_int32 (wrap32 z).
Proof.
  unfold in_int32, wrap32.
  pose proof (Z.mod_pos_bound (z + 2147483648) 4294967296 ltac:(lia)). lia.
Qed.

(** C1: [ReadFlash] accepts the persisted record exactly when its period
    word, read as an [int], lies in [5,60], and then leaves record, FLASH
    and trace as they are; otherwise it installs the defaults
    {Continuous, Vibration, 30, 5}, calls [WriteFlash] once, the page then
    holds the defaults, and loading again changes nothing. *)
Theorem ReadFlash_self_healing (w : World) :
  let p := iPeriod (persisted (flash w)) in
  let w1 := ReadFlash w in
  if (5 <=? p) && (p <=? 60) then
    state w1 = persisted (flash w) /\ flash w1 = flash w /\ trace w1 = trace w
  else
    state w1 = default_state
    /\ flash_writes (trace w1) = S (flash_writes (trace w))
    /\ persisted (flash w1) = default_state
    /\ ReadFlash w1 = w1.
Proof.
  cbv zeta. unfold ReadFlash.
  change (iPeriod (state (set_state (persisted (flash w)) w)))
    with (iPeriod (persisted (flash w))).
  destruct (5 <=? iPeriod (persisted (flash w))) eqn:Hlo;
    destruct (iPeriod (persisted (flash w)) <=? 60) eqn:Hhi; cbn [andb].
  - replace (iPeriod (persisted (flash w)) <? 5) with false by (symmetry; lia).
    replace (iPeriod (persisted (flash w)) >? 60) with false by (symmetry; lia).
    cbn. auto.
  - replace (iPeriod (persisted (flash w)) >? 60) with true by (symmetry; lia).
    rewrite orb_true_r. repeat split.
  - replace (iPeriod (persisted (flash w)) <? 5) with true by (symmetry; lia).
    repeat split.
  - replace (iPeriod (persisted (flash w)) <? 5) with true by (symmetry; lia).
    repeat split.
Qed.

(** ** Menu *)

Lemma activate_start (s : STATE) : menu_action MENU_START s = (s, true).
Proof. reflexivity. Qed.

Lemma menu_action_done (item : Z) (s s' : STATE) :
  menu_action item s = (s', true) -> item = MENU_START /\ s' = s.
Proof.
  unfold menu_action.
  destruct (item =? MENU_START) eqn:E0.
  - intros H. inversion H. split; [lia | reflexivity].
  - destruct (item =? MENU_MODE); [discriminate|].
    destruct (item =? MENU_FREQ); [discriminate|].
    destruct (item =? MENU_ALERT); [discriminate|].
    destruct (item =? MENU_TIME); discriminate.
Qed.

(** C8: on the enumerated values every menu field cycles and wraps: five
    activations of Mode, four of Update (15, 30, 45, 60, 15), three of
    Alert and twelve of Timer (5, 10, ..., 60, 5) give the record back,
    and an activation changes no field but its own. *)
Theorem menu_field_cycling (s : STATE) :
  0 <= iMode s < MODE_COUNT ->
  In (iFreq s) freq_cycle ->
  0 <= iAlert s < ALERT_COUNT ->
  In (iPeriod s) period_cycle ->
  Nat.iter 5 (activate MENU_MODE) s = s
  /\ Nat.iter 4 (activate MENU_FREQ) s = s
  /\ Nat.iter 3 (activate MENU_ALERT) s = s
  /\ Nat.iter 12 (activate MENU_TIME) s = s
  /\ activate MENU_MODE s
     = mkSTATE (if iMode s =? 4 then 0 else iMode s + 1) (iAlert s) (iFreq s) (iPeriod s)
  /\ activate MENU_FREQ s
     = mkSTATE (iMode s) (iAlert s) (if iFreq s =? 60 then 15 else iFreq s + 15) (iPeriod s)
  /\ activate MENU_ALERT s
     = mkSTATE (iMode s) (if iAlert s =? 2 then 0 else iAlert s + 1) (iFreq s) (iPeriod s)
  /\ activate MENU_TIME s
     = mkSTATE (iMode s) (iAlert s) (iFreq s) (if iPeriod s =? 60 then 5 else iPeriod s + 5).
Proof.
  destruct s as [m a f p]. unfold MODE_COUNT, ALERT_COUNT, freq_cycle, period_cycle.
  cbn [iMode iAlert iFreq iPeriod In].
  intros Hm Hf Ha Hp.
  assert (Em : m = 0 \/ m = 1 \/ m = 2 \/ m = 3 \/ m = 4) by lia.
  assert (Ea : a = 0 \/ a = 1 \/ a = 2) by lia.
  repeat split.
  - clear Hf Ha Hp Ea. intuition subst; reflexivity.
  - clear Hm Ha Hp Em Ea. intuition subst; reflexivity.
  - clear Hm Hf Hp Em. intuition subst; reflexivity.
  - clear Hm Hf Ha Em Ea. intuition subst; reflexivity.
  - clear Hf Ha Hp Ea. intuition subst; reflexivity.
  - clear Hm Ha Hp Em Ea. intuition subst; reflexivity.
  - clear Hm Hf Hp Em. intuition subst; reflexivity.
  - clear Hm Hf Ha Em Ea. intuition subst; reflexivity.
Qed.

Lemma menu_field_cycling_witness :
  Nat.iter 5 (activate MENU_MODE) (mkSTATE 3 1 45 20) = mkSTATE 3 1 45 20
  /\ Nat.iter 12 (activate MENU_TIME) (mkSTATE 3 1 45 20) = mkSTATE 3 1 45 20.
Proof.
  pose proof (menu_field_cycling (mkSTATE 3 1 45 20)) as H.
  cbn [iMode iAlert iFreq iPeriod] in H.
  destruct H as (H1 & _ & _ & H4 & _).
  - unfold MODE_COUNT; lia.
  - unfold freq_cycle; cbn; tauto.
  - unfold ALERT_COUNT; lia.
  - unfold period_cycle; cbn; tauto.
  - split; assumption.
Defined.

(** ** Timer *)

Ltac break_if :=
  match goal with
  | |- context [if ?c then _ else _] => destruct c eqn:?
  end.

Lemma GetButtons_spec (w : World) :
  fst (GetButtons w) = mask_at w 0
  /\ env (snd (GetButtons w)) = env w
  /\ state (snd (GetButtons w)) = state w
  /\ nbtn (snd (GetButtons w)) = S (nbtn w)
  /\ timer_calls (trace (snd (GetButtons w))) = timer_calls (trace w).
Proof.
  unfold GetButtons, mask_at. cbn. rewrite Nat.add_0_r. auto.
Qed.

Lemma timer_tick_spec (i t : Z) (w : World) :
  env (snd (timer_tick i t w)) = env w
  /\ state (snd (timer_tick i t w)) = state w
  /\ nbtn (snd (timer_tick i t w)) = S (nbtn w)
  /\ timer_calls (trace (snd (timer_tick i t w))) = TShowTime i :: timer_calls (trace w)
  /\ (fst (timer_tick i t w) = None <-> mask_at w 0 = 3).
Proof.
  unfold timer_tick, GetButtons, mask_at. cbn. rewrite Nat.add_0_r.
  set (j := button_mask _).
  destruct (j =? 3) eqn:Ej.
  - cbn. repeat split; auto. intros _. lia.
  - repeat break_if; cbn; repeat split; auto; try discriminate; intros; lia.
Qed.

Lemma mask_at_shift (w w1 : World) (k : nat) :
  env w1 = env w -> nbtn w1 = S (nbtn w) -> mask_at w1 k = mask_at w (S k).
Proof.
  intros He Hn. unfold mask_at. rewrite He, Hn.
  f_equal. f_equal. lia.
Qed.

Lemma ticks_snoc (a n : nat) :
  ticks a n ++ [TShowTime (Z.of_nat (a + n))] = ticks a (S n).
Proof.
  unfold ticks. rewrite seq_S, map_app. reflexivity.
Qed.

Lemma timer_loop_full (n : nat) : forall (t : Z) (w : World),
  (forall k, (k < n)%nat -> mask_at w k <> 3) ->
  snd (timer_loop n t w) = true
  /\ state (fst (timer_loop n t w)) = state w
  /\ timer_calls (trace (fst (timer_loop n t w))) = ticks 0 n ++ timer_calls (trace w).
Proof.
  induction n as [|n IH]; intros t w Hno.
  - cbn. auto.
  - cbn [timer_loop].
    destruct (timer_tick_spec (Z.of_nat n) t w) as (He & Hs & Hn & Htr & Hex).
    destruct (timer_tick (Z.of_nat n) t w) as [[t'|] w1]; cbn [fst snd] in *.
    + destruct (IH t' w1) as (R1 & R2 & R3).
      { intros k Hk. rewrite (mask_at_shift w w1 k He Hn). apply Hno. lia. }
      rewrite R1, R2, R3, Htr, Hs. repeat split.
      rewrite <- ticks_snoc, <- app_assoc. reflexivity.
    + exfalso. apply (Hno 0%nat); [lia | apply Hex; reflexivity].
Qed.

Lemma timer_loop_exit (n : nat) : forall (t : Z) (w : World) (k : nat),
  (k < n)%nat ->
  mask_at w k = 3 ->
  (forall k', (k' < k)%nat -> mask_at w k' <> 3) ->
  snd (timer_loop n t w) = false
  /\ state (fst (timer_loop n t w)) = state w
  /\ timer_calls (trace (fst (timer_loop n t w)))
     = ticks (n - 1 - k) (S k) ++ timer_calls (trace w).
Proof.
  induction n as [|n IH]; intros t w k Hk H3 Hfirst; [lia|].
  cbn [timer_loop].
  destruct (timer_tick_spec (Z.of_nat n) t w) as (He & Hs & Hn & Htr & Hex).
  destruct (timer_tick (Z.of_nat n) t w) as [[t'|] w1]; cbn [fst snd] in *.
  - destruct k as [|k].
    + destruct Hex as [_ Hex]. specialize (Hex H3). discriminate.
    + destruct (IH t' w1 k) as (R1 & R2 & R3).
      * lia.
      * rewrite (mask_at_shift w w1 k He Hn). exact H3.
      * intros k' Hk'. rewrite (mask_at_shift w w1 k' He Hn). apply Hfirst. lia.
      * rewrite R1, R2, R3, Htr, Hs. repeat split.
        replace (S n - 1 - S k)%nat with (n - 1 - k)%nat by lia.
        rewrite <- (ticks_snoc (n - 1 - k) (S k)), <- app_assoc.
        replace (n - 1 - k + S k)%nat with n by lia. reflexivity.
  - destruct k as [|k].
    + rewrite Htr, Hs. repeat split.
      replace (S n - 1 - 0)%nat with n by lia. reflexivity.
    + exfalso. apply (Hfirst 0%nat); [lia | apply Hex; reflexivity].
Qed.

Lemma ShowAlert_timer_calls (w : World) :
  timer_calls (trace (ShowAlert w)) = TShowAlert :: timer_calls (trace w).
Proof.
  unfold ShowAlert. cbn. repeat break_if; reflexivity.
Qed.

Lemma tick_count_ticks (a n : nat) (l : list TimerCall) :
  length (filter is_tick (ticks a n ++ l)) = (n + length (filter is_tick l))%nat.
Proof.
  unfold ticks. revert a. induction n as [|n IH]; intros a; [reflexivity|].
  cbn [seq map app filter is_tick length]. rewrite (IH (S a)). reflexivity.
Qed.

Lemma alert_count_ticks (a n : nat) (l : list TimerCall) :
  filter (fun c => negb (is_tick c)) (ticks a n ++ l) = filter (fun c => negb (is_tick c)) l.
Proof.
  unfold ticks. revert a. induction n as [|n IH]; intros a; [reflexivity|].
  cbn [seq map app filter is_tick negb]. apply (IH (S a)).
Qed.

(** C4: with no exit gesture at any of its polls, [RunTimer] shows the
    seconds [iPeriod*60] down to 0, that is [iPeriod*60 + 1] ticks (61 for
    a period of one minute), and then calls [ShowAlert] once, after the
    tick of second 0; when the gesture is seen at some tick, the
    countdown stops there and [ShowAlert] is not called. *)
Theorem RunTimer_countdown (w : World) :
  0 <= iPeriod (state w) <= 35791394 ->
  let n := S (Z.to_nat (iPeriod (state w) * 60)) in
  ((forall k, (k < n)%nat -> mask_at w k <> 3) ->
     timer_calls (trace (RunTimer w)) = TShowAlert :: ticks 0 n ++ timer_calls (trace w)
     /\ tick_count (trace (RunTimer w)) = (n + tick_count (trace w))%nat
     /\ alert_count (trace (RunTimer w)) = S (alert_count (trace w)))
  /\ (forall k, (k < n)%nat -> mask_at w k = 3 ->
      (forall k', (k' < k)%nat -> mask_at w k' <> 3) ->
     timer_calls (trace (RunTimer w)) = ticks (n - 1 - k) (S k) ++ timer_calls (trace w)
     /\ tick_count (trace (RunTimer w)) = (S k + tick_count (trace w))%nat
     /\ alert_count (trace (RunTimer w)) = alert_count (trace w)).
Proof.
  intros Hp n.
  assert (Hn : Z.to_nat (wrap32 (iPeriod (state w) * 60) + 1) = n).
  { rewrite wrap32_id by (unfold in_int32; lia). unfold n. lia. }
  clearbody n.
  unfold RunTimer. cbv zeta.
  set (w0 := oledWriteString 0 0 "Timer Mode" FONT_12x16 (oledFill 0 w)).
  change (state w0) with (state w). rewrite Hn.
  assert (Hm : forall k, mask_at w0 k = mask_at w k) by reflexivity.
  assert (Ht : timer_calls (trace w0) = timer_calls (trace w)) by reflexivity.
  split.
  - intros Hno.
    destruct (timer_loop_full n 5 w0) as (R1 & R2 & R3).
    { intros k Hk. rewrite Hm. auto. }
    destruct (timer_loop n 5 w0) as [w1 b]; cbn [fst snd] in *. subst b.
    assert (E : timer_calls (trace (ShowAlert w1))
                = TShowAlert :: ticks 0 n ++ timer_calls (trace w)).
    { rewrite ShowAlert_timer_calls, R3, Ht. reflexivity. }
    split; [exact E|].
    unfold tick_count, alert_count. rewrite E.
    cbn [filter is_tick negb length].
    rewrite tick_count_ticks, alert_count_ticks. auto.
  - intros k Hk H3 Hfirst.
    destruct (timer_loop_exit n 5 w0 k Hk) as (R1 & R2 & R3).
    { rewrite Hm. exact H3. }
    { intros k' Hk'. rewrite Hm. auto. }
    destruct (timer_loop n 5 w0) as [w1 b]; cbn [fst snd] in *. subst b.
    rewrite Ht in R3. split; [exact R3|].
    unfold tick_count, alert_count. rewrite R3.
    rewrite tick_count_ticks, alert_count_ticks. auto.
Qed.

Lemma RunTimer_countdown_witness :
  tick_count (trace (RunTimer (boot (env_of [] 0 0) (mkSTATE 4 0 30 1)))) = 61%nat
  /\ alert_count (trace (RunTimer (boot (env_of [] 0 0) (mkSTATE 4 0 30 1)))) = 1%nat
  /\ tick_count (trace (RunTimer (boot (env_of [0; 1; 3] 0 0) (mkSTATE 4 0 30 1)))) = 3%nat
  /\ alert_count (trace (RunTimer (boot (env_of [0; 1; 3] 0 0) (mkSTATE 4 0 30 1)))) = 0%nat.
Proof.
  pose proof (RunTimer_countdown (boot (env_of [] 0 0) (mkSTATE 4 0 30 1))) as HA.
  pose proof (RunTimer_countdown (boot (env_of [0; 1; 3] 0 0) (mkSTATE 4 0 30 1))) as HB.
  cbv zeta in HA, HB.
  destruct HA as [HA _]; [cbn; lia|].
  destruct HB as [_ HB]; [cbn; lia|].
  destruct HA as (_ & HA1 & HA2).
  { intros k _. unfold mask_at. cbn. destruct k; cbn; discriminate. }
  destruct (HB 2%nat) as (_ & HB1 & HB2).
  { cbn. lia. }
  { reflexivity. }
  { intros k' Hk'. destruct k' as [|[|k']]; [cbn; discriminate | cbn; discriminate | lia]. }
  repeat split; assumption.
Defined.

(** ** ShowTime *)

Lemma rem_10_of_rem_60 (z : Z) : Z.rem z 10 = Z.rem (Z.rem z 60) 10.
Proof.
  Z.to_euclidean_division_equations. lia.
Qed.

Lemma ShowTime_szTemp_small (z : Z) :
  0 <= z < 600 ->
  ShowTime_szTemp z = [48; 48 + z / 60; 58; 48 + (z mod 60) / 10; 48 + (z mod 60) mod 10]
  /\ 0 <= z / 60 <= 9 /\ 0 <= (z mod 60) / 10 <= 5 /\ 0 <= (z mod 60) mod 10 <= 9
  /\ z = (z / 60) * 60 + ((z mod 60) / 10) * 10 + (z mod 60) mod 10.
Proof.
  intros Hz. unfold ShowTime_szTemp, wrap8.
  rewrite (rem_10_of_rem_60 z).
  rewrite (Z.quot_div_nonneg z 60), (Z.rem_mod_nonneg z 60) by lia.
  pose proof (Z.mod_pos_bound z 60 ltac:(lia)) as Hr.
  rewrite (Z.quot_div_nonneg (z mod 60) 10), (Z.rem_mod_nonneg (z mod 60) 10) by lia.
  assert (H1 : 0 <= z / 60 <= 9) by (Z.to_euclidean_division_equations; lia).
  assert (H2 : 0 <= (z mod 60) / 10 <= 5) by (Z.to_euclidean_division_equations; lia).
  assert (H3 : 0 <= (z mod 60) mod 10 <= 9) by (Z.to_euclidean_division_equations; lia).
  rewrite !(Z.mod_small (_ + 48) 256) by lia.
  rewrite !(Z.add_comm _ 48).
  repeat split; try lia.
  Z.to_euclidean_division_equations; lia.
Qed.

Lemma ShowTime_szTemp_timer_range (z : Z) :
  0 <= z <= 3600 ->
  ShowTime_szTemp z = [48; 48 + z / 60; 58; 48 + (z mod 60) / 10; 48 + z mod 10].
Proof.
  intros Hz. unfold ShowTime_szTemp, wrap8.
  rewrite (Z.quot_div_nonneg z 60), (Z.rem_mod_nonneg z 60), (Z.rem_mod_nonneg z 10) by lia.
  pose proof (Z.mod_pos_bound z 60 ltac:(lia)) as Hr.
  rewrite (Z.quot_div_nonneg (z mod 60) 10) by lia.
  assert (H1 : 0 <= z / 60 <= 60) by (Z.to_euclidean_division_equations; lia).
  assert (H2 : 0 <= (z mod 60) / 10 <= 5) by (Z.to_euclidean_division_equations; lia).
  assert (H3 : 0 <= z mod 10 <= 9) by (Z.to_euclidean_division_equations; lia).
  rewrite !(Z.mod_small (_ + 48) 256) by lia.
  rewrite !(Z.add_comm _ 48). reflexivity.
Qed.

Lemma decode_0M_SS_bound (s : list Z) (v : Z) :
  decode_0M_SS s = Some v -> 0 <= v < 600.
Proof.
  unfold decode_0M_SS, is_digit.
  destruct s as [|c0 [|c1 [|c2 [|c3 [|c4 [|c5 r]]]]]]; try discriminate.
  destruct (_ && _) eqn:E; [|discriminate].
  intros H. inversion H; subst. clear H.
  repeat (apply andb_prop in E; destruct E as [E ?]).
  lia.
Qed.

Lemma timer_loop_calls_extend (n : nat) : forall (t : Z) (w : World),
  exists later,
    timer_calls (trace (fst (timer_loop n t w))) = later ++ timer_calls (trace w).
Proof.
  induction n as [|n IH]; intros t w.
  - exists []. reflexivity.
  - cbn [timer_loop].
    destruct (timer_tick_spec (Z.of_nat n) t w) as (_ & _ & _ & Htr & _).
    destruct (timer_tick (Z.of_nat n) t w) as [[t'|] w1]; cbn [fst snd] in *.
    + destruct (IH t' w1) as [later Hl]. exists (later ++ [TShowTime (Z.of_nat n)]).
      rewrite Hl, Htr, <- app_assoc. reflexivity.
    + exists [TShowTime (Z.of_nat n)]. rewrite Htr. reflexivity.
Qed.

(** C10: the string [ShowTime] writes is '0', the character
    '0' + iSecs/60, ':' and the two digits of the seconds (for the
    arguments 0 to 3600 that [RunTimer] can pass); it reads back as iSecs
    in the form 0M:SS exactly when 0 <= iSecs < 600.  [RunTimer]
    first calls [ShowTime] with iPeriod*60, and for periods of 10 to 60
    minutes the minutes position of that string holds '0' + iPeriod,
    which is above '9'.  The units digit [iSecs % 10] equals
    [(iSecs % 60) % 10]. *)
Theorem ShowTime_rendering :
  (forall iSecs, in_int32 iSecs ->
     (decode_0M_SS (ShowTime_szTemp iSecs) = Some iSecs <-> 0 <= iSecs < 600))
  /\ (forall iSecs, 0 <= iSecs <= 3600 ->
        ShowTime_szTemp iSecs
        = [48; 48 + iSecs / 60; 58; 48 + (iSecs mod 60) / 10; 48 + iSecs mod 10])
  /\ (forall w, 10 <= iPeriod (state w) <= 60 ->
        (exists later,
           timer_calls (trace (RunTimer w))
           = later ++ TShowTime (iPeriod (state w) * 60) :: timer_calls (trace w))
        /\ ShowTime_szTemp (iPeriod (state w) * 60) = [48; 48 + iPeriod (state w); 58; 48; 48]
        /\ 57 < 48 + iPeriod (state w)
        /\ is_digit (48 + iPeriod (state w)) = false)
  /\ (forall iSecs, Z.rem iSecs 10 = Z.rem (Z.rem iSecs 60) 10).
Proof.
  split; [|split; [|split]].
  - intros z _. split.
    + apply decode_0M_SS_bound.
    + intros Hz. destruct (ShowTime_szTemp_small z Hz) as (E & H1 & H2 & H3 & H4).
      rewrite E. unfold decode_0M_SS, is_digit.
      replace (48 =? 48) with true by reflexivity.
      replace (58 =? 58) with true by reflexivity.
      replace (48 <=? 48 + z / 60) with true by (symmetry; lia).
      replace (48 + z / 60 <=? 57) with true by (symmetry; lia).
      replace (48 <=? 48 + z mod 60 / 10) with true by (symmetry; lia).
      replace (48 + z mod 60 / 10 <=? 57) with true by (symmetry; lia).
      replace (48 + z mod 60 / 10 <=? 53) with true by (symmetry; lia).
      replace (48 <=? 48 + (z mod 60) mod 10) with true by (symmetry; lia).
      replace (48 + (z mod 60) mod 10 <=? 57) with true by (symmetry; lia).
      cbn [andb]. f_equal. lia.
  - apply ShowTime_szTemp_timer_range.
  - intros w Hp. split; [|split; [|split]].
    + unfold RunTimer. cbv zeta.
      set (w0 := oledWriteString 0 0 "Timer Mode" FONT_12x16 (oledFill 0 w)).
      change (state w0) with (state w).
      rewrite wrap32_id by (unfold in_int32; lia).
      replace (Z.to_nat (iPeriod (state w) * 60 + 1))
        with (S (Z.to_nat (iPeriod (state w) * 60))) by lia.
      cbn [timer_loop]. rewrite Z2Nat.id by lia.
      destruct (timer_tick_spec (iPeriod (state w) * 60) 5 w0) as (_ & _ & _ & Htr & _).
      change (timer_calls (trace w0)) with (timer_calls (trace w)) in Htr.
      destruct (timer_tick (iPeriod (state w) * 60) 5 w0) as [[t'|] w1]; cbn [fst snd] in *.
      * destruct (timer_loop_calls_extend (Z.to_nat (iPeriod (state w) * 60)) t' w1)
          as [later Hl].
        destruct (timer_loop _ t' w1) as [w2 [|]]; cbn [fst] in Hl.
        -- exists (TShowAlert :: later).
           rewrite ShowAlert_timer_calls, Hl, Htr. reflexivity.
        -- exists later. rewrite Hl, Htr. reflexivity.
      * exists []. rewrite Htr. reflexivity.
    + unfold ShowTime_szTemp, wrap8.
      rewrite (Z.quot_mul _ 60), (Z.rem_mul _ 60) by lia.
      rewrite (rem_10_of_rem_60 (iPeriod (state w) * 60)), (Z.rem_mul _ 60) by lia.
      cbn. rewrite Z.mod_small by lia. rewrite (Z.add_comm _ 48). reflexivity.
    + lia.
    + unfold is_digit. replace (48 + iPeriod (state w) <=? 57) with false by (symmetry; lia).
      apply andb_false_r.
  - apply rem_10_of_rem_60.
Qed.

Lemma ShowTime_rendering_witness :
  decode_0M_SS (ShowTime_szTemp 599) = Some 599
  /\ ShowTime_szTemp 125 = [48; 50; 58; 48; 53]
  /\ ShowTime_szTemp (10 * 60) = [48; 58; 58; 48; 48].
Proof.
  destruct ShowTime_rendering as (H1 & H2 & H3 & _).
  split; [|split].
  - apply H1; [unfold in_int32; lia | lia].
  - apply (H2 125). lia.
  - destruct (H3 (boot (env_of [] 0 0) (mkSTATE 4 0 30 10))) as (_ & E & _).
    + cbn. lia.
    + exact E.
Defined.

(** ** Frame properties of the polling loop *)

Section Quiet.
Variable keep : Event -> bool.
Hypothesis keep_pinMode : forall p m, keep (EvPinMode p m) = false.
Hypothesis keep_delay : keep (EvDelay_Ms 20) = false.

Lemma GetButtons_quiet (w : World) :
  filter keep (trace (snd (GetButtons w))) = filter keep (trace w).
Proof.
  unfold GetButtons. cbn. rewrite !keep_pinMode. reflexivity.
Qed.

Lemma wait_while_quiet (c : Z -> bool) (fuel : nat) : forall w,
  filter keep (trace (world_of (wait_while c fuel w))) = filter keep (trace w).
Proof.
  induction fuel as [|f IH]; intros w; [reflexivity|].
  cbn [wait_while].
  pose proof (GetButtons_quiet w) as HG.
  destruct (GetButtons w) as [j w1]; cbn [snd] in HG.
  destruct (c j).
  - rewrite IH. cbn. rewrite keep_delay. exact HG.
  - exact HG.
Qed.
End Quiet.

Lemma GetButtons_fields (w : World) :
  state (snd (GetButtons w)) = state w
  /\ flash (snd (GetButtons w)) = flash w
  /\ env (snd (GetButtons w)) = env w
  /\ iSample (snd (GetButtons w)) = iSample w.
Proof. unfold GetButtons. cbn. auto. Qed.

Lemma wait_while_fields (c : Z -> bool) (fuel : nat) : forall w,
  state (world_of (wait_while c fuel w)) = state w
  /\ flash (world_of (wait_while c fuel w)) = flash w
  /\ env (world_of (wait_while c fuel w)) = env w
  /\ iSample (world_of (wait_while c fuel w)) = iSample w.
Proof.
  induction fuel as [|f IH]; intros w; [cbn; auto|].
  cbn [wait_while].
  destruct (GetButtons_fields w) as (H1 & H2 & H3 & H4).
  destruct (GetButtons w) as [j w1]; cbn [snd] in *.
  destruct (c j).
  - destruct (IH (Delay_Ms 20 w1)) as (I1 & I2 & I3 & I4).
    rewrite I1, I2, I3, I4. cbn. auto.
  - cbn. auto.
Qed.

Lemma wait_while_returns (c : Z -> bool) (fuel : nat) : forall w j w',
  wait_while c fuel w = Returned j w' -> c j = false.
Proof.
  induction fuel as [|f IH]; intros w j w'; [discriminate|].
  cbn [wait_while]. destruct (GetButtons w) as [j0 w1].
  destruct (c j0) eqn:E.
  - apply IH.
  - intros H. inversion H; subst. exact E.
Qed.

(** ** RunMenu *)

Lemma flash_writes_filter (tr : list Event) :
  flash_writes tr = length (filter is_flash_write tr).
Proof. reflexivity. Qed.

Lemma menu_loop_frame (fuel : nat) : forall sel w,
  flash (world_of (menu_loop fuel sel w)) = flash w
  /\ filter is_flash_write (trace (world_of (menu_loop fuel sel w)))
     = filter is_flash_write (trace w).
Proof.
  induction fuel as [|f IH]; intros sel w; [cbn; auto|].
  cbn [menu_loop]. unfold draw_menu.
  set (w0 := emit _ w).
  pose proof (wait_while_quiet is_flash_write ltac:(reflexivity) ltac:(reflexivity)
                nonzero f w0) as Q1.
  destruct (wait_while_fields nonzero f w0) as (_ & F1 & _).
  change (flash w0) with (flash w) in F1.
  change (filter is_flash_write (trace w0)) with (filter is_flash_write (trace w)) in Q1.
  destruct (wait_while nonzero f w0) as [j1 w1|w1]; cbn [bindO world_of] in *;
    [|split; [exact F1 | exact Q1]].
  pose proof (wait_while_quiet is_flash_write ltac:(reflexivity) ltac:(reflexivity)
                (fun j => j =? 0) f w1) as Q2.
  destruct (wait_while_fields (fun j => j =? 0) f w1) as (_ & F2 & _).
  destruct (wait_while (fun j => j =? 0) f w1) as [j2 w2|w2]; cbn [bindO world_of] in *;
    [|split; [congruence | congruence]].
  pose proof (GetButtons_quiet is_flash_write ltac:(reflexivity) w2) as Q3.
  destruct (GetButtons_fields w2) as (_ & F3 & _).
  destruct (GetButtons w2) as [y w3]; cbn [snd] in *.
  assert (Fw3 : flash w3 = flash w) by congruence.
  assert (Qw3 : filter is_flash_write (trace w3) = filter is_flash_write (trace w))
    by congruence.
  destruct (nonzero (Z.land y 1)).
  - destruct (IH (if wrap32 (sel + 1) =? MENU_COUNT then 0 else wrap32 (sel + 1)) w3)
      as (I1 & I2).
    split; congruence.
  - destruct (nonzero (Z.land y 2)).
    + destruct (menu_action sel (state w3)) as [s bDone].
      destruct bDone.
      * cbn. auto.
      * destruct (IH sel (set_state s w3)) as (I1 & I2).
        rewrite I1, I2. cbn. auto.
    + destruct (IH sel w3) as (I1 & I2). split; congruence.
Qed.

Lemma STATE_eqb_eq (a b : STATE) : STATE_eqb a b = true <-> a = b.
Proof.
  destruct a, b. unfold STATE_eqb. cbn.
  rewrite !andb_true_iff, !Z.eqb_eq.
  split.
  - intros [[[-> ->] ->] ->]. reflexivity.
  - intros H. inversion H. auto.
Qed.

(** C2: when [RunMenu] returns, [WriteFlash] has been called once if the
    settings differ from those at entry and the mode is not Calibrate,
    and not at all otherwise. *)
Theorem RunMenu_saves_once_iff_changed (fuel : nat) (w w' : World) :
  RunMenu fuel w = Returned tt w' ->
  (state w' <> state w /\ iMode (state w') <> MODE_CALIBRATE ->
     flash_writes (trace w') = S (flash_writes (trace w)))
  /\ (state w' = state w \/ iMode (state w') = MODE_CALIBRATE ->
     flash_writes (trace w') = flash_writes (trace w) /\ flash w' = flash w).
Proof.
  unfold RunMenu. cbv zeta.
  set (w0 := oledWriteString 4 0 "Pocket CO2" FONT_12x16 _).
  destruct (menu_loop_frame fuel 0 w0) as (F & Q).
  change (flash w0) with (flash w) in F.
  change (filter is_flash_write (trace w0)) with (filter is_flash_write (trace w)) in Q.
  destruct (menu_loop fuel 0 w0) as [[] w1|w1]; cbn [bindO world_of] in *; [|discriminate].
  destruct (iMode (state w1) =? MODE_CALIBRATE) eqn:Ec; cbn [negb andb].
  - intros H. inversion H; subst w'. clear H.
    split.
    + intros [_ Hc]. exfalso. apply Hc. lia.
    + intros _. rewrite !flash_writes_filter, Q. auto.
  - destruct (STATE_eqb (state w1) (state w)) eqn:Es; cbn [negb];
      intros H; inversion H; subst w'; clear H.
    + apply STATE_eqb_eq in Es. split.
      * intros [Hd _]. contradiction.
      * intros _. rewrite !flash_writes_filter, Q. auto.
    + split.
      * intros _. rewrite !flash_writes_filter. cbn. rewrite Q. reflexivity.
      * intros [He | He].
        -- apply STATE_eqb_eq in He. cbn in He. congruence.
        -- cbn in He. lia.
Qed.

Lemma RunMenu_saves_once_iff_changed_witness :
  flash_writes (trace (world_of (RunMenu 30 menu_world_mode))) = 1%nat
  /\ flash_writes (trace (world_of (RunMenu 30 menu_world_calibrate))) = 0%nat.
Proof.
  split.
  - refine (proj1 (RunMenu_saves_once_iff_changed 30 menu_world_mode _ _) _).
    + vm_compute. reflexivity.
    + split; vm_compute; discriminate.
  - refine (proj1 (proj2 (RunMenu_saves_once_iff_changed 30 menu_world_calibrate _ _) _)).
    + vm_compute. reflexivity.
    + right. vm_compute. reflexivity.
Defined.

(** ** Sensor start and stop calls *)

Ltac break_all := repeat (break_if; cbn).

Lemma timer_tick_sensor (i t : Z) (w : World) :
  sensor_calls (trace (snd (timer_tick i t w))) = sensor_calls (trace w).
Proof.
  unfold timer_tick, GetButtons. cbn. break_all; reflexivity.
Qed.

Lemma timer_loop_sensor (n : nat) : forall t w,
  sensor_calls (trace (fst (timer_loop n t w))) = sensor_calls (trace w).
Proof.
  induction n as [|n IH]; intros t w; [reflexivity|].
  cbn [timer_loop].
  pose proof (timer_tick_sensor (Z.of_nat n) t w) as H.
  destruct (timer_tick (Z.of_nat n) t w) as [[t'|] w1]; cbn [fst snd] in *.
  - rewrite IH. exact H.
  - exact H.
Qed.

Lemma ShowAlert_sensor (w : World) :
  sensor_calls (trace (ShowAlert w)) = sensor_calls (trace w).
Proof.
  unfold ShowAlert. cbn. break_all; reflexivity.
Qed.

Lemma RunTimer_sensor (w : World) :
  sensor_calls (trace (RunTimer w)) = sensor_calls (trace w).
Proof.
  unfold RunTimer. cbv zeta.
  set (w0 := oledWriteString 0 0 "Timer Mode" FONT_12x16 (oledFill 0 w)).
  pose proof (timer_loop_sensor (Z.to_nat (wrap32 (iPeriod (state w0) * 60) + 1)) 5 w0) as H.
  destruct (timer_loop _ 5 w0) as [w1 [|]]; cbn [fst] in H.
  - rewrite ShowAlert_sensor. exact H.
  - exact H.
Qed.

Lemma sensor_quiet (c : Z -> bool) (fuel : nat) (w : World) :
  sensor_calls (trace (world_of (wait_while c fuel w))) = sensor_calls (trace w).
Proof.
  apply wait_while_quiet; reflexivity.
Qed.

Lemma lowpower_iter_sensor (v : LowPowerVars) (w : World) :
  sensor_calls (trace (snd (lowpower_iter v w)))
  = match fst (lowpower_iter v w) with
    | None => EvSensorStop :: sensor_calls (trace w)
    | Some _ => sensor_calls (trace w)
    end.
Proof.
  unfold lowpower_iter, GetButtons, co2_led_cue. cbn. break_all; reflexivity.
Qed.

Lemma lowpower_loop_sensor (fuel : nat) : forall v w,
  match lowpower_loop fuel v w with
  | Returned _ w' => sensor_calls (trace w') = EvSensorStop :: sensor_calls (trace w)
  | Timeout w' => sensor_calls (trace w') = sensor_calls (trace w)
  end.
Proof.
  induction fuel as [|f IH]; intros v w; [reflexivity|].
  cbn [lowpower_loop].
  pose proof (lowpower_iter_sensor v w) as H.
  destruct (lowpower_iter v w) as [[v'|] w1]; cbn [fst snd] in H.
  - specialize (IH v' w1). rewrite H in IH. exact IH.
  - exact H.
Qed.

Lemma buzz_sensor (n : nat) : forall t w,
  sensor_calls (trace (snd (buzz n t w))) = sensor_calls (trace w).
Proof.
  induction n as [|n IH]; intros t w; [reflexivity|].
  cbn [buzz]. rewrite IH. reflexivity.
Qed.

Lemma stealth_body_sensor (u t l : Z) (w : World) :
  sensor_calls (trace (snd (stealth_body u t l w))) = sensor_calls (trace w).
Proof.
  unfold stealth_body.
  destruct (Z.rem t 20 =? 19); destruct (Z.rem t u =? wrap32 (u - 1)).
  - destruct (buzz _ t _) as [t' w'] eqn:E. cbn [snd].
    change w' with (snd (t', w')). rewrite <- E, buzz_sensor. reflexivity.
  - reflexivity.
  - destruct (buzz _ t _) as [t' w'] eqn:E. cbn [snd].
    change w' with (snd (t', w')). rewrite <- E, buzz_sensor. reflexivity.
  - reflexivity.
Qed.

Lemma stealth_loop_sensor (fuel : nat) : forall u t l w,
  match stealth_loop fuel u t l w with
  | Returned _ w' => sensor_calls (trace w') = EvSensorStop :: sensor_calls (trace w)
  | Timeout w' => sensor_calls (trace w') = sensor_calls (trace w)
  end.
Proof.
  induction fuel as [|f IH]; intros u t l w; [reflexivity|].
  cbn [stealth_loop].
  pose proof (GetButtons_quiet is_sensor_call ltac:(reflexivity) w) as HG.
  destruct (GetButtons w) as [j w1]; cbn [snd] in HG.
  destruct (j =? 3).
  - cbn. f_equal. exact HG.
  - pose proof (stealth_body_sensor u t l w1) as HB.
    destruct (stealth_body u t l w1) as [[t' l'] w2]; cbn [snd] in HB.
    specialize (IH u t' l' w2).
    unfold sensor_calls in *. rewrite HB, HG in IH. exact IH.
Qed.

Lemma calib_countdown_sensor (n : nat) : forall w,
  sensor_calls (trace (fst (calib_countdown n w)))
  = if snd (calib_countdown n w) then sensor_calls (trace w)
    else EvSensorStop :: sensor_calls (trace w).
Proof.
  induction n as [|n IH]; intros w; [reflexivity|].
  cbn [calib_countdown].
  set (w0 := ShowTime (Z.of_nat n) w).
  pose proof (GetButtons_quiet is_sensor_call ltac:(reflexivity) w0) as HG.
  change (filter is_sensor_call (trace w0)) with (sensor_calls (trace w)) in HG.
  destruct (GetButtons w0) as [j w1]; cbn [snd] in HG.
  destruct (j =? 3).
  - cbn. f_equal. exact HG.
  - rewrite IH. cbn. unfold sensor_calls. rewrite HG. reflexivity.
Qed.

Lemma cont_poll_sensor (n : nat) : forall i b w,
  sensor_calls (trace (snd (cont_poll n i b w)))
  = if fst (fst (cont_poll n i b w)) then EvSensorStop :: sensor_calls (trace w)
    else sensor_calls (trace w).
Proof.
  induction n as [|n IH]; intros i b w.
  - cbn. destruct (i <? 61); reflexivity.
  - cbn [cont_poll]. destruct (i <? 61); [|reflexivity].
    set (w0 := Standby82ms 3 w).
    pose proof (GetButtons_quiet is_sensor_call ltac:(reflexivity) w0) as HG.
    change (filter is_sensor_call (trace w0)) with (sensor_calls (trace w)) in HG.
    destruct (GetButtons w0) as [j w1]; cbn [snd] in HG.
    destruct (j =? 3).
    + cbn. f_equal. exact HG.
    + rewrite IH. unfold sensor_calls. rewrite HG. reflexivity.
Qed.

Lemma cont_loop_sensor (fuel : nat) : forall b w,
  match cont_loop fuel b w with
  | Returned _ w' => sensor_calls (trace w') = EvSensorStop :: sensor_calls (trace w)
  | Timeout w' => sensor_calls (trace w') = sensor_calls (trace w)
  end.
Proof.
  induction fuel as [|f IH]; intros b w; [reflexivity|].
  cbn [cont_loop].
  set (w0 := ShowCurrent _).
  assert (H0 : sensor_calls (trace w0) = sensor_calls (trace w)).
  { unfold w0, ShowCurrent. cbn. destruct (display_off_guard _); reflexivity. }
  pose proof (cont_poll_sensor 61 0 b w0) as HP.
  destruct (cont_poll 61 0 b w0) as [[[|] b'] w1]; cbn [fst snd] in HP.
  - rewrite HP, H0. reflexivity.
  - specialize (IH b' w1). rewrite HP, H0 in IH. exact IH.
Qed.

Lemma world_of_bind_ret {A} (m : Outcome A) :
  world_of (bindO m (fun _ w => Returned tt w)) = world_of m.
Proof. destruct m; reflexivity. Qed.

Lemma RunLowPower_sensor (fuel : nat) (w : World) :
  match RunLowPower fuel w with
  | Returned _ w' =>
      sensor_calls (trace w')
      = EvSensorStop :: EvSensorStart SCD_POWERMODE_LOW :: sensor_calls (trace w)
  | Timeout w' =>
      sensor_calls (trace w') = EvSensorStart SCD_POWERMODE_LOW :: sensor_calls (trace w)
  end.
Proof.
  unfold RunLowPower. cbv zeta.
  set (w0 := scd41_start SCD_POWERMODE_LOW _).
  pose proof (lowpower_loop_sensor fuel (mkLP 20 0 0) w0) as H.
  destruct (lowpower_loop fuel (mkLP 20 0 0) w0); exact H.
Qed.

Lemma RunStealth_sensor (fuel : nat) (w : World) :
  match RunStealth fuel w with
  | Returned _ w' =>
      sensor_calls (trace w')
      = EvSensorStop :: EvSensorStart SCD_POWERMODE_NORMAL :: sensor_calls (trace w)
  | Timeout w' =>
      sensor_calls (trace w') = sensor_calls (trace w)
      \/ sensor_calls (trace w')
         = EvSensorStart SCD_POWERMODE_NORMAL :: sensor_calls (trace w)
  end.
Proof.
  unfold RunStealth. cbv zeta.
  set (w0 := oledWriteString 0 56 _ _ _).
  pose proof (sensor_quiet nonzero fuel w0) as Q1.
  change (sensor_calls (trace w0)) with (sensor_calls (trace w)) in Q1.
  destruct (wait_while nonzero fuel w0) as [j1 w1|w1]; cbn [bindO world_of] in *;
    [|left; exact Q1].
  pose proof (sensor_quiet (fun j => j =? 0) fuel w1) as Q2.
  destruct (wait_while (fun j => j =? 0) fuel w1) as [j2 w2|w2]; cbn [bindO world_of] in *;
    [|left; congruence].
  set (w3 := scd41_start SCD_POWERMODE_NORMAL _).
  assert (H3 : sensor_calls (trace w3)
               = EvSensorStart SCD_POWERMODE_NORMAL :: sensor_calls (trace w)).
  { unfold w3. cbn. f_equal. fold (sensor_calls (trace w2)). congruence. }
  pose proof (stealth_loop_sensor fuel (wrap32 (iFreq (state w) * 4)) 0 1 w3) as H.
  destruct (stealth_loop fuel _ 0 1 w3).
  - rewrite H, H3. reflexivity.
  - right. rewrite H, H3. reflexivity.
Qed.

Lemma RunContinuous_sensor (fuel : nat) (b : Z) (w : World) :
  match RunContinuous fuel b w with
  | Returned _ w' =>
      sensor_calls (trace w')
      = EvSensorStop :: EvSensorStart SCD_POWERMODE_NORMAL :: sensor_calls (trace w)
  | Timeout w' =>
      sensor_calls (trace w') = EvSensorStart SCD_POWERMODE_NORMAL :: sensor_calls (trace w)
  end.
Proof.
  unfold RunContinuous. cbv zeta.
  set (w0 := Standby82ms 59 _).
  pose proof (cont_loop_sensor fuel b w0) as H.
  destruct (cont_loop fuel b w0); exact H.
Qed.

Lemma RunCalibrate_sensor (fuel : nat) (w : World) :
  sensor_calls (trace (world_of (RunCalibrate fuel w))) = sensor_calls (trace w)
  \/ sensor_calls (trace (world_of (RunCalibrate fuel w)))
     = EvSensorStop :: EvSensorStart SCD_POWERMODE_NORMAL :: sensor_calls (trace w).
Proof.
  unfold RunCalibrate. cbv zeta.
  set (w0 := oledWriteString 0 56 _ _ _).
  pose proof (sensor_quiet nonzero fuel w0) as Q1.
  change (sensor_calls (trace w0)) with (sensor_calls (trace w)) in Q1.
  destruct (wait_while nonzero fuel w0) as [j1 w1|w1]; cbn [bindO world_of] in *;
    [|left; exact Q1].
  pose proof (sensor_quiet (fun j => j =? 0) fuel w1) as Q2.
  destruct (wait_while (fun j => j =? 0) fuel w1) as [j2 w2|w2]; cbn [bindO world_of] in *;
    [|left; congruence].
  destruct (j2 =? 3); [left; cbn; congruence|].
  set (w3 := scd41_start SCD_POWERMODE_NORMAL _).
  assert (H3 : sensor_calls (trace w3)
               = EvSensorStart SCD_POWERMODE_NORMAL :: sensor_calls (trace w)).
  { unfold w3. cbn. f_equal. fold (sensor_calls (trace w2)). congruence. }
  pose proof (calib_countdown_sensor (Z.to_nat (210 + 1)) w3) as HC.
  destruct (calib_countdown (Z.to_nat (210 + 1)) w3) as [w4 [|]]; cbn [fst snd] in HC.
  - right.
    unfold scd41_recalibrate. cbv zeta.
    rewrite world_of_bind_ret, sensor_quiet.
    destruct (recal_code (env _) (nrecal _) =? SCD_SUCCESS);
      cbn; f_equal; fold (sensor_calls (trace w4)); congruence.
  - right. cbn. congruence.
Qed.

(** ** Calibration *)

Lemma calib_quiet (c : Z -> bool) (fuel : nat) (w : World) :
  calib_view (trace (world_of (wait_while c fuel w))) = calib_view (trace w).
Proof.
  apply wait_while_quiet; reflexivity.
Qed.

Lemma wait_while_polls (c : Z -> bool) (fuel : nat) : forall w,
  nrecal (world_of (wait_while c fuel w)) = nrecal w
  /\ (nbtn w <= nbtn (world_of (wait_while c fuel w)))%nat
  /\ forall j w', wait_while c fuel w = Returned j w' ->
       (nbtn w < nbtn w')%nat
       /\ j = button_mask (button_levels (env w) (pred (nbtn w'))).
Proof.
  induction fuel as [|f IH]; intros w.
  - cbn. split; [reflexivity | split; [lia | intros j w' H; discriminate]].
  - cbn [wait_while].
    pose proof (eq_refl : fst (GetButtons w) = button_mask (button_levels (env w) (nbtn w)))
      as Hj.
    pose proof (eq_refl : nbtn (snd (GetButtons w)) = S (nbtn w)) as Hn.
    pose proof (eq_refl : nrecal (snd (GetButtons w)) = nrecal w) as Hr.
    pose proof (eq_refl : env (snd (GetButtons w)) = env w) as He.
    destruct (GetButtons w) as [j0 w1]; cbn [fst snd] in *.
    destruct (c j0) eqn:E.
    + destruct (IH (Delay_Ms 20 w1)) as (I1 & I2 & I3).
      change (nrecal (Delay_Ms 20 w1)) with (nrecal w1) in I1.
      change (nbtn (Delay_Ms 20 w1)) with (nbtn w1) in I2.
      split; [congruence | split; [lia|]].
      intros j w' H. destruct (I3 j w' H) as [L1 L2].
      change (nbtn (Delay_Ms 20 w1)) with (nbtn w1) in L1.
      change (env (Delay_Ms 20 w1)) with (env w1) in L2.
      split; [lia | rewrite L2, He; reflexivity].
    + cbn [world_of]. split; [exact Hr | split; [lia|]].
      intros j w' H. inversion H; subst j w'.
      rewrite Hn. cbn [pred]. split; [lia | exact Hj].
Qed.

Lemma countdown_view_S (n : nat) :
  countdown_view (S n) = countdown_view n ++ [EvDelay_Ms 1000; CallShowTime (Z.of_nat n)].
Proof.
  unfold countdown_view. rewrite seq_S, flat_map_app. cbn. reflexivity.
Qed.

Lemma calib_countdown_view (n : nat) : forall w,
  env (fst (calib_countdown n w)) = env w
  /\ nrecal (fst (calib_countdown n w)) = nrecal w
  /\ (snd (calib_countdown n w) = true ->
      calib_view (trace (fst (calib_countdown n w))) = countdown_view n ++ calib_view (trace w)).
Proof.
  induction n as [|n IH]; intros w.
  - cbn. auto.
  - cbn [calib_countdown]. set (w0 := ShowTime (Z.of_nat n) w).
    pose proof (GetButtons_quiet is_calib_event ltac:(reflexivity) w0) as HG.
    pose proof (eq_refl : nrecal (snd (GetButtons w0)) = nrecal w) as Hr.
    pose proof (eq_refl : env (snd (GetButtons w0)) = env w) as He.
    destruct (GetButtons w0) as [j w1]; cbn [fst snd] in *.
    destruct (j =? 3); cbn [fst snd].
    + split; [exact He | split; [exact Hr | discriminate]].
    + destruct (IH (Delay_Ms 1000 w1)) as (I1 & I2 & I3).
      split; [rewrite I1; exact He | split; [rewrite I2; exact Hr|]].
      intros Ht. rewrite (I3 Ht), countdown_view_S, <- app_assoc. f_equal.
      change (calib_view (trace (Delay_Ms 1000 w1)))
        with (EvDelay_Ms 1000 :: filter is_calib_event (trace w1)).
      rewrite HG. reflexivity.
Qed.

(** The polling loops follow the button stream. *)
Lemma wait_while_scan (c : Z -> bool) (fuel : nat) : forall w,
  match scan c fuel (env w) (nbtn w) with
  | Some (j, n) => exists w', wait_while c fuel w = Returned j w' /\ nbtn w' = n
  | None => exists w', wait_while c fuel w = Timeout w'
  end.
Proof.
  induction fuel as [|f IH]; intros w.
  - cbn. exists w. reflexivity.
  - cbn [scan wait_while].
    pose proof (eq_refl : fst (GetButtons w) = button_mask (button_levels (env w) (nbtn w)))
      as Hj.
    pose proof (eq_refl : nbtn (snd (GetButtons w)) = S (nbtn w)) as Hn.
    pose proof (eq_refl : env (snd (GetButtons w)) = env w) as He.
    destruct (GetButtons w) as [j0 w1]; cbn [fst snd] in *. subst j0.
    destruct (c (button_mask (button_levels (env w) (nbtn w)))).
    + specialize (IH (Delay_Ms 20 w1)).
      change (env (Delay_Ms 20 w1)) with (env w1) in IH.
      change (nbtn (Delay_Ms 20 w1)) with (nbtn w1) in IH.
      rewrite He, Hn in IH. exact IH.
    + exists w1. split; [reflexivity | exact Hn].
Qed.

Lemma scan_ends (c : Z -> bool) (fuel : nat) : forall e n j n',
  scan c fuel e n = Some (j, n') ->
  c j = false /\ (n < n')%nat /\ j = button_mask (button_levels e (pred n')).
Proof.
  induction fuel as [|f IH]; intros e n j n'; [discriminate|].
  cbn [scan]. destruct (c (button_mask (button_levels e n))) eqn:E.
  - intros H. destruct (IH e (S n) j n' H) as (H1 & H2 & H3). repeat split; auto; lia.
  - intros H. inversion H; subst. cbn [pred]. auto.
Qed.

Lemma calib_countdown_full (m : nat) : forall w,
  (forall k, (k < m)%nat -> mask_abs w (nbtn w + k) <> 3) ->
  snd (calib_countdown m w) = true /\ nbtn (fst (calib_countdown m w)) = (nbtn w + m)%nat.
Proof.
  induction m as [|m IH]; intros w H.
  - cbn. split; [reflexivity | lia].
  - cbn [calib_countdown]. set (w0 := ShowTime (Z.of_nat m) w).
    pose proof (eq_refl : fst (GetButtons w0) = mask_abs w (nbtn w)) as Hj.
    pose proof (eq_refl : nbtn (snd (GetButtons w0)) = S (nbtn w)) as Hn.
    pose proof (eq_refl : env (snd (GetButtons w0)) = env w) as He.
    destruct (GetButtons w0) as [j w1]; cbn [fst snd] in *.
    assert (Hj3 : (j =? 3) = false).
    { apply Z.eqb_neq. rewrite Hj. specialize (H 0%nat ltac:(lia)).
      rewrite Nat.add_0_r in H. exact H. }
    rewrite Hj3.
    destruct (IH (Delay_Ms 1000 w1)) as (I1 & I2).
    + intros k Hk. unfold mask_abs.
      change (env (Delay_Ms 1000 w1)) with (env w1).
      change (nbtn (Delay_Ms 1000 w1)) with (nbtn w1).
      rewrite He, Hn. replace (S (nbtn w) + k)%nat with (nbtn w + S k)%nat by lia.
      apply H. lia.
    + split; [exact I1|]. rewrite I2.
      change (nbtn (Delay_Ms 1000 w1)) with (nbtn w1). lia.
Qed.

Lemma RunCalibrate_prompt (fuel : nat) (w : World) :
  match prompt_end fuel (env w) (nbtn w) with
  | Some (j, n) =>
      exists w2,
        RunCalibrate fuel w
        = (if j =? 3 then Returned tt w2 else RunCalibrate_started fuel w2)
        /\ env w2 = env w /\ nbtn w2 = n /\ nrecal w2 = nrecal w
        /\ calib_view (trace w2) = calib_view (trace w)
        /\ sensor_calls (trace w2) = sensor_calls (trace w)
  | None =>
      exists w2,
        RunCalibrate fuel w = Timeout w2
        /\ calib_view (trace w2) = calib_view (trace w)
        /\ sensor_calls (trace w2) = sensor_calls (trace w)
  end.
Proof.
  unfold prompt_end, RunCalibrate. cbv zeta.
  set (w0 := oledWriteString 0 56 _ _ _).
  change (env w) with (env w0). change (nbtn w) with (nbtn w0).
  pose proof (wait_while_scan nonzero fuel w0) as W1.
  pose proof (calib_quiet nonzero fuel w0) as Q1.
  pose proof (sensor_quiet nonzero fuel w0) as R1.
  destruct (wait_while_polls nonzero fuel w0) as (P1 & _ & _).
  destruct (wait_while_fields nonzero fuel w0) as (_ & _ & E1 & _).
  change (calib_view (trace w0)) with (calib_view (trace w)) in Q1.
  change (sensor_calls (trace w0)) with (sensor_calls (trace w)) in R1.
  change (nrecal w0) with (nrecal w) in P1.
  destruct (scan nonzero fuel (env w0) (nbtn w0)) as [[j1 n1]|].
  - destruct W1 as (w1 & W1 & N1). rewrite W1 in *. cbn [bindO world_of] in *.
    rewrite <- E1, <- N1.
    pose proof (wait_while_scan (fun j => j =? 0) fuel w1) as W2.
    pose proof (calib_quiet (fun j => j =? 0) fuel w1) as Q2.
    pose proof (sensor_quiet (fun j => j =? 0) fuel w1) as R2.
    destruct (wait_while_polls (fun j => j =? 0) fuel w1) as (P2 & _ & _).
    destruct (wait_while_fields (fun j => j =? 0) fuel w1) as (_ & _ & E2 & _).
    destruct (scan (fun j => j =? 0) fuel (env w1) (nbtn w1)) as [[j n]|].
    + destruct W2 as (w2 & W2 & N2). rewrite W2 in *. cbn [bindO world_of] in *.
      exists w2. split; [reflexivity|].
      repeat split; congruence.
    + destruct W2 as (w2 & W2). rewrite W2 in *. cbn [bindO world_of] in *.
      exists w2. repeat split; congruence.
  - destruct W1 as (w1 & W1). rewrite W1 in *. cbn [bindO world_of] in *.
    exists w1. repeat split; assumption.
Qed.

Lemma RunCalibrate_started_sensor (fuel : nat) (w : World) :
  sensor_calls (trace (world_of (RunCalibrate_started fuel w)))
  = EvSensorStop :: EvSensorStart SCD_POWERMODE_NORMAL :: sensor_calls (trace w).
Proof.
  unfold RunCalibrate_started. cbv zeta.
  set (w3 := scd41_start SCD_POWERMODE_NORMAL _).
  pose proof (calib_countdown_sensor (Z.to_nat (210 + 1)) w3) as HC.
  change (sensor_calls (trace w3))
    with (EvSensorStart SCD_POWERMODE_NORMAL :: sensor_calls (trace w)) in HC.
  destruct (calib_countdown (Z.to_nat (210 + 1)) w3) as [w4 [|]]; cbn [fst snd] in HC.
  - unfold scd41_recalibrate. cbv beta iota zeta.
    rewrite world_of_bind_ret, sensor_quiet.
    destruct (recal_code (env _) (nrecal _) =? SCD_SUCCESS);
      cbn; f_equal; fold (sensor_calls (trace w4)); exact HC.
  - cbn [world_of]. exact HC.
Qed.

Lemma RunCalibrate_started_completes (fuel : nat) (w : World) :
  (forall k, (k < 211)%nat -> mask_abs w (nbtn w + k) <> 3) ->
  calib_view (trace (world_of (RunCalibrate_started fuel w)))
  = EvOledWriteString 0 32
      (if recal_code (env w) (nrecal w) =? SCD_SUCCESS then "Success!" else "Failed")
      FONT_12x16
    :: EvSensorRecalibrate 423
    :: EvSensorStop
    :: countdown_view 211 ++ EvSensorStart SCD_POWERMODE_NORMAL :: calib_view (trace w)
  /\ nrecal (world_of (RunCalibrate_started fuel w)) = S (nrecal w)
  /\ match scan (fun j => j =? 0) fuel (env w) (nbtn w + 211) with
     | Some (j3, n3) =>
         exists w', RunCalibrate_started fuel w = Returned tt w' /\ nbtn w' = n3 /\ j3 <> 0
     | None => exists w', RunCalibrate_started fuel w = Timeout w'
     end.
Proof.
  intros Hno. unfold RunCalibrate_started. cbv zeta.
  set (w3 := scd41_start SCD_POWERMODE_NORMAL _).
  destruct (calib_countdown_full 211 w3) as (F1 & F2).
  { intros k Hk. apply Hno. exact Hk. }
  destruct (calib_countdown_view 211 w3) as (E4 & R4 & V4).
  change (Z.to_nat (210 + 1)) with 211%nat.
  destruct (calib_countdown 211 w3) as [w4 b]; cbn [fst snd] in *. subst b.
  specialize (V4 eq_refl).
  change (calib_view (trace w3))
    with (EvSensorStart SCD_POWERMODE_NORMAL :: calib_view (trace w)) in V4.
  change (env w3) with (env w) in E4. change (nrecal w3) with (nrecal w) in R4.
  change (nbtn w3) with (nbtn w) in F2.
  unfold scd41_recalibrate. cbv beta iota zeta.
  set (code := recal_code (env _) (nrecal _)).
  assert (Hcode : code = recal_code (env w) (nrecal w)).
  { unfold code. cbn. congruence. }
  set (w5 := oledWriteString 0 56 "Press button to exit" FONT_6x8 _).
  assert (V5 : calib_view (trace w5)
               = EvOledWriteString 0 32
                   (if code =? SCD_SUCCESS then "Success!"%string else "Failed"%string) FONT_12x16
                 :: EvSensorRecalibrate 423 :: EvSensorStop :: calib_view (trace w4)).
  { unfold w5. destruct (code =? SCD_SUCCESS); reflexivity. }
  assert (R5 : nrecal w5 = S (nrecal w)).
  { unfold w5. destruct (code =? SCD_SUCCESS); cbn; congruence. }
  assert (E5 : env w5 = env w).
  { unfold w5. destruct (code =? SCD_SUCCESS); cbn; congruence. }
  assert (N5 : nbtn w5 = (nbtn w + 211)%nat).
  { unfold w5. destruct (code =? SCD_SUCCESS); cbn; congruence. }
  rewrite world_of_bind_ret.
  rewrite (calib_quiet (fun j => j =? 0) fuel w5).
  destruct (wait_while_polls (fun j => j =? 0) fuel w5) as (R6 & _ & _).
  split; [rewrite V5, V4, Hcode; reflexivity|].
  split; [congruence|].
  pose proof (wait_while_scan (fun j => j =? 0) fuel w5) as W6.
  rewrite E5, N5 in W6.
  pose proof (scan_ends (fun j => j =? 0) fuel (env w) (nbtn w + 211)) as SE.
  destruct (scan (fun j => j =? 0) fuel (env w) (nbtn w + 211)) as [[j3 n3]|].
  - destruct W6 as (w6 & W6 & N6). rewrite W6. cbn [bindO].
    exists w6. split; [reflexivity|]. split; [exact N6|].
    destruct (SE j3 n3 eq_refl) as (C & _). lia.
  - destruct W6 as (w6 & W6). rewrite W6. cbn [bindO]. exists w6. reflexivity.
Qed.

Lemma RunCalibrate_sensor_by_prompt (fuel : nat) (w w' : World) :
  RunCalibrate fuel w = Returned tt w' ->
  exists j n,
    prompt_end fuel (env w) (nbtn w) = Some (j, n)
    /\ sensor_calls (trace w')
       = (if j =? 3 then [] else [EvSensorStop; EvSensorStart SCD_POWERMODE_NORMAL])
         ++ sensor_calls (trace w).
Proof.
  intros H. pose proof (RunCalibrate_prompt fuel w) as HP.
  destruct (prompt_end fuel (env w) (nbtn w)) as [[j n]|].
  - destruct HP as (w2 & E & _ & _ & _ & _ & S2).
    exists j, n. split; [reflexivity|].
    rewrite H in E. destruct (j =? 3).
    + inversion E; subst. exact S2.
    + pose proof (RunCalibrate_started_sensor fuel w2) as HS.
      rewrite <- E in HS. cbn [world_of] in HS. rewrite HS, S2. reflexivity.
  - destruct HP as (w2 & E & _). rewrite H in E. discriminate.
Qed.

(** ** The sensor calls of a session *)

(** C3 as the code has it: a LowPower, Stealth or Continuous session that
    returns to the menu has started the sensor once and stopped it once,
    in that order.  A Calibrate session that returns has had its start
    prompt answered: when the answer was both buttons it has made no
    sensor call at all, and after any other press it has made one start
    followed by one stop, whether it was quit during the countdown or ran
    to its end.  A Timer session makes neither call.  So whichever mode
    main dispatches to, a session that returns has made no sensor call or
    one start followed by one stop.  And a Calibrate prompt answered with
    both buttons does end the session, at that poll, without a sensor
    call. *)
Theorem sensor_start_stop_pairing (fuel : nat) (b : Z) (w : World) :
  (forall w', RunLowPower fuel w = Returned tt w' ->
     sensor_calls (trace w')
     = EvSensorStop :: EvSensorStart SCD_POWERMODE_LOW :: sensor_calls (trace w))
  /\ (forall w', RunStealth fuel w = Returned tt w' ->
     sensor_calls (trace w')
     = EvSensorStop :: EvSensorStart SCD_POWERMODE_NORMAL :: sensor_calls (trace w))
  /\ (forall b' w', RunContinuous fuel b w = Returned b' w' ->
     sensor_calls (trace w')
     = EvSensorStop :: EvSensorStart SCD_POWERMODE_NORMAL :: sensor_calls (trace w))
  /\ (forall w', RunCalibrate fuel w = Returned tt w' ->
     exists j n,
       prompt_end fuel (env w) (nbtn w) = Some (j, n)
       /\ sensor_calls (trace w')
          = (if j =? 3 then [] else [EvSensorStop; EvSensorStart SCD_POWERMODE_NORMAL])
            ++ sensor_calls (trace w))
  /\ sensor_calls (trace (RunTimer w)) = sensor_calls (trace w)
  /\ (forall b' w', run_mode fuel b w = Returned b' w' ->
     sensor_calls (trace w') = sensor_calls (trace w)
     \/ exists m,
         sensor_calls (trace w') = EvSensorStop :: EvSensorStart m :: sensor_calls (trace w))
  /\ (forall n, prompt_end fuel (env w) (nbtn w) = Some (3, n) ->
     exists w', RunCalibrate fuel w = Returned tt w'
                /\ nbtn w' = n
                /\ sensor_calls (trace w') = sensor_calls (trace w)).
Proof.
  split; [|split; [|split; [|split; [|split; [|split]]]]].
  - intros w' H. pose proof (RunLowPower_sensor fuel w) as L. rewrite H in L. exact L.
  - intros w' H. pose proof (RunStealth_sensor fuel w) as L. rewrite H in L. exact L.
  - intros b' w' H. pose proof (RunContinuous_sensor fuel b w) as L. rewrite H in L. exact L.
  - intros w' H. apply RunCalibrate_sensor_by_prompt. exact H.
  - apply RunTimer_sensor.
  - intros b' w'. unfold run_mode. destruct (dispatch (state w)).
    + intros H. inversion H; subst. left. apply RunTimer_sensor.
    + pose proof (RunCalibrate_sensor fuel w) as L.
      destruct (RunCalibrate fuel w) as [[] w1|w1]; cbn [bindO world_of] in *;
        [|discriminate].
      intros H. inversion H; subst.
      destruct L as [L|L]; [left; exact L | right; eexists; exact L].
    + pose proof (RunLowPower_sensor fuel w) as L.
      destruct (RunLowPower fuel w) as [[] w1|w1]; cbn [bindO] in *; [|discriminate].
      intros H. inversion H; subst. right. eexists. exact L.
    + pose proof (RunStealth_sensor fuel w) as L.
      destruct (RunStealth fuel w) as [[] w1|w1]; cbn [bindO] in *; [|discriminate].
      intros H. inversion H; subst. right. eexists. exact L.
    + pose proof (RunContinuous_sensor fuel b w) as L.
      destruct (RunContinuous fuel b w) as [b1 w1|w1]; [|discriminate].
      intros H. inversion H; subst. right. eexists. exact L.
  - intros n HP. pose proof (RunCalibrate_prompt fuel w) as P. rewrite HP in P.
    destruct P as (w2 & E & _ & N2 & _ & _ & S2).
    exists w2. split; [exact E|]. split; [exact N2 | exact S2].
Qed.

Lemma sensor_start_stop_pairing_witness :
  sensor_calls (trace (world_of (RunLowPower 10 lowpower_world)))
  = [EvSensorStop; EvSensorStart SCD_POWERMODE_LOW]
  /\ sensor_calls (trace (world_of (RunStealth 10 stealth_world)))
     = [EvSensorStop; EvSensorStart SCD_POWERMODE_NORMAL]
  /\ sensor_calls (trace (world_of (RunContinuous 10 0 continuous_world)))
     = [EvSensorStop; EvSensorStart SCD_POWERMODE_NORMAL]
  /\ sensor_calls (trace (world_of (RunCalibrate 300 calibrate_world)))
     = [EvSensorStop; EvSensorStart SCD_POWERMODE_NORMAL]
  /\ sensor_calls (trace (world_of (RunCalibrate 300 calibrate_quit_world)))
     = [EvSensorStop; EvSensorStart SCD_POWERMODE_NORMAL]
  /\ sensor_calls (trace (world_of (RunCalibrate 300 calibrate_cancel_world))) = []
  /\ exists w', RunCalibrate 300 calibrate_cancel_world = Returned tt w' /\ nbtn w' = 2%nat.
Proof.
  split; [|split; [|split; [|split; [|split; [|split]]]]].
  - apply (proj1 (sensor_start_stop_pairing 10 0 lowpower_world)).
    vm_compute. reflexivity.
  - apply (proj1 (proj2 (sensor_start_stop_pairing 10 0 stealth_world))).
    vm_compute. reflexivity.
  - apply (proj1 (proj2 (proj2 (sensor_start_stop_pairing 10 0 continuous_world))) 0).
    vm_compute. reflexivity.
  - destruct (proj1 (proj2 (proj2 (proj2
               (sensor_start_stop_pairing 300 0 calibrate_world))))
               (world_of (RunCalibrate 300 calibrate_world)))
      as (j & n & P & S); [vm_compute; reflexivity|].
    vm_compute in P. inversion P; subst j n. exact S.
  - destruct (proj1 (proj2 (proj2 (proj2
               (sensor_start_stop_pairing 300 0 calibrate_quit_world))))
               (world_of (RunCalibrate 300 calibrate_quit_world)))
      as (j & n & P & S); [vm_compute; reflexivity|].
    vm_compute in P. inversion P; subst j n. exact S.
  - destruct (proj1 (proj2 (proj2 (proj2
               (sensor_start_stop_pairing 300 0 calibrate_cancel_world))))
               (world_of (RunCalibrate 300 calibrate_cancel_world)))
      as (j & n & P & S); [vm_compute; reflexivity|].
    vm_compute in P. inversion P; subst j n. exact S.
  - destruct (proj2 (proj2 (proj2 (proj2 (proj2 (proj2
               (sensor_start_stop_pairing 300 0 calibrate_cancel_world))))))
               2%nat) as (w' & E & N & _); [vm_compute; reflexivity|].
    exists w'. split; [exact E | exact N].
Defined.

(** C3 as stated fails for Timer: a Timer session that runs to its alert
    makes no sensor start and no sensor stop call. *)
Lemma timer_session_makes_no_sensor_call :
  sensor_starts (trace (RunTimer timer_world)) <> 1%nat
  /\ sensor_stops (trace (RunTimer timer_world)) <> 1%nat
  /\ alert_count (trace (RunTimer timer_world)) = 1%nat.
Proof.
  vm_compute. repeat split; discriminate.
Qed.

(** ** The calibration session *)

(** C6 as the code has it: when the press that answers the start prompt
    is not both buttons, and the buttons are not both pressed at any of
    the 211 polls of the countdown, [RunCalibrate] starts the sensor in
    normal power mode, shows and waits for the 211 seconds 210 down to 0,
    stops the sensor and calls [scd41_recalibrate] once, with reference
    423; it shows "Success!" when the answer is [SCD_SUCCESS] and
    "Failed" otherwise.  It then polls the buttons until one is pressed
    and returns at that poll; as long as none is pressed it does not
    return. *)
Theorem RunCalibrate_completed (fuel : nat) (w : World) (j : Z) (n : nat) :
  prompt_end fuel (env w) (nbtn w) = Some (j, n) ->
  j <> 3 ->
  (forall k, (k < 211)%nat -> mask_abs w (n + k) <> 3) ->
  calib_view (trace (world_of (RunCalibrate fuel w)))
  = EvOledWriteString 0 32
      (if recal_code (env w) (nrecal w) =? SCD_SUCCESS then "Success!" else "Failed")
      FONT_12x16
    :: EvSensorRecalibrate 423
    :: EvSensorStop
    :: countdown_view 211 ++ EvSensorStart SCD_POWERMODE_NORMAL :: calib_view (trace w)
  /\ nrecal (world_of (RunCalibrate fuel w)) = S (nrecal w)
  /\ match scan (fun j => j =? 0) fuel (env w) (n + 211) with
     | Some (j3, n3) =>
         exists w', RunCalibrate fuel w = Returned tt w' /\ nbtn w' = n3 /\ j3 <> 0
     | None => exists w', RunCalibrate fuel w = Timeout w'
     end.
Proof.
  intros HP Hj Hno. pose proof (RunCalibrate_prompt fuel w) as P.
  rewrite HP in P. destruct P as (w2 & E & E2 & N2 & R2 & V2 & _).
  replace (j =? 3) with false in E by (symmetry; apply Z.eqb_neq; exact Hj).
  rewrite E.
  destruct (RunCalibrate_started_completes fuel w2) as (C1 & C2 & C3).
  { intros k Hk. unfold mask_abs. rewrite E2, N2. apply Hno. exact Hk. }
  rewrite E2, N2, R2, V2 in *.
  split; [exact C1|]. split; [exact C2 | exact C3].
Qed.

Lemma calibrate_world_idle (k : nat) :
  (k < 211)%nat -> mask_abs calibrate_world (2 + k) <> 3.
Proof.
  intros Hk.
  assert (H : forallb (fun k => negb (mask_abs calibrate_world (2 + k) =? 3)) (seq 0 211) = true)
    by (vm_compute; reflexivity).
  rewrite forallb_forall in H. specialize (H k).
  rewrite in_seq in H. specialize (H ltac:(lia)).
  apply negb_true_iff, Z.eqb_neq in H. exact H.
Qed.

Lemma RunCalibrate_completed_witness :
  recal_refs (trace (world_of (RunCalibrate 300 calibrate_world))) = [423]
  /\ length (calib_view (trace (world_of (RunCalibrate 300 calibrate_world)))) = 426%nat
  /\ exists w', RunCalibrate 300 calibrate_world = Returned tt w' /\ nbtn w' = 214%nat.
Proof.
  destruct (RunCalibrate_completed 300 calibrate_world 1 2) as (V & _ & R).
  - vm_compute. reflexivity.
  - discriminate.
  - apply calibrate_world_idle.
  - split; [vm_compute; reflexivity|]. split; [rewrite V; vm_compute; reflexivity|].
    change (scan (fun j => j =? 0) 300 (env calibrate_world) (2 + 211))
      with (Some (2, 214%nat)) in R.
    destruct R as (w' & R1 & R2 & _). exists w'. split; assumption.
Defined.
(** C6 as stated fails: a completed calibration passes 423, not 420, to
    [scd41_recalibrate], after a countdown of 211 one-second ticks, not
    180. *)
Lemma calibration_uses_423_after_211_ticks :
  recal_refs (trace (world_of (RunCalibrate 300 calibrate_world))) <> [420]
  /\ tick_count (trace (world_of (RunCalibrate 300 calibrate_world))) <> 180%nat
  /\ recal_refs (trace (world_of (RunCalibrate 300 calibrate_world))) = [423]
  /\ tick_count (trace (world_of (RunCalibrate 300 calibrate_world))) = 211%nat.
Proof.
  vm_compute. repeat split; discriminate.
Qed.

(** ** LowPower LED cue *)

Lemma co2_led_cue_blinks (w : World) :
  led_blinks (trace (co2_led_cue w))
  = (if _iCO2 w <? 1000 then [LED_GREEN]
     else if _iCO2 w =? 1000 then [LED_RED]
     else if _iCO2 w <? 2000 then [LED_RED; LED_GREEN]
     else [LED_RED]) ++ led_blinks (trace w).
Proof.
  unfold co2_led_cue.
  destruct (_iCO2 w <? 1000) eqn:E1; [reflexivity|].
  destruct (_iCO2 w =? 1000) eqn:E2.
  - replace (_iCO2 w >? 1000) with false by (symmetry; lia). reflexivity.
  - replace (_iCO2 w >? 1000) with true by (symmetry; lia).
    destruct (_iCO2 w <? 2000); reflexivity.
Qed.

(** C5 at its boundary: the sample 1000 makes [RunLowPower] blink the red
    LED only, as for 2000 and above, while 999 gives green only and 1001
    gives green then red. *)
Theorem lowpower_cue_at_1000 :
  led_blinks (trace (world_of (RunLowPower 130 (lowpower_sampling 1000)))) = [LED_RED]
  /\ led_blinks (trace (world_of (RunLowPower 130 (lowpower_sampling 999)))) = [LED_GREEN]
  /\ led_blinks (trace (world_of (RunLowPower 130 (lowpower_sampling 1001))))
     = [LED_RED; LED_GREEN]
  /\ led_blinks (trace (world_of (RunLowPower 130 (lowpower_sampling 2000)))) = [LED_RED].
Proof.
  vm_compute. repeat split.
Qed.

(** ** Continuous mode *)



(** The menu keeps the mode among the enumerated ones, so the index of
    [szMode[state.iMode]] stays within the table. *)
Lemma menu_action_mode_enumerated (item : Z) (s : STATE) :
  0 <= iMode s < MODE_COUNT -> 0 <= iMode (fst (menu_action item s)) < MODE_COUNT.
Proof.
  unfold menu_action, MODE_COUNT. intros H.
  destruct (item =? MENU_START); [exact H|].
  destruct (item =? MENU_MODE).
  - cbn [fst iMode]. rewrite wrap32_id by (unfold in_int32; lia).
    destruct (iMode s + 1 >=? 5) eqn:E; lia.
  - destruct (item =? MENU_FREQ); [exact H|].
    destruct (item =? MENU_ALERT); [exact H|].
    destruct (item =? MENU_TIME); exact H.
Qed.

Lemma menu_loop_mode_enumerated (fuel : nat) : forall sel w,
  0 <= iMode (state w) < MODE_COUNT ->
  0 <= iMode (state (world_of (menu_loop fuel sel w))) < MODE_COUNT.
Proof.
  induction fuel as [|f IH]; intros sel w H; [exact H|].
  cbn [menu_loop]. unfold draw_menu.
  set (w0 := emit _ w).
  destruct (wait_while_fields nonzero f w0) as (S1 & _).
  change (state w0) with (state w) in S1.
  destruct (wait_while nonzero f w0) as [j1 w1|w1]; cbn [bindO world_of] in *;
    [|rewrite S1; exact H].
  destruct (wait_while_fields (fun j => j =? 0) f w1) as (S2 & _).
  destruct (wait_while (fun j => j =? 0) f w1) as [j2 w2|w2]; cbn [bindO world_of] in *;
    [|rewrite S2, S1; exact H].
  destruct (GetButtons_fields w2) as (S3 & _).
  destruct (GetButtons w2) as [y w3]; cbn [snd] in *.
  assert (H3 : 0 <= iMode (state w3) < MODE_COUNT) by (rewrite S3, S2, S1; exact H).
  destruct (nonzero (Z.land y 1)); [apply IH; exact H3|].
  destruct (nonzero (Z.land y 2)); [|apply IH; exact H3].
  pose proof (menu_action_mode_enumerated sel (state w3) H3) as HA.
  destruct (menu_action sel (state w3)) as [s bDone]; cbn [fst] in HA.
  destruct bDone; [exact HA | apply IH; exact HA].
Qed.

Lemma RunMenu_mode_enumerated (fuel : nat) (w : World) :
  0 <= iMode (state w) < MODE_COUNT ->
  0 <= iMode (state (world_of (RunMenu fuel w))) < MODE_COUNT.
Proof.
  intros H. unfold RunMenu. cbv zeta.
  set (w0 := oledWriteString 4 0 "Pocket CO2" FONT_12x16 _).
  pose proof (menu_loop_mode_enumerated fuel 0 w0 H) as HL.
  destruct (menu_loop fuel 0 w0) as [[] w1|w1]; cbn [bindO world_of] in *; [|exact HL].
  destruct (_ && _); exact HL.
Qed.

Lemma cont_poll_count (n : nat) : forall i b w,
  0 <= i -> 61 - i <= 3 * Z.of_nat n ->
  fst (fst (cont_poll n i b w)) = false ->
  nbtn (snd (cont_poll n i b w)) = (nbtn w + Z.to_nat ((63 - i) / 3))%nat
  /\ nsmp (snd (cont_poll n i b w)) = nsmp w
  /\ iSample (snd (cont_poll n i b w)) = iSample w.
Proof.
  induction n as [|n IH]; intros i b w Hi Hn.
  - cbn [cont_poll]. destruct (i <? 61) eqn:E; [lia|]. intros _.
    assert (Hz : (63 - i) / 3 <= 0) by (Z.to_euclidean_division_equations; lia).
    replace (Z.to_nat ((63 - i) / 3)) with 0%nat by lia.
    cbn [snd]. repeat split. lia.
  - cbn [cont_poll]. destruct (i <? 61) eqn:E.
    + set (w0 := Standby82ms 3 w).
      pose proof (eq_refl : nbtn (snd (GetButtons w0)) = S (nbtn w)) as N1.
      pose proof (eq_refl : nsmp (snd (GetButtons w0)) = nsmp w) as N2.
      pose proof (eq_refl : iSample (snd (GetButtons w0)) = iSample w) as N3.
      destruct (GetButtons w0) as [j w1]; cbn [snd] in *.
      destruct (j =? 3); [cbn; discriminate|].
      intros Hf. destruct (IH (i + 3) 1 w1) as (I1 & I2 & I3); try lia; [exact Hf|].
      rewrite I1, I2, I3, N1, N2, N3. repeat split.
      replace ((63 - i) / 3) with (1 + (63 - (i + 3)) / 3)
        by (Z.to_euclidean_division_equations; lia).
      rewrite Z2Nat.inj_add; [cbn; lia | lia | Z.to_euclidean_division_equations; lia].
    + intros _. cbn [snd fst].
      assert (Hz : (63 - i) / 3 <= 0) by (Z.to_euclidean_division_equations; lia).
      replace (Z.to_nat ((63 - i) / 3)) with 0%nat by lia.
      repeat split. lia.
Qed.

Lemma cont_poll_full (b : Z) (w : World) :
  fst (fst (cont_poll 61 0 b w)) = false ->
  nbtn (snd (cont_poll 61 0 b w)) = (nbtn w + 21)%nat
  /\ nsmp (snd (cont_poll 61 0 b w)) = nsmp w
  /\ iSample (snd (cont_poll 61 0 b w)) = iSample w.
Proof.
  intros H. apply (cont_poll_count 61 0 b w); [lia | lia | exact H].
Qed.

Lemma cont_pass_sample (w : World) :
  let w1 := set_iSample (wrap32 (iSample (scd41_getSample (I2CInit 50000 w)) + 1))
              (scd41_getSample (I2CInit 50000 w)) in
  let w2 := ShowCurrent (if display_off_guard w1 then oledPower 0 w1 else w1) in
  iSample w2 = wrap32 (iSample w + 1) /\ nsmp w2 = S (nsmp w) /\ nbtn w2 = nbtn w.
Proof.
  cbv zeta. destruct (display_off_guard _); repeat split.
Qed.

Lemma cont_loop_pass (f : nat) (b : Z) (w w' : World) :
  cont_loop (S f) b w = Timeout w' ->
  exists b' w2 w3,
    iSample w2 = wrap32 (iSample w + 1) /\ nsmp w2 = S (nsmp w) /\ nbtn w2 = nbtn w
    /\ cont_poll 61 0 b w2 = ((false, b'), w3)
    /\ cont_loop f b' w3 = Timeout w'.
Proof.
  cbn [cont_loop]. intros H.
  match type of H with
  | match cont_poll 61 0 b ?x with _ => _ end = _ => set (w2 := x) in *
  end.
  destruct (cont_poll 61 0 b w2) as [[[|] b'] w3] eqn:E; [discriminate|].
  exists b', w2, w3.
  split; [apply cont_pass_sample|]. split; [apply cont_pass_sample|].
  split; [apply cont_pass_sample|]. split; [first [exact E | reflexivity] | exact H].
Qed.

Lemma cont_loop_cadence (fuel : nat) : forall b w w',
  cont_loop fuel b w = Timeout w' ->
  iSample w + Z.of_nat fuel < 2147483648 -> -2147483648 <= iSample w ->
  nsmp w' = (nsmp w + fuel)%nat
  /\ nbtn w' = (nbtn w + 21 * fuel)%nat
  /\ iSample w' = iSample w + Z.of_nat fuel.
Proof.
  induction fuel as [|f IH]; intros b w w' H Hhi Hlo.
  - cbn in H. inversion H; subst. repeat split; lia.
  - destruct (cont_loop_pass f b w w' H) as (b' & w2 & w3 & A1 & A2 & A3 & E & L).
    rewrite wrap32_id in A1 by (unfold in_int32; lia).
    destruct (cont_poll_full b w2) as (P1 & P2 & P3); [rewrite E; reflexivity|].
    rewrite E in P1, P2, P3. cbn [snd] in P1, P2, P3.
    destruct (IH b' w3 w' L) as (I1 & I2 & I3); [lia | lia |].
    rewrite I1, I2, I3. repeat split; lia.
Qed.









(** ** Stealth *)

Lemma stealth_level_clamp (co2 : Z) :
  in_int32 co2 -> stealth_level co2 = spec_level co2.
Proof.
  intros H. unfold stealth_level, spec_level, clamp, in_int32 in *.
  rewrite wrap32_id
    by (unfold in_int32; Z.to_euclidean_division_equations; lia).
  destruct (1 + Z.quot co2 500 <? 1) eqn:E1; [lia|].
  destruct (1 + Z.quot co2 500 >? 6) eqn:E2; lia.
Qed.

Lemma buzz_spec (n : nat) : forall t w,
  0 <= t -> t + 2 * Z.of_nat n < 2147483648 ->
  fst (buzz n t w) = t + 2 * Z.of_nat n
  /\ pulses (trace (snd (buzz n t w))) = (n + pulses (trace w))%nat
  /\ nsmp (snd (buzz n t w)) = nsmp w.
Proof.
  induction n as [|n IH]; intros t w H0 H1.
  - cbn. repeat split. lia.
  - cbn [buzz].
    rewrite (wrap32_id (t + 2)) by (unfold in_int32; lia).
    destruct (IH (t + 2) (Delay_Ms 395 (Vibrate 100 w))) as (I1 & I2 & I3); try lia.
    rewrite I1, I2, I3.
    change (pulses (trace (Delay_Ms 395 (Vibrate 100 w)))) with (S (pulses (trace w))).
    repeat split; lia.
Qed.

Lemma spec_level_range (co2 : Z) : 1 <= spec_level co2 <= 6.
Proof. unfold spec_level, clamp. lia. Qed.

Lemma buzz_fields (n : nat) : forall t w,
  env (snd (buzz n t w)) = env w /\ nbtn (snd (buzz n t w)) = nbtn w.
Proof.
  induction n as [|n IH]; intros t w; [split; reflexivity|].
  cbn [buzz]. destruct (IH (wrap32 (t + 2)) (Delay_Ms 395 (Vibrate 100 w))) as (I1 & I2).
  rewrite I1, I2. split; reflexivity.
Qed.

Lemma freq_cycle_update (f : Z) :
  In f freq_cycle ->
  wrap32 (f * 4) = 4 * f /\ (f = 15 \/ f = 30 \/ f = 45 \/ f = 60).
Proof.
  unfold freq_cycle. cbn [In].
  intros [<-|[<-|[<-|[<-|[]]]]]; (split; [vm_compute; reflexivity | tauto]).
Qed.

(** One pass of the loop after the exit test: a pass whose tick is the
    last of an update cycle takes a sample first and then gives the
    pulses of its level; the tick counter moves on by two per pulse and
    one more, without passing the end of the next cycle; any other pass
    gives no pulse. *)
Lemma stealth_body_spec (f t l : Z) (w : World) :
  In f freq_cycle ->
  0 <= t < 2147483600 ->
  in_int32 (sensor_co2 (env w) (nsmp w)) ->
  let u := wrap32 (f * 4) in
  let level := spec_level (sensor_co2 (env w) (nsmp w)) in
  let r := stealth_body u t l w in
  env (snd r) = env w
  /\ nbtn (snd r) = nbtn w
  /\ (Z.rem t u = u - 1 ->
      nsmp (snd r) = S (nsmp w)
      /\ snd (fst r) = level
      /\ pulses (trace (snd r)) = (Z.to_nat level + pulses (trace w))%nat
      /\ fst (fst r) = t + 2 * level + 1
      /\ (forall b, t < b < fst (fst r) -> Z.rem b u <> u - 1))
  /\ (Z.rem t u <> u - 1 ->
      pulses (trace (snd r)) = pulses (trace w)
      /\ fst (fst r) = t + 1
      /\ nsmp (snd r) = if Z.rem t 20 =? 19 then S (nsmp w) else nsmp w).
Proof.
  intros Hf Ht Hco2 u level r.
  assert (Hu : u = 60 \/ u = 120 \/ u = 180 \/ u = 240).
  { unfold u, freq_cycle in *. cbn [In] in Hf.
    destruct Hf as [<-|[<-|[<-|[<-|[]]]]]; vm_compute; tauto. }
  assert (Hw : wrap32 (u - 1) = u - 1).
  { apply wrap32_id. unfold in_int32. lia. }
  pose proof (spec_level_range (sensor_co2 (env w) (nsmp w))) as Hl.
  fold level in Hl.
  assert (HE : env (snd r) = env w /\ nbtn (snd r) = nbtn w).
  { unfold r, stealth_body. cbv zeta.
    destruct (Z.rem t 20 =? 19); destruct (Z.rem t u =? wrap32 (u - 1));
      try (split; reflexivity).
    - pose proof (buzz_fields (Z.to_nat (stealth_level (_iCO2 (scd41_getSample (Delay_Ms 250 w)))))
                    t (scd41_getSample (Delay_Ms 250 w))) as B.
      destruct (buzz _ t (scd41_getSample (Delay_Ms 250 w))) as [t' w']. exact B.
    - pose proof (buzz_fields (Z.to_nat l) t (Delay_Ms 250 w)) as B.
      destruct (buzz _ t (Delay_Ms 250 w)) as [t' w']. exact B. }
  split; [apply HE|]. split; [apply HE|]. split.
  - intros Hb.
    assert (H20 : Z.rem t 20 = 19).
    { clear - Hb Hu Ht. destruct Hu as [->|[->|[->| ->]]];
        Z.to_euclidean_division_equations; lia. }
    unfold r, stealth_body. cbv zeta.
    rewrite H20, Hw, Hb, !Z.eqb_refl.
    change (_iCO2 (scd41_getSample (Delay_Ms 250 w))) with (sensor_co2 (env w) (nsmp w)).
    rewrite (stealth_level_clamp _ Hco2). fold level.
    destruct (buzz_spec (Z.to_nat level) t (scd41_getSample (Delay_Ms 250 w)))
      as (B1 & B2 & B3); try lia.
    destruct (buzz (Z.to_nat level) t (scd41_getSample (Delay_Ms 250 w))) as [t' w'].
    cbn [fst snd] in *. subst t'.
    rewrite Z2Nat.id in * by lia.
    rewrite wrap32_id by (unfold in_int32; lia).
    repeat split.
    + rewrite B3. reflexivity.
    + rewrite B2. reflexivity.
    + intros b Hbr. clear - Hb Hu Ht Hbr Hl.
      destruct Hu as [->|[->|[->| ->]]];
        Z.to_euclidean_division_equations; lia.
  - intros Hb.
    unfold r, stealth_body. cbv zeta. rewrite Hw.
    replace (Z.rem t u =? u - 1) with false by (symmetry; lia).
    destruct (Z.rem t 20 =? 19); cbn [fst snd];
      (split; [reflexivity | split; [apply wrap32_id; unfold in_int32; lia | reflexivity]]).
Qed.

Section Cycles.

Variable e : Env.
Variable s0 P0 : nat.
Variable f : Z.
Hypothesis Hf : In f freq_cycle.
Hypothesis Hco2 : forall k, in_int32 (sensor_co2 e k).

Lemma stealth_body_cycles (t l : Z) (w : World) :
  stealth_inv e s0 P0 f t w -> t < 2147483600 ->
  let r := stealth_body (wrap32 (f * 4)) t l w in
  stealth_inv e s0 P0 f (fst (fst r)) (snd r)
  /\ nbtn (snd r) = nbtn w
  /\ fst (fst r)
     = t + 1 + 2 * (Z.of_nat (pulses (trace (snd r))) - Z.of_nat (pulses (trace w)))
  /\ fst (fst r) <= t + 13.
Proof.
  intros (Ie & It & Is & Ip) Hhi r.
  destruct (stealth_body_spec f t l w Hf ltac:(lia) ltac:(rewrite Ie; apply Hco2))
    as (B1 & B2 & B3 & B4).
  fold r in B1, B2, B3, B4.
  destruct (freq_cycle_update f Hf) as (Hu & Hcase).
  rewrite Hu in B3, B4.
  pose proof (spec_level_range (sensor_co2 (env w) (nsmp w))) as Hl.
  unfold stealth_inv. rewrite B1, B2.
  destruct (Z.eq_dec (Z.rem t (4 * f)) (4 * f - 1)) as [Hb|Hb].
  - destruct (B3 Hb) as (N1 & _ & P1 & T1 & _). clear B3 B4.
    rewrite T1, N1, P1.
    set (L := spec_level (sensor_co2 (env w) (nsmp w))) in *.
    assert (A1 : (t + 2 * L + 1) / 20 = t / 20 + 1).
    { clear - Hb Hcase It Hl. destruct Hcase as [->|[->|[->| ->]]];
        Z.to_euclidean_division_equations; lia. }
    assert (A2 : (t + 2 * L + 1) / (4 * f) = t / (4 * f) + 1).
    { clear - Hb Hcase It Hl. destruct Hcase as [->|[->|[->| ->]]];
        Z.to_euclidean_division_equations; lia. }
    assert (A3 : 0 <= t / (4 * f)).
    { clear - Hcase It. destruct Hcase as [->|[->|[->| ->]]];
        Z.to_euclidean_division_equations; lia. }
    assert (A4 : (s0 + S (Z.to_nat (t / (4 * f))) * Z.to_nat (f / 5) - 1)%nat = nsmp w).
    { clear - Hb Hcase It Is A3.
      destruct Hcase as [->|[->|[->| ->]]].
      - change (Z.to_nat (15 / 5)) with 3%nat.
        assert (t / 20 = 3 * (t / (4 * 15)) + 2) by (Z.to_euclidean_division_equations; lia).
        lia.
      - change (Z.to_nat (30 / 5)) with 6%nat.
        assert (t / 20 = 6 * (t / (4 * 30)) + 5) by (Z.to_euclidean_division_equations; lia).
        lia.
      - change (Z.to_nat (45 / 5)) with 9%nat.
        assert (t / 20 = 9 * (t / (4 * 45)) + 8) by (Z.to_euclidean_division_equations; lia).
        lia.
      - change (Z.to_nat (60 / 5)) with 12%nat.
        assert (t / 20 = 12 * (t / (4 * 60)) + 11) by (Z.to_euclidean_division_equations; lia).
        lia. }
    rewrite A1, A2.
    replace (Z.to_nat (t / (4 * f) + 1)) with (S (Z.to_nat (t / (4 * f)))) by lia.
    cbn [cycle_pulses]. rewrite A4, Ie.
    assert (HL : L = spec_level (sensor_co2 e (nsmp w)))
      by (unfold L; rewrite Ie; reflexivity).
    rewrite <- HL.
    repeat split; try lia.
  - destruct (B4 Hb) as (P1 & T1 & N1). clear B3 B4.
    rewrite T1, N1, P1.
    assert (A2 : (t + 1) / (4 * f) = t / (4 * f)).
    { clear - Hb Hcase It. destruct Hcase as [->|[->|[->| ->]]];
        Z.to_euclidean_division_equations; lia. }
    rewrite A2.
    assert (A1 : Z.of_nat (if Z.rem t 20 =? 19 then S (nsmp w) else nsmp w)
                 = Z.of_nat s0 + (t + 1) / 20).
    { destruct (Z.rem t 20 =? 19) eqn:E.
      - apply Z.eqb_eq in E.
        assert ((t + 1) / 20 = t / 20 + 1)
          by (clear - E It; Z.to_euclidean_division_equations; lia).
        lia.
      - apply Z.eqb_neq in E.
        assert ((t + 1) / 20 = t / 20)
          by (clear - E It; Z.to_euclidean_division_equations; lia).
        lia. }
    repeat split; try assumption; lia.
Qed.

Lemma stealth_loop_cycles (m : nat) : forall fuel t l w,
  stealth_inv e s0 P0 f t w ->
  (m <= fuel)%nat ->
  t + 13 * Z.of_nat m < 2147483600 ->
  (forall k, (k < m)%nat -> mask_abs w (nbtn w + k) <> 3) ->
  m = fuel \/ mask_abs w (nbtn w + m) = 3 ->
  exists w',
    stealth_loop fuel (wrap32 (f * 4)) t l w
    = (if (m <? fuel)%nat then Returned tt w' else Timeout w')
    /\ nbtn w' = (nbtn w + m + (if (m <? fuel)%nat then 1 else 0))%nat
    /\ stealth_inv e s0 P0 f (t + Z.of_nat m
                    + 2 * (Z.of_nat (pulses (trace w')) - Z.of_nat (pulses (trace w)))) w'.
Proof.
  induction m as [|m IH]; intros fuel t l w Hinv Hm Hhi Hidle Hend.
  - destruct fuel as [|fuel].
    + exists w. cbn [stealth_loop Nat.ltb Nat.leb]. split; [reflexivity|].
      split; [lia|].
      replace (t + Z.of_nat 0 + 2 * (Z.of_nat (pulses (trace w)) - Z.of_nat (pulses (trace w))))
        with t by lia.
      exact Hinv.
    + destruct Hend as [Hend|Hend]; [discriminate|].
      rewrite Nat.add_0_r in Hend.
      cbn [stealth_loop].
      pose proof (eq_refl : fst (GetButtons w) = mask_abs w (nbtn w)) as Hj.
      pose proof (eq_refl : nbtn (snd (GetButtons w)) = S (nbtn w)) as Hn.
      pose proof (eq_refl : env (snd (GetButtons w)) = env w) as He.
      pose proof (eq_refl : nsmp (snd (GetButtons w)) = nsmp w) as Hs.
      pose proof (GetButtons_quiet is_pulse ltac:(reflexivity) w) as Hp.
      destruct (GetButtons w) as [j w1]; cbn [fst snd] in *.
      rewrite Hj, Hend. change (3 =? 3) with true. cbv iota.
      exists (scd41_stop (oledFill 0 w1)).
      change (0 <? S fuel)%nat with true. cbv iota.
      split; [reflexivity|]. split; [cbn; lia|].
      assert (Hp' : pulses (trace (scd41_stop (oledFill 0 w1))) = pulses (trace w)).
      { unfold pulses. cbn. rewrite Hp. reflexivity. }
      rewrite Hp'.
      replace (t + Z.of_nat 0 + 2 * (Z.of_nat (pulses (trace w)) - Z.of_nat (pulses (trace w))))
        with t by lia.
      destruct Hinv as (I1 & I2 & I3 & I4).
      unfold stealth_inv. rewrite Hp'. cbn [env nsmp scd41_stop oledFill emit].
      change (env (scd41_stop (oledFill 0 w1))) with (env w1).
      change (nsmp (scd41_stop (oledFill 0 w1))) with (nsmp w1).
      rewrite He, Hs. repeat split; assumption.
  - destruct fuel as [|fuel]; [lia|].
    cbn [stealth_loop].
    pose proof (eq_refl : fst (GetButtons w) = mask_abs w (nbtn w)) as Hj.
    pose proof (eq_refl : nbtn (snd (GetButtons w)) = S (nbtn w)) as Hn.
    pose proof (eq_refl : env (snd (GetButtons w)) = env w) as He.
    pose proof (eq_refl : nsmp (snd (GetButtons w)) = nsmp w) as Hs.
    pose proof (GetButtons_quiet is_pulse ltac:(reflexivity) w) as Hp.
    destruct (GetButtons w) as [j w1]; cbn [fst snd] in *.
    assert (Hj3 : (j =? 3) = false).
    { apply Z.eqb_neq. rewrite Hj. specialize (Hidle 0%nat ltac:(lia)).
      rewrite Nat.add_0_r in Hidle. exact Hidle. }
    rewrite Hj3.
    assert (Hp1 : pulses (trace w1) = pulses (trace w)).
    { unfold pulses. rewrite Hp. reflexivity. }
    assert (Hinv1 : stealth_inv e s0 P0 f t w1).
    { destruct Hinv as (I1 & I2 & I3 & I4). unfold stealth_inv.
      rewrite He, Hs, Hp1. repeat split; assumption. }
    destruct (stealth_body_cycles t l w1 Hinv1 ltac:(lia)) as (J1 & J2 & J3 & J4).
    cbv zeta in J1, J2, J3, J4.
    destruct (stealth_body (wrap32 (f * 4)) t l w1) as [[t2 l2] w2]; cbn [fst snd] in *.
    destruct (IH fuel t2 l2 w2) as (w' & L1 & L2 & L3).
    + exact J1.
    + lia.
    + lia.
    + intros k Hk. unfold mask_abs. destruct J1 as (J1 & _). destruct Hinv1 as (K1 & _).
      rewrite J1, <- K1, He, J2, Hn.
      replace (S (nbtn w) + k)%nat with (nbtn w + S k)%nat by lia.
      apply Hidle. lia.
    + destruct Hend as [Hend|Hend]; [left; lia|right].
      unfold mask_abs in *. destruct J1 as (J1 & _). destruct Hinv1 as (K1 & _).
      rewrite J1, <- K1, He, J2, Hn.
      replace (S (nbtn w) + m)%nat with (nbtn w + S m)%nat by lia. exact Hend.
    + exists w'. change (S m <? S fuel)%nat with (m <? fuel)%nat.
      split; [exact L1|]. split; [rewrite L2, J2, Hn; lia|].
      replace (t + Z.of_nat (S m)
               + 2 * (Z.of_nat (pulses (trace w')) - Z.of_nat (pulses (trace w))))
        with (t2 + Z.of_nat m
              + 2 * (Z.of_nat (pulses (trace w')) - Z.of_nat (pulses (trace w2))))
        by lia.
      exact L3.
Qed.

Lemma cycle_pulses_nonneg (c : nat) : 0 <= cycle_pulses e s0 f c.
Proof.
  induction c as [|c IH]; [cbn; lia|].
  cbn [cycle_pulses].
  pose proof (spec_level_range (sensor_co2 e (s0 + S c * Z.to_nat (f / 5) - 1))). lia.
Qed.

End Cycles.

Lemma cycle_pulses_constant (e : Env) (s0 : nat) (f : Z) (v : Z) (c : nat) :
  (forall k, sensor_co2 e k = v) ->
  cycle_pulses e s0 f c = spec_level v * Z.of_nat c.
Proof.
  intros H. induction c as [|c IH]; [cbn; lia|].
  cbn [cycle_pulses]. rewrite IH, H. lia.
Qed.

Lemma wait_while_nsmp (c : Z -> bool) (fuel : nat) : forall w,
  nsmp (world_of (wait_while c fuel w)) = nsmp w.
Proof.
  induction fuel as [|fu IH]; intros w; [reflexivity|].
  cbn [wait_while].
  pose proof (eq_refl : nsmp (snd (GetButtons w)) = nsmp w) as Hs.
  destruct (GetButtons w) as [j w1]; cbn [snd] in *.
  destruct (c j); [|exact Hs].
  rewrite IH. exact Hs.
Qed.

Lemma RunStealth_prompt (fuel : nat) (w : World) :
  match prompt_end fuel (env w) (nbtn w) with
  | Some (j, n) =>
      exists w2,
        RunStealth fuel w = stealth_loop fuel (wrap32 (iFreq (state w) * 4)) 0 1 w2
        /\ env w2 = env w /\ nbtn w2 = n /\ nsmp w2 = nsmp w
        /\ pulses (trace w2) = pulses (trace w)
  | None =>
      exists w2,
        RunStealth fuel w = Timeout w2
        /\ nsmp w2 = nsmp w /\ pulses (trace w2) = pulses (trace w)
  end.
Proof.
  unfold prompt_end, RunStealth. cbv zeta.
  set (w0 := oledWriteString 0 56 _ _ _).
  change (env w) with (env w0). change (nbtn w) with (nbtn w0).
  change (state w) with (state w0).
  pose proof (wait_while_scan nonzero fuel w0) as W1.
  pose proof (wait_while_quiet is_pulse ltac:(reflexivity) ltac:(reflexivity) nonzero fuel w0)
    as Q1.
  pose proof (wait_while_nsmp nonzero fuel w0) as R1.
  destruct (wait_while_fields nonzero fuel w0) as (_ & _ & E1 & _).
  change (filter is_pulse (trace w0)) with (filter is_pulse (trace w)) in Q1.
  change (nsmp w0) with (nsmp w) in R1.
  destruct (scan nonzero fuel (env w0) (nbtn w0)) as [[j1 n1]|].
  - destruct W1 as (w1 & W1 & N1). rewrite W1 in *. cbn [bindO world_of] in *.
    rewrite <- E1, <- N1.
    pose proof (wait_while_scan (fun j => j =? 0) fuel w1) as W2.
    pose proof (wait_while_quiet is_pulse ltac:(reflexivity) ltac:(reflexivity)
                  (fun j => j =? 0) fuel w1) as Q2.
    pose proof (wait_while_nsmp (fun j => j =? 0) fuel w1) as R2.
    destruct (wait_while_fields (fun j => j =? 0) fuel w1) as (_ & _ & E2 & _).
    destruct (scan (fun j => j =? 0) fuel (env w1) (nbtn w1)) as [[j n]|].
    + destruct W2 as (w2 & W2 & N2). rewrite W2 in *. cbn [bindO world_of] in *.
      eexists. split; [reflexivity|].
      unfold pulses. cbn. rewrite Q2, Q1.
      repeat split; congruence.
    + destruct W2 as (w2 & W2). rewrite W2 in *. cbn [bindO world_of] in *.
      exists w2. unfold pulses. rewrite Q2, Q1. repeat split; congruence.
  - destruct W1 as (w1 & W1). rewrite W1 in *. cbn [bindO world_of] in *.
    exists w1. unfold pulses. rewrite Q1. repeat split; congruence.
Qed.

(** C7 as the code has it: a Stealth session with the update period among
    15, 30, 45 and 60 seconds, the values the menu sets, started at its
    prompt and running for [m] passes of its loop.  [iTick] counts
    quarter seconds, one for a pass and two for a pulse: with [p] pulses
    given it stands at [t = m + 2 p].  By then the session has read
    [t / 20] samples, one every 5 s, and [t / (4 iFreq)] update cycles
    have ended; the pulses given are those of the cycles that have ended,
    and every cycle gives clamp(1 + co2/500, 1, 6) pulses, with the
    truncating division of the sample read at its end, the most recent
    one.  With readings of 750 that is 2 pulses for each cycle.  The
    session returns at the first poll that reads both buttons, and runs
    on until then. *)
Theorem stealth_pulses_per_update (fuel m : nat) (w : World) (j : Z) (n : nat) :
  In (iFreq (state w)) freq_cycle ->
  (forall k, in_int32 (sensor_co2 (env w) k)) ->
  prompt_end fuel (env w) (nbtn w) = Some (j, n) ->
  (m <= fuel)%nat ->
  13 * Z.of_nat m < 2147483600 ->
  (forall k, (k < m)%nat -> mask_abs w (n + k) <> 3) ->
  m = fuel \/ mask_abs w (n + m) = 3 ->
  exists (w' : World) (p : nat),
    RunStealth fuel w = (if (m <? fuel)%nat then Returned tt w' else Timeout w')
    /\ pulses (trace w') = (pulses (trace w) + p)%nat
    /\ let t := Z.of_nat m + 2 * Z.of_nat p in
       let c := Z.to_nat (t / (4 * iFreq (state w))) in
       nsmp w' = (nsmp w + Z.to_nat (t / 20))%nat
       /\ Z.of_nat p = cycle_pulses (env w) (nsmp w) (iFreq (state w)) c
       /\ (forall k, cycle_pulses (env w) (nsmp w) (iFreq (state w)) (S k)
                     - cycle_pulses (env w) (nsmp w) (iFreq (state w)) k
                     = clamp (1 + Z.quot (sensor_co2 (env w)
                                  (nsmp w + S k * Z.to_nat (iFreq (state w) / 5) - 1)) 500)
                             1 6)
       /\ ((forall k, sensor_co2 (env w) k = 750) -> Z.of_nat p = 2 * Z.of_nat c).
Proof.
  intros Hf Hco2 HP Hm Hhi Hidle Hend.
  pose proof (RunStealth_prompt fuel w) as P. rewrite HP in P.
  destruct P as (w2 & E & E2 & N2 & S2 & P2).
  assert (Hinv : stealth_inv (env w) (nsmp w) (pulses (trace w)) (iFreq (state w)) 0 w2).
  { unfold stealth_inv. rewrite E2, S2, P2.
    destruct (freq_cycle_update _ Hf) as (_ & [->|[->|[->| ->]]]);
      repeat split; cbn; lia. }
  destruct (stealth_loop_cycles (env w) (nsmp w) (pulses (trace w)) (iFreq (state w))
              Hf Hco2 m fuel 0 1 w2 Hinv Hm ltac:(lia)) as (w' & L1 & L2 & L3).
  { intros k Hk. unfold mask_abs. rewrite E2, N2. apply Hidle. exact Hk. }
  { destruct Hend as [Hend|Hend]; [left; exact Hend | right].
    unfold mask_abs. rewrite E2, N2. exact Hend. }
  destruct L3 as (I1 & I2 & I3 & I4). rewrite P2 in *.
  pose proof (cycle_pulses_nonneg (env w) (nsmp w) (iFreq (state w))
                (Z.to_nat ((0 + Z.of_nat m
                  + 2 * (Z.of_nat (pulses (trace w')) - Z.of_nat (pulses (trace w))))
                  / (4 * iFreq (state w))))) as Hnn.
  exists w', (pulses (trace w') - pulses (trace w))%nat.
  split; [rewrite E; exact L1|].
  split; [lia|]. cbv zeta.
  replace (Z.of_nat (pulses (trace w') - pulses (trace w)))
    with (Z.of_nat (pulses (trace w')) - Z.of_nat (pulses (trace w))) by lia.
  replace (0 + Z.of_nat m
           + 2 * (Z.of_nat (pulses (trace w')) - Z.of_nat (pulses (trace w))))
    with (Z.of_nat m + 2 * (Z.of_nat (pulses (trace w')) - Z.of_nat (pulses (trace w))))
    in * by lia.
  pose proof (Z.div_pos _ 20 I2 ltac:(lia)) as Hdiv.
  split; [lia|]. split; [lia|]. split.
  - intros k. cbn [cycle_pulses]. unfold spec_level. lia.
  - intros Hc. rewrite (cycle_pulses_constant _ _ _ 750 _ Hc) in I4.
    change (spec_level 750) with 2 in I4. lia.
Qed.

Lemma stealth_cycles_world_idle (k : nat) :
  (k < 130)%nat -> mask_abs stealth_cycles_world (2 + k) <> 3.
Proof.
  intros Hk.
  assert (H : forallb (fun k => negb (mask_abs stealth_cycles_world (2 + k) =? 3))
                (seq 0 130) = true) by (vm_compute; reflexivity).
  rewrite forallb_forall in H. specialize (H k).
  rewrite in_seq in H. specialize (H ltac:(lia)).
  apply negb_true_iff, Z.eqb_neq in H. exact H.
Qed.

Lemma stealth_pulses_per_update_witness :
  exists w',
    RunStealth 200 stealth_cycles_world = Returned tt w'
    /\ pulses (trace w') = 4%nat
    /\ nsmp w' = 6%nat.
Proof.
  destruct (stealth_pulses_per_update 200 130 stealth_cycles_world 1 2)
    as (w' & p & E & P & S & C & _ & K).
  - unfold freq_cycle. simpl. tauto.
  - intros k. unfold in_int32. simpl. lia.
  - vm_compute. reflexivity.
  - lia.
  - lia.
  - apply stealth_cycles_world_idle.
  - right. vm_compute. reflexivity.
  - exists w'. change (130 <? 200)%nat with true in E. cbv iota in E.
    split; [exact E|].
    specialize (K (fun _ => eq_refl)).
    change (iFreq (state stealth_cycles_world)) with 15 in K.
    change (pulses (trace stealth_cycles_world)) with 0%nat in P.
    change (nsmp stealth_cycles_world) with 0%nat in S.
    assert (Hp : p = 4%nat).
    { clear - K. assert (0 <= (Z.of_nat 130 + 2 * Z.of_nat p) / (4 * 15))
        by (Z.to_euclidean_division_equations; lia).
      rewrite Z2Nat.id in K by assumption.
      Z.to_euclidean_division_equations. lia. }
    subst p. split; [exact P|]. rewrite S. reflexivity.
Defined.

(** C7 as stated fails: [ReadFlash] checks the timer period only, so a
    settings page with mode Stealth and an update period of 1 second is
    loaded as it is.  At 750 ppm the pulses of one cycle then take the
    whole second of the next: [iTick] jumps over its last tick, and that
    cycle gives no pulse.  After 12, 16, 20, ... passes of the loop
    [iTick] stands at 24, 32, 40, ...: each time two more cycles have
    ended and 2 more pulses were given, where the level of every sample
    asks for 4.  The sample tick 39 is jumped over as well: after 64
    ticks two samples have been read. *)
Lemma stored_period_1_skips_update_cycles :
  state (main_boot stored_period1_world) = mkSTATE MODE_STEALTH ALERT_LED 1 20
  /\ map (fun passes =>
            let w := world_of (main 1 passes stored_period1_world) in
            ((passes + 2 * pulses (trace w))%nat, pulses (trace w), nsmp w))
         [12; 16; 20; 24; 28; 32]%nat
     = [(24, 6, 1); (32, 8, 1); (40, 10, 1); (48, 12, 1); (56, 14, 1); (64, 16, 2)]%nat
  /\ (forall k, sensor_co2 (env stored_period1_world) k = 750)
  /\ spec_level 750 = 2.
Proof.
  split; [|split; [|split]]; vm_compute; reflexivity.
Qed.
(** A whole Stealth session at 750 ppm with a 15 s update period, left
    running over two update cycles: six samples and four pulses. *)
Example stealth_two_cycles_at_750 :
  exists w',
    RunStealth 200 (boot (env_of ([0; 1] ++ repeat 0 130 ++ [3]) 750 0) (mkSTATE 2 0 15 5))
    = Returned tt w'
    /\ pulses (trace w') = 4%nat /\ nsmp w' = 6%nat.
Proof.
  eexists. split; [vm_compute; reflexivity | split; reflexivity].
Qed.

(** * Further properties of the code *)


(** ** i2str *)


Lemma wrap8_digit (q : Z) : 0 <= q <= 9 -> wrap8 (48 + wrap8 q) = 48 + q.
Proof.
  intros H. unfold wrap8. rewrite (Z.mod_small q) by lia. apply Z.mod_small. lia.
Qed.

Lemma i2str_step_emit (P iVal n : Z) (d : list Z) :
  In P places -> 0 <= n <= 10 -> 0 <= iVal < 10 * P ->
  (n <> 0 \/ P <= iVal) ->
  exists n', 1 <= n' <= n + 1
    /\ i2str_step P (iVal, n, d) = (iVal mod P, n', d ++ [48 + iVal / P]).
Proof.
  intros HP Hn Hv Hs. unfold i2str_step.
  assert (HPpos : 0 < P) by (unfold places in HP; cbn in HP; lia).
  assert (Hq : 0 <= iVal / P <= 9).
  { split; [apply Z.div_pos; lia | ].
    cut (iVal / P < 10); [lia|]. apply Z.div_lt_upper_bound; lia. }
  pose proof (Z.mod_pos_bound iVal P HPpos) as Hm.
  pose proof (Z.div_mod iVal P ltac:(lia)) as Hdm.
  destruct (iVal >=? P) eqn:E.
  - exists (n + 1). split; [lia|].
    rewrite Z.quot_div_nonneg by lia.
    rewrite wrap8_digit by lia.
    assert (Hin : in_int32 (iVal / P * P)).
    { unfold in_int32. unfold places in HP. cbn in HP. nia. }
    rewrite (wrap32_id (iVal / P * P)) by exact Hin.
    rewrite (wrap32_id (n + 1)) by (unfold in_int32; lia).
    rewrite wrap32_id.
    + replace (iVal - iVal / P * P) with (iVal mod P) by lia. reflexivity.
    + unfold in_int32. unfold places in HP. cbn in HP. nia.
  - assert (Hlt : iVal < P) by lia.
    destruct Hs as [Hs|Hs]; [|lia].
    replace (nonzero n) with true by (unfold nonzero; destruct (n =? 0) eqn:E0; [lia|reflexivity]).
    exists n. split; [lia|].
    rewrite Z.mod_small, Z.div_small by lia. reflexivity.
Qed.

Lemma i2str_step_skip (P iVal : Z) (d : list Z) :
  iVal < P -> i2str_step P (iVal, 0, d) = (iVal, 0, d).
Proof.
  intros H. unfold i2str_step.
  replace (iVal >=? P) with false by (symmetry; lia). reflexivity.
Qed.

Lemma i2str_loop_unfold (st : Z * Z * list Z) :
  i2str_loop 5 10000 st
  = i2str_step 1 (i2str_step 10 (i2str_step 100 (i2str_step 1000 (i2str_step 10000 st)))).
Proof. reflexivity. Qed.



Ltac i2str_emit :=
  match goal with
  | |- context [i2str_step ?P (?v, ?n, ?d)] =>
      let n' := fresh "n" in
      let Hn := fresh "Hn" in
      let E := fresh "E" in
      destruct (i2str_step_emit P v n d) as (n' & Hn & E);
      [ unfold places; cbn; tauto
      | lia
      | Z.to_euclidean_division_equations; lia
      | first [left; lia | right; Z.to_euclidean_division_equations; lia]
      | rewrite E; clear E ]
  end.

Ltac i2str_skip :=
  match goal with
  | |- context [i2str_step ?P (?v, 0, ?d)] =>
      rewrite (i2str_step_skip P v d) by lia
  end.

Ltac digits_eq :=
  unfold digit_of; cbn [app];
  repeat (f_equal; try (Z.to_euclidean_division_equations; lia)).

Lemma i2str_digits (v : Z) :
  0 <= v <= 99999 ->
  fst (i2str v)
  = if v <? 10 then [digit_of v 1]
    else if v <? 100 then [digit_of v 10; digit_of v 1]
    else if v <? 1000 then [digit_of v 100; digit_of v 10; digit_of v 1]
    else if v <? 10000 then [digit_of v 1000; digit_of v 100; digit_of v 10; digit_of v 1]
    else [digit_of v 10000; digit_of v 1000; digit_of v 100; digit_of v 10; digit_of v 1].
Proof.
  intros Hv. unfold i2str.
  replace (v <? 0) with false by (symmetry; lia).
  rewrite i2str_loop_unfold.
  destruct (v <? 10) eqn:E1.
  { do 4 i2str_skip.
    destruct (v =? 0) eqn:E0.
    - assert (v = 0) by lia. subst v. reflexivity.
    - i2str_emit. cbn [app fst]. digits_eq. }
  destruct (v <? 100) eqn:E2.
  { do 3 i2str_skip. do 2 i2str_emit. cbn [app fst]. digits_eq. }
  destruct (v <? 1000) eqn:E3.
  { do 2 i2str_skip. do 3 i2str_emit. cbn [app fst]. digits_eq. }
  destruct (v <? 10000) eqn:E4.
  { do 1 i2str_skip. do 4 i2str_emit. cbn [app fst]. digits_eq. }
  do 5 i2str_emit. cbn [app fst]. digits_eq.
Qed.

Lemma i2str_negative_digits (v : Z) :
  -99999 <= v <= -1 ->
  fst (i2str v)
  = [45; digit_of (- v) 10000; digit_of (- v) 1000; digit_of (- v) 100;
     digit_of (- v) 10; digit_of (- v) 1].
Proof.
  intros Hv. unfold i2str.
  replace (v <? 0) with true by (symmetry; lia).
  rewrite (wrap32_id (- v)) by (unfold in_int32; lia).
  rewrite i2str_loop_unfold.
  do 5 i2str_emit. cbn [app fst]. digits_eq.
Qed.

Lemma i2str_returns_length (v : Z) :
  snd (i2str v) = wrap32 (Z.of_nat (length (fst (i2str v)))).
Proof.
  unfold i2str. destruct (i2str_loop 5 10000 _) as [[a b] c]. reflexivity.
Qed.

Lemma i2str_step_length (P : Z) (st : Z * Z * list Z) :
  (length (snd (i2str_step P st)) <= S (length (snd st)))%nat
  /\ (length (snd st) <= length (snd (i2str_step P st)))%nat.
Proof.
  destruct st as [[a b] c]. unfold i2str_step.
  destruct (a >=? P); [|destruct (nonzero b)]; cbn [snd]; rewrite ?length_app; cbn; lia.
Qed.

(** X1: for 0 <= v <= 99999 [i2str] writes the decimal digits of v without
    leading zeros and returns their number (below 4 exactly when v < 1000);
    the string reads back as v. *)
Theorem i2str_decimal_round_trip (v : Z) :
  0 <= v <= 99999 ->
  Forall (fun c => is_digit c = true) (fst (i2str v))
  /\ decimal_value (fst (i2str v)) = v
  /\ (0 < v -> hd 0 (fst (i2str v)) <> 48)
  /\ snd (i2str v)
     = (if v <? 10 then 1 else if v <? 100 then 2 else if v <? 1000 then 3
        else if v <? 10000 then 4 else 5)
  /\ snd (i2str v) = Z.of_nat (length (fst (i2str v))).
Proof.
  intros Hv. rewrite i2str_returns_length, (i2str_digits v Hv).
  unfold digit_of, decimal_value, is_digit.
  destruct (v <? 10) eqn:E1; [|destruct (v <? 100) eqn:E2;
    [|destruct (v <? 1000) eqn:E3; [|destruct (v <? 10000) eqn:E4]]];
  cbn [fold_left hd length];
  (split; [repeat constructor; apply andb_true_intro; split; apply Z.leb_le;
             Z.to_euclidean_division_equations; lia|]);
  (split; [Z.to_euclidean_division_equations; lia|]);
  (split; [intros Hpos; Z.to_euclidean_division_equations; lia|]);
  split; reflexivity.
Qed.

Lemma i2str_decimal_round_trip_witness :
  fst (i2str 1204) = [49; 50; 48; 52] /\ decimal_value (fst (i2str 1204)) = 1204
  /\ snd (i2str 1204) = 4.
Proof.
  destruct (i2str_decimal_round_trip 1204) as (_ & H2 & _ & H4 & _); [lia|].
  split; [reflexivity | split; [exact H2 | exact H4]].
Defined.

(** X2: a negative number from -99999 to -1 is written as '-' followed by
    all five digit positions of its magnitude, zeros included: the sign
    counts as a digit already shown (i2str(-5) is "-00005"), and the
    length returned is 6. *)
Theorem i2str_negative_is_zero_padded (v : Z) :
  -99999 <= v <= -1 ->
  i2str v
  = ([45; digit_of (- v) 10000; digit_of (- v) 1000; digit_of (- v) 100;
      digit_of (- v) 10; digit_of (- v) 1], 6)
  /\ decimal_value (tl (fst (i2str v))) = - v.
Proof.
  intros Hv. split.
  - rewrite (surjective_pairing (i2str v)), i2str_returns_length,
      (i2str_negative_digits v Hv). reflexivity.
  - rewrite (i2str_negative_digits v Hv). unfold decimal_value, digit_of.
    cbn [tl fold_left]. Z.to_euclidean_division_equations; lia.
Qed.

Lemma i2str_negative_is_zero_padded_witness :
  i2str (-5) = ([45; 48; 48; 48; 48; 53], 6).
Proof.
  destruct (i2str_negative_is_zero_padded (-5)) as [H _]; [lia|]. exact H.
Defined.

(** X3: whatever the argument, [i2str] writes between one and six
    characters before the terminator and returns their number, so the
    16- and 32-byte buffers of its callers are never overrun. *)
Theorem i2str_length_bound (v : Z) :
  (1 <= length (fst (i2str v)) <= 6)%nat
  /\ snd (i2str v) = Z.of_nat (length (fst (i2str v)))
  /\ 1 <= snd (i2str v) <= 6.
Proof.
  assert (H : (1 <= length (fst (i2str v)) <= 6)%nat).
  { unfold i2str. rewrite i2str_loop_unfold.
    set (st0 := if v <? 0 then _ else _).
    assert (H0 : (length (snd st0) <= 1)%nat).
    { unfold st0. destruct (v <? 0); cbn; lia. }
    pose proof (i2str_step_length 10000 st0) as L1.
    set (st1 := i2str_step 10000 st0) in *.
    pose proof (i2str_step_length 1000 st1) as L2.
    set (st2 := i2str_step 1000 st1) in *.
    pose proof (i2str_step_length 100 st2) as L3.
    set (st3 := i2str_step 100 st2) in *.
    pose proof (i2str_step_length 10 st3) as L4.
    set (st4 := i2str_step 10 st3) in *.
    pose proof (i2str_step_length 1 st4) as L5.
    set (st5 := i2str_step 1 st4) in *.
    destruct st5 as [[a b] c]. cbn [snd fst] in *.
    destruct c as [|c0 c]; cbn [length fst] in *; lia. }
  rewrite i2str_returns_length, wrap32_id by (unfold in_int32; lia).
  repeat split; lia.
Qed.

(** X4: the temperature text of [ShowCurrent] is the whole part, a point
    and one digit for readings from 0 to 999999 tenths; for -9 to -1
    tenths the fraction is written by [i2str] with its sign and zero
    padding, giving "0.-0000d". *)
Theorem ShowCurrent_temperature_text (t : Z) :
  (0 <= t <= 999999 ->
     ShowCurrent_temperature t = fst (i2str (t / 10)) ++ [46; 48 + t mod 10; 67; 32])
  /\ (-9 <= t <= -1 ->
     ShowCurrent_temperature t = [48; 46; 45; 48; 48; 48; 48; 48 - t; 67; 32]).
Proof.
  unfold ShowCurrent_temperature. split; intros Ht.
  - rewrite Z.quot_div_nonneg, Z.rem_mod_nonneg by lia.
    pose proof (Z.mod_pos_bound t 10 ltac:(lia)) as Hm.
    rewrite (i2str_digits (t mod 10)) by lia.
    replace (t mod 10 <? 10) with true by (symmetry; lia).
    unfold digit_of. rewrite Z.div_1_r, Z.mod_mod by lia. reflexivity.
  - assert (Hq : Z.quot t 10 = 0) by (Z.to_euclidean_division_equations; lia).
    assert (Hr : Z.rem t 10 = t) by (Z.to_euclidean_division_equations; lia).
    rewrite Hq, Hr, (i2str_negative_digits t) by lia.
    unfold digit_of. cbn [app].
    change (fst (i2str 0)) with [48]. cbn [app].
    repeat (f_equal; try (Z.to_euclidean_division_equations; lia)).
Qed.



Lemma ShowCurrent_temperature_text_witness :
  ShowCurrent_temperature 235 = [50; 51; 46; 53; 67; 32]
  /\ ShowCurrent_temperature (-5) = [48; 46; 45; 48; 48; 48; 48; 53; 67; 32].
Proof.
  destruct (ShowCurrent_temperature_text 235) as [H1 _].
  destruct (ShowCurrent_temperature_text (-5)) as [_ H2].
  split.
  - rewrite H1 by lia. reflexivity.
  - rewrite H2 by lia. reflexivity.
Defined.

(** ** CO2 bands *)

(** X5: the emoji index is always 0 to 4, and for every CO2 value whose
    difference to 500 fits an int it is 0 below 1000, then 1, 2, 3 in
    steps of 500 and 4 from 2500 on. *)
Theorem emoji_index_bands (co2 : Z) :
  0 <= emoji_index co2 <= 4
  /\ (-2147483148 <= co2 < 2147483648 ->
      emoji_index co2
      = if co2 <? 1000 then 0 else if co2 <? 1500 then 1 else if co2 <? 2000 then 2
        else if co2 <? 2500 then 3 else 4).
Proof.
  unfold emoji_index. split.
  - destruct (_ <? 0) eqn:E1; [lia|]. destruct (_ >? 4) eqn:E2; lia.
  - intros H. rewrite wrap32_id by (unfold in_int32; lia).
    destruct (Z.quot (co2 - 500) 500 <? 0) eqn:E1;
      [|destruct (Z.quot (co2 - 500) 500 >? 4) eqn:E2];
      repeat match goal with |- context [?a <? ?b] => destruct (a <? b) eqn:? end;
      Z.to_euclidean_division_equations; lia.
Qed.

Lemma emoji_index_bands_witness :
  emoji_index 999 = 0 /\ emoji_index 1000 = 1 /\ emoji_index 3000 = 4.
Proof.
  split; [|split].
  - rewrite (proj2 (emoji_index_bands 999)) by lia. reflexivity.
  - rewrite (proj2 (emoji_index_bands 1000)) by lia. reflexivity.
  - rewrite (proj2 (emoji_index_bands 3000)) by lia. reflexivity.
Defined.

(** X6: the Stealth level is 1 below 500 ppm (negative values included),
    rises by one every 500 ppm and is 6 from 2500 ppm on. *)
Theorem stealth_level_bands (co2 : Z) :
  in_int32 co2 ->
  stealth_level co2
  = if co2 <? 500 then 1 else if co2 <? 1000 then 2 else if co2 <? 1500 then 3
    else if co2 <? 2000 then 4 else if co2 <? 2500 then 5 else 6.
Proof.
  intros H. unfold stealth_level, in_int32 in *.
  rewrite wrap32_id by (unfold in_int32; Z.to_euclidean_division_equations; lia).
  destruct (1 + Z.quot co2 500 <? 1) eqn:E1;
    [|destruct (1 + Z.quot co2 500 >? 6) eqn:E2];
    repeat match goal with |- context [?a <? ?b] => destruct (a <? b) eqn:? end;
    Z.to_euclidean_division_equations; lia.
Qed.

Lemma stealth_level_bands_witness :
  stealth_level (-40) = 1 /\ stealth_level 499 = 1 /\ stealth_level 500 = 2
  /\ stealth_level 2500 = 6 /\ stealth_level 40000 = 6.
Proof.
  split; [|split; [|split; [|split]]].
  - rewrite (stealth_level_bands (-40)) by (unfold in_int32; lia). reflexivity.
  - rewrite (stealth_level_bands 499) by (unfold in_int32; lia). reflexivity.
  - rewrite (stealth_level_bands 500) by (unfold in_int32; lia). reflexivity.
  - rewrite (stealth_level_bands 2500) by (unfold in_int32; lia). reflexivity.
  - rewrite (stealth_level_bands 40000) by (unfold in_int32; lia). reflexivity.
Defined.

(** ** Save and load *)

Lemma to_int32_to_uint32 (x : Z) : in_int32 x -> to_int32 (to_uint32 x) = x.
Proof.
  unfold in_int32, to_int32, to_uint32, wrap32. intros H.
  Z.to_euclidean_division_equations. lia.
Qed.

Lemma persisted_WriteFlash (w : World) :
  state_in_int32 (state w) -> persisted (flash (WriteFlash w)) = state w.
Proof.
  intros (H1 & H2 & H3 & H4). destruct w as [e [m a f p] fl i c nb ns nr tr].
  cbn in *. unfold persisted. cbn.
  rewrite !to_int32_to_uint32 by assumption. reflexivity.
Qed.

Lemma ReadFlash_valid (w : World) :
  5 <= iPeriod (persisted (flash w)) <= 60 ->
  ReadFlash w = set_state (persisted (flash w)) w.
Proof.
  intros H. unfold ReadFlash.
  change (iPeriod (state (set_state (persisted (flash w)) w)))
    with (iPeriod (persisted (flash w))).
  replace (iPeriod (persisted (flash w)) <? 5) with false by (symmetry; lia).
  replace (iPeriod (persisted (flash w)) >? 60) with false by (symmetry; lia).
  reflexivity.
Qed.

Lemma ReadFlash_invalid (w : World) :
  ~ 5 <= iPeriod (persisted (flash w)) <= 60 ->
  ReadFlash w = WriteFlash (set_state default_state w).
Proof.
  intros H. unfold ReadFlash.
  change (iPeriod (state (set_state (persisted (flash w)) w)))
    with (iPeriod (persisted (flash w))).
  replace ((iPeriod (persisted (flash w)) <? 5) || (iPeriod (persisted (flash w)) >? 60))
    with true by (symmetry; apply orb_true_iff; lia).
  reflexivity.
Qed.

(** X7: whatever the FLASH holds, after [ReadFlash] the period is in
    [5,60], the four fields are ints, the page reads back as the settings
    in memory, and loading again changes nothing. *)
Theorem ReadFlash_postcondition (w : World) :
  5 <= iPeriod (state (ReadFlash w)) <= 60
  /\ state_in_int32 (state (ReadFlash w))
  /\ persisted (flash (ReadFlash w)) = state (ReadFlash w)
  /\ ReadFlash (ReadFlash w) = ReadFlash w.
Proof.
  destruct (Z_le_dec 5 (iPeriod (persisted (flash w)))) as [Hlo|Hlo];
    [destruct (Z_le_dec (iPeriod (persisted (flash w))) 60) as [Hhi|Hhi]|].
  - rewrite (ReadFlash_valid w) by lia.
    split; [cbn [state set_state]; lia|]. split.
    + unfold state_in_int32, persisted, to_int32. cbn.
      repeat split; apply wrap32_range.
    + split; [reflexivity|].
      rewrite ReadFlash_valid; [reflexivity | cbn [flash set_state]; lia].
  - rewrite (ReadFlash_invalid w) by lia.
    change (state (WriteFlash (set_state default_state w))) with default_state.
    unfold state_in_int32, in_int32, default_state, MODE_CONTINUOUS, ALERT_VIBRATION.
    cbn [iMode iAlert iFreq iPeriod].
    split; [lia|]. split; [lia|]. split; reflexivity.
  - rewrite (ReadFlash_invalid w) by lia.
    change (state (WriteFlash (set_state default_state w))) with default_state.
    unfold state_in_int32, in_int32, default_state, MODE_CONTINUOUS, ALERT_VIBRATION.
    cbn [iMode iAlert iFreq iPeriod].
    split; [lia|]. split; [lia|]. split; reflexivity.
Qed.

(** X8: settings saved with a period in [5,60] are what the next
    [ReadFlash] loads, with no further write; settings saved with another
    period are replaced by the defaults at the next load, which writes
    the page a second time. *)
Theorem WriteFlash_ReadFlash_round_trip (w : World) :
  state_in_int32 (state w) ->
  (5 <= iPeriod (state w) <= 60 -> ReadFlash (WriteFlash w) = WriteFlash w)
  /\ (~ 5 <= iPeriod (state w) <= 60 ->
      state (ReadFlash (WriteFlash w)) = default_state
      /\ flash_writes (trace (ReadFlash (WriteFlash w))) = S (S (flash_writes (trace w)))).
Proof.
  intros Hin. pose proof (persisted_WriteFlash w Hin) as HP.
  unfold ReadFlash. rewrite HP.
  change (iPeriod (state (set_state (state w) (WriteFlash w)))) with (iPeriod (state w)).
  split; intros Hp.
  - replace (iPeriod (state w) <? 5) with false by (symmetry; lia).
    replace (iPeriod (state w) >? 60) with false by (symmetry; lia).
    destruct w; reflexivity.
  - replace ((iPeriod (state w) <? 5) || (iPeriod (state w) >? 60)) with true.
    + split; reflexivity.
    + symmetry. apply orb_true_iff. lia.
Qed.

Lemma WriteFlash_ReadFlash_round_trip_witness :
  state (ReadFlash (WriteFlash (boot (env_of [] 0 0) (mkSTATE 2 1 45 20)))) = mkSTATE 2 1 45 20
  /\ state (ReadFlash (WriteFlash (boot (env_of [] 0 0) (mkSTATE 2 1 45 61)))) = default_state.
Proof.
  split.
  - destruct (WriteFlash_ReadFlash_round_trip (boot (env_of [] 0 0) (mkSTATE 2 1 45 20)))
      as [H _].
    + unfold state_in_int32, in_int32. simpl. lia.
    + rewrite H; [reflexivity | simpl; lia].
  - destruct (WriteFlash_ReadFlash_round_trip (boot (env_of [] 0 0) (mkSTATE 2 1 45 61)))
      as [_ H].
    + unfold state_in_int32, in_int32. simpl. lia.
    + apply H. simpl. lia.
Defined.



Lemma well_formed_in_int32 (s : STATE) : well_formed s -> state_in_int32 s.
Proof.
  unfold well_formed, state_in_int32, in_int32, MODE_COUNT, ALERT_COUNT. lia.
Qed.

Lemma menu_action_well_formed (item : Z) (s : STATE) :
  well_formed s -> well_formed (fst (menu_action item s)).
Proof.
  unfold menu_action, well_formed, MODE_COUNT, ALERT_COUNT. intros H.
  destruct (item =? MENU_START); [exact H|].
  destruct (item =? MENU_MODE).
  { cbn [fst iMode iAlert iFreq iPeriod]. rewrite wrap32_id by (unfold in_int32; lia).
    destruct (iMode s + 1 >=? 5) eqn:E; lia. }
  destruct (item =? MENU_FREQ).
  { cbn [fst iMode iAlert iFreq iPeriod]. rewrite wrap32_id by (unfold in_int32; lia).
    destruct (iFreq s + 15 >? 60) eqn:E; lia. }
  destruct (item =? MENU_ALERT).
  { cbn [fst iMode iAlert iFreq iPeriod]. rewrite wrap32_id by (unfold in_int32; lia).
    destruct (iAlert s + 1 >=? 3) eqn:E; lia. }
  destruct (item =? MENU_TIME); [|exact H].
  cbn [fst iMode iAlert iFreq iPeriod]. rewrite wrap32_id by (unfold in_int32; lia).
  destruct (iPeriod s + 5 >? 60) eqn:E; lia.
Qed.

Lemma menu_loop_well_formed (fuel : nat) : forall sel w,
  well_formed (state w) -> well_formed (state (world_of (menu_loop fuel sel w))).
Proof.
  induction fuel as [|f IH]; intros sel w H; [exact H|].
  cbn [menu_loop]. unfold draw_menu.
  set (w0 := emit _ w).
  destruct (wait_while_fields nonzero f w0) as (S1 & _).
  change (state w0) with (state w) in S1.
  destruct (wait_while nonzero f w0) as [j1 w1|w1]; cbn [bindO world_of] in *;
    [|rewrite S1; exact H].
  destruct (wait_while_fields (fun j => j =? 0) f w1) as (S2 & _).
  destruct (wait_while (fun j => j =? 0) f w1) as [j2 w2|w2]; cbn [bindO world_of] in *;
    [|rewrite S2, S1; exact H].
  destruct (GetButtons_fields w2) as (S3 & _).
  destruct (GetButtons w2) as [y w3]; cbn [snd] in *.
  assert (H3 : well_formed (state w3)) by (rewrite S3, S2, S1; exact H).
  destruct (nonzero (Z.land y 1)); [apply IH; exact H3|].
  destruct (nonzero (Z.land y 2)); [|apply IH; exact H3].
  pose proof (menu_action_well_formed sel (state w3) H3) as HA.
  destruct (menu_action sel (state w3)) as [s bDone]; cbn [fst] in HA.
  destruct bDone; [exact HA | apply IH; exact HA].
Qed.

Lemma ReadFlash_after_WriteFlash (w : World) :
  state_in_int32 (state w) -> 5 <= iPeriod (state w) <= 60 ->
  ReadFlash (WriteFlash w) = WriteFlash w.
Proof.
  intros Hin Hp. rewrite ReadFlash_valid.
  - rewrite (persisted_WriteFlash w Hin). destruct w; reflexivity.
  - rewrite (persisted_WriteFlash w Hin). exact Hp.
Qed.

(** X9: the menu keeps well-formed settings well-formed (mode 0..4, alert
    0..2, update 15..60, period 5..60), and whenever it has written the
    FLASH the page reads back as the settings in memory, so the next
    [ReadFlash] accepts them unchanged. *)
Theorem RunMenu_keeps_settings_loadable (fuel : nat) (w : World) :
  well_formed (state w) ->
  well_formed (state (world_of (RunMenu fuel w)))
  /\ (flash_writes (trace (world_of (RunMenu fuel w))) <> flash_writes (trace w) ->
      persisted (flash (world_of (RunMenu fuel w))) = state (world_of (RunMenu fuel w))
      /\ ReadFlash (world_of (RunMenu fuel w)) = world_of (RunMenu fuel w)).
Proof.
  intros H. unfold RunMenu. cbv zeta.
  set (w0 := oledWriteString 4 0 "Pocket CO2" FONT_12x16 _).
  pose proof (menu_loop_well_formed fuel 0 w0 H) as HL.
  destruct (menu_loop_frame fuel 0 w0) as (_ & Q).
  change (filter is_flash_write (trace w0)) with (filter is_flash_write (trace w)) in Q.
  destruct (menu_loop fuel 0 w0) as [[] w1|w1]; cbn [bindO world_of] in *.
  - destruct (negb (iMode (state w1) =? MODE_CALIBRATE) && negb (STATE_eqb (state w1) (state w)));
      cbn [world_of].
    + split; [exact HL|]. intros _.
      pose proof (well_formed_in_int32 _ HL) as Hin.
      split.
      * apply (persisted_WriteFlash w1 Hin).
      * apply ReadFlash_after_WriteFlash; [exact Hin | apply HL].
    + split; [exact HL|]. intros Hw. exfalso. apply Hw.
      unfold flash_writes. rewrite Q. reflexivity.
  - split; [exact HL|]. intros Hw. exfalso. apply Hw.
    unfold flash_writes. rewrite Q. reflexivity.
Qed.

Lemma RunMenu_keeps_settings_loadable_witness :
  state (ReadFlash (world_of (RunMenu 30 menu_world_mode))) = mkSTATE 1 0 30 5.
Proof.
  destruct (RunMenu_keeps_settings_loadable 30 menu_world_mode) as [_ H].
  - unfold well_formed, MODE_COUNT, ALERT_COUNT. simpl. lia.
  - destruct H as [_ H].
    + vm_compute. discriminate.
    + rewrite H. vm_compute. reflexivity.
Defined.

(** ** Buttons in the menu *)

Lemma button_mask_cases (l : Z * Z) :
  button_mask l = 0 \/ button_mask l = 1 \/ button_mask l = 2 \/ button_mask l = 3.
Proof.
  unfold button_mask. destruct (fst l =? 0), (snd l =? 0); cbn; auto.
Qed.

Lemma menu_loop_idle (fuel : nat) : forall sel w,
  (forall n, (nbtn w <= n)%nat -> mask_abs w n <> 2) ->
  exists w', menu_loop fuel sel w = Timeout w' /\ state w' = state w.
Proof.
  induction fuel as [|f IH]; intros sel w H.
  - exists w. split; reflexivity.
  - cbn [menu_loop]. unfold draw_menu.
    set (w0 := emit _ w).
    destruct (wait_while_fields nonzero f w0) as (S1 & _ & E1 & _).
    destruct (wait_while_polls nonzero f w0) as (_ & N1 & _).
    change (state w0) with (state w) in S1. change (env w0) with (env w) in E1.
    change (nbtn w0) with (nbtn w) in N1.
    destruct (wait_while nonzero f w0) as [j1 w1|w1]; cbn [bindO world_of] in *;
      [|exists w1; auto].
    destruct (wait_while_fields (fun j => j =? 0) f w1) as (S2 & _ & E2 & _).
    destruct (wait_while_polls (fun j => j =? 0) f w1) as (_ & N2 & _).
    destruct (wait_while (fun j => j =? 0) f w1) as [j2 w2|w2]; cbn [bindO world_of] in *;
      [|exists w2; split; [reflexivity | congruence]].
    pose proof (eq_refl : fst (GetButtons w2) = button_mask (button_levels (env w2) (nbtn w2)))
      as Hy.
    pose proof (eq_refl : nbtn (snd (GetButtons w2)) = S (nbtn w2)) as N3.
    destruct (GetButtons_fields w2) as (S3 & _ & E3 & _).
    destruct (GetButtons w2) as [y w3]; cbn [fst snd] in *.
    assert (H3 : forall n, (nbtn w3 <= n)%nat -> mask_abs w3 n <> 2).
    { intros n Hn. unfold mask_abs. rewrite E3, E2, E1. apply H. lia. }
    assert (Hy2 : y <> 2).
    { rewrite Hy, E2, E1. apply (H (nbtn w2)). lia. }
    assert (Hc : y = 0 \/ y = 1 \/ y = 3).
    { rewrite Hy in *. destruct (button_mask_cases (button_levels (env w2) (nbtn w2)))
        as [?|[?|[?|?]]]; auto. contradiction. }
    destruct Hc as [->|[->| ->]]; cbn.
    + destruct (IH sel w3 H3) as (w' & R & S'). exists w'. split; [exact R | congruence].
    + destruct (IH (if wrap32 (sel + 1) =? MENU_COUNT then 0 else wrap32 (sel + 1)) w3 H3)
        as (w' & R & S'). exists w'. split; [exact R | congruence].
    + destruct (IH (if wrap32 (sel + 1) =? MENU_COUNT then 0 else wrap32 (sel + 1)) w3 H3)
        as (w' & R & S'). exists w'. split; [exact R | congruence].
Qed.

(** X10: as long as no poll reads button 1 alone (mask 2), [RunMenu]
    neither returns nor changes the settings or the FLASH: button 0, also
    together with button 1, only moves the cursor. *)
Theorem RunMenu_needs_button1_alone (fuel : nat) (w : World) :
  (forall n, (nbtn w <= n)%nat -> mask_abs w n <> 2) ->
  exists w', RunMenu fuel w = Timeout w'
             /\ state w' = state w
             /\ flash w' = flash w
             /\ flash_writes (trace w') = flash_writes (trace w).
Proof.
  intros H. unfold RunMenu. cbv zeta.
  set (w0 := oledWriteString 4 0 "Pocket CO2" FONT_12x16 _).
  destruct (menu_loop_idle fuel 0 w0 H) as (w' & R & S').
  destruct (menu_loop_frame fuel 0 w0) as (F & Q).
  rewrite R in *. cbn [bindO world_of] in *.
  exists w'. repeat split; try assumption.
  unfold flash_writes. rewrite Q. reflexivity.
Qed.

Lemma RunMenu_needs_button1_alone_witness :
  exists w', RunMenu 40 (boot (env_of [0; 1; 1; 0; 3; 3; 0; 3; 3; 1] 0 0) (mkSTATE 0 0 30 5))
             = Timeout w'
             /\ state w' = mkSTATE 0 0 30 5.
Proof.
  destruct (RunMenu_needs_button1_alone 40
              (boot (env_of [0; 1; 1; 0; 3; 3; 0; 3; 3; 1] 0 0) (mkSTATE 0 0 30 5)))
    as (w' & R & S' & _).
  - intros n _. unfold mask_abs. simpl.
    do 10 (destruct n as [|n]; [simpl; discriminate|]). destruct n; simpl; discriminate.
  - exists w'. split; assumption.
Defined.

(** ** Power-up *)

Lemma ReadFlash_no_output (w : World) :
  pulses (trace (ReadFlash w)) = pulses (trace w)
  /\ led_blinks (trace (ReadFlash w)) = led_blinks (trace w).
Proof.
  unfold ReadFlash. destruct (_ || _); split; reflexivity.
Qed.

(** X11: before the first menu, [main] overwrites the alert style loaded
    from FLASH with [ALERT_LED] and leaves the other fields and the page
    as [ReadFlash] left them; its start-up alert is the LED pattern, four
    times green then red, with no vibration. *)
Theorem main_boot_forces_led_alert (w : World) :
  state (main_boot w)
  = mkSTATE (iMode (state (ReadFlash w))) ALERT_LED
            (iFreq (state (ReadFlash w))) (iPeriod (state (ReadFlash w)))
  /\ flash (main_boot w) = flash (ReadFlash w)
  /\ pulses (trace (main_boot w)) = pulses (trace w)
  /\ led_blinks (trace (main_boot w))
     = [LED_RED; LED_GREEN; LED_RED; LED_GREEN; LED_RED; LED_GREEN; LED_RED; LED_GREEN]
       ++ led_blinks (trace w)
  /\ forall sessions fuel, main sessions fuel w = main_loop sessions fuel 0 (main_boot w).
Proof.
  destruct (ReadFlash_no_output w) as (P & L).
  unfold main_boot. cbv zeta.
  set (w1 := ReadFlash w) in *.
  repeat split.
  - cbn. exact P.
  - cbn. rewrite L. reflexivity.
Qed.



(** ** The settings during a run-mode *)

Lemma wait_while_view (c : Z -> bool) (fuel : nat) (w : World) :
  persistent_view (world_of (wait_while c fuel w)) = persistent_view w.
Proof.
  unfold persistent_view, flash_writes.
  destruct (wait_while_fields c fuel w) as (S1 & F1 & _).
  rewrite S1, F1, (wait_while_quiet is_flash_write) by reflexivity. reflexivity.
Qed.

Lemma timer_tick_view (i t : Z) (w : World) :
  persistent_view (snd (timer_tick i t w)) = persistent_view w.
Proof.
  unfold timer_tick, GetButtons, persistent_view. cbn. break_all; reflexivity.
Qed.

Lemma timer_loop_view (n : nat) : forall t w,
  persistent_view (fst (timer_loop n t w)) = persistent_view w.
Proof.
  induction n as [|n IH]; intros t w; [reflexivity|].
  cbn [timer_loop].
  pose proof (timer_tick_view (Z.of_nat n) t w) as H.
  destruct (timer_tick (Z.of_nat n) t w) as [[t'|] w1]; cbn [fst snd] in *.
  - rewrite IH. exact H.
  - exact H.
Qed.

Lemma ShowAlert_view (w : World) :
  persistent_view (ShowAlert w) = persistent_view w.
Proof.
  unfold ShowAlert, persistent_view. cbn. break_all; reflexivity.
Qed.

Lemma RunTimer_view (w : World) : persistent_view (RunTimer w) = persistent_view w.
Proof.
  unfold RunTimer. cbv zeta.
  set (w0 := oledWriteString 0 0 "Timer Mode" FONT_12x16 (oledFill 0 w)).
  pose proof (timer_loop_view (Z.to_nat (wrap32 (iPeriod (state w0) * 60) + 1)) 5 w0) as H.
  destruct (timer_loop _ 5 w0) as [w1 [|]]; cbn [fst] in H.
  - rewrite ShowAlert_view. exact H.
  - exact H.
Qed.

Lemma lowpower_iter_view (v : LowPowerVars) (w : World) :
  persistent_view (snd (lowpower_iter v w)) = persistent_view w.
Proof.
  unfold lowpower_iter, GetButtons, co2_led_cue, persistent_view. cbn.
  break_all; reflexivity.
Qed.

Lemma lowpower_loop_view (fuel : nat) : forall v w,
  persistent_view (world_of (lowpower_loop fuel v w)) = persistent_view w.
Proof.
  induction fuel as [|f IH]; intros v w; [reflexivity|].
  cbn [lowpower_loop].
  pose proof (lowpower_iter_view v w) as H.
  destruct (lowpower_iter v w) as [[v'|] w1]; cbn [fst snd] in H.
  - rewrite IH. exact H.
  - exact H.
Qed.

Lemma buzz_view (n : nat) : forall t w,
  persistent_view (snd (buzz n t w)) = persistent_view w.
Proof.
  induction n as [|n IH]; intros t w; [reflexivity|].
  cbn [buzz]. rewrite IH. reflexivity.
Qed.

Lemma stealth_body_view (u t l : Z) (w : World) :
  persistent_view (snd (stealth_body u t l w)) = persistent_view w.
Proof.
  unfold stealth_body.
  destruct (Z.rem t 20 =? 19); destruct (Z.rem t u =? wrap32 (u - 1)).
  - destruct (buzz _ t _) as [t' w'] eqn:E. cbn [snd].
    change w' with (snd (t', w')). rewrite <- E, buzz_view. reflexivity.
  - reflexivity.
  - destruct (buzz _ t _) as [t' w'] eqn:E. cbn [snd].
    change w' with (snd (t', w')). rewrite <- E, buzz_view. reflexivity.
  - reflexivity.
Qed.

Lemma GetButtons_view (w : World) :
  persistent_view (snd (GetButtons w)) = persistent_view w.
Proof. reflexivity. Qed.

Lemma stealth_loop_view (fuel : nat) : forall u t l w,
  persistent_view (world_of (stealth_loop fuel u t l w)) = persistent_view w.
Proof.
  induction fuel as [|f IH]; intros u t l w; [reflexivity|].
  cbn [stealth_loop].
  pose proof (GetButtons_view w) as HG.
  destruct (GetButtons w) as [j w1]; cbn [snd] in HG.
  destruct (j =? 3).
  - cbn [world_of]. rewrite <- HG. reflexivity.
  - pose proof (stealth_body_view u t l w1) as HB.
    destruct (stealth_body u t l w1) as [[t' l'] w2]; cbn [snd] in HB.
    rewrite IH, HB. exact HG.
Qed.

Lemma calib_countdown_persistent (n : nat) : forall w,
  persistent_view (fst (calib_countdown n w)) = persistent_view w.
Proof.
  induction n as [|n IH]; intros w; [reflexivity|].
  cbn [calib_countdown].
  set (w0 := ShowTime (Z.of_nat n) w).
  pose proof (GetButtons_view w0) as HG.
  change (persistent_view w0) with (persistent_view w) in HG.
  destruct (GetButtons w0) as [j w1]; cbn [snd] in HG.
  destruct (j =? 3); cbn [fst].
  - rewrite <- HG. reflexivity.
  - rewrite IH. rewrite <- HG. reflexivity.
Qed.

Lemma cont_poll_view (n : nat) : forall i b w,
  persistent_view (snd (cont_poll n i b w)) = persistent_view w.
Proof.
  induction n as [|n IH]; intros i b w.
  - cbn. destruct (i <? 61); reflexivity.
  - cbn [cont_poll]. destruct (i <? 61); [|reflexivity].
    set (w0 := Standby82ms 3 w).
    pose proof (GetButtons_view w0) as HG.
    change (persistent_view w0) with (persistent_view w) in HG.
    destruct (GetButtons w0) as [j w1]; cbn [snd] in HG.
    destruct (j =? 3).
    + cbn [snd]. rewrite <- HG. reflexivity.
    + rewrite IH. exact HG.
Qed.

Lemma cont_loop_view (fuel : nat) : forall b w,
  persistent_view (world_of (cont_loop fuel b w)) = persistent_view w.
Proof.
  induction fuel as [|f IH]; intros b w; [reflexivity|].
  cbn [cont_loop].
  set (w0 := ShowCurrent _).
  assert (H0 : persistent_view w0 = persistent_view w).
  { unfold w0, ShowCurrent, persistent_view. cbn. destruct (display_off_guard _); reflexivity. }
  pose proof (cont_poll_view 61 0 b w0) as HP.
  destruct (cont_poll 61 0 b w0) as [[[|] b'] w1]; cbn [fst snd world_of] in *.
  - rewrite HP. exact H0.
  - rewrite IH, HP. exact H0.
Qed.

Lemma world_of_bind_const {A B} (m : Outcome A) (b : B) :
  world_of (bindO m (fun _ w => Returned b w)) = world_of m.
Proof. destruct m; reflexivity. Qed.

Lemma RunStealth_view (fuel : nat) (w : World) :
  persistent_view (world_of (RunStealth fuel w)) = persistent_view w.
Proof.
  unfold RunStealth. cbv zeta.
  set (w0 := oledWriteString 0 56 _ _ _).
  pose proof (wait_while_view nonzero fuel w0) as Q1.
  change (persistent_view w0) with (persistent_view w) in Q1.
  destruct (wait_while nonzero fuel w0) as [j1 w1|w1]; cbn [bindO world_of] in *;
    [|exact Q1].
  pose proof (wait_while_view (fun j => j =? 0) fuel w1) as Q2.
  destruct (wait_while (fun j => j =? 0) fuel w1) as [j2 w2|w2]; cbn [bindO world_of] in *;
    [|congruence].
  rewrite stealth_loop_view.
  change (persistent_view w2 = persistent_view w). congruence.
Qed.

Lemma RunCalibrate_view (fuel : nat) (w : World) :
  persistent_view (world_of (RunCalibrate fuel w)) = persistent_view w.
Proof.
  unfold RunCalibrate. cbv zeta.
  set (w0 := oledWriteString 0 56 _ _ _).
  pose proof (wait_while_view nonzero fuel w0) as Q1.
  change (persistent_view w0) with (persistent_view w) in Q1.
  destruct (wait_while nonzero fuel w0) as [j1 w1|w1]; cbn [bindO world_of] in *;
    [|exact Q1].
  pose proof (wait_while_view (fun j => j =? 0) fuel w1) as Q2.
  destruct (wait_while (fun j => j =? 0) fuel w1) as [j2 w2|w2]; cbn [bindO world_of] in *;
    [|congruence].
  destruct (j2 =? 3); [cbn [world_of]; congruence|].
  set (w3 := scd41_start SCD_POWERMODE_NORMAL _).
  assert (H3 : persistent_view w3 = persistent_view w).
  { change (persistent_view w2 = persistent_view w). congruence. }
  pose proof (calib_countdown_persistent (Z.to_nat (210 + 1)) w3) as HC.
  destruct (calib_countdown (Z.to_nat (210 + 1)) w3) as [w4 [|]]; cbn [fst snd] in HC.
  - unfold scd41_recalibrate. cbv beta iota zeta.
    rewrite world_of_bind_ret, wait_while_view.
    destruct (recal_code (env _) (nrecal _) =? SCD_SUCCESS);
      change (persistent_view w4 = persistent_view w); congruence.
  - cbn [world_of]. congruence.
Qed.

(** X12: whichever run-mode main dispatches to, and whether the session
    has returned or is still running, the settings, the FLASH page and the
    number of [WriteFlash] calls are those at its start. *)
Theorem run_mode_keeps_configuration (fuel : nat) (b : Z) (w : World) :
  state (world_of (run_mode fuel b w)) = state w
  /\ flash (world_of (run_mode fuel b w)) = flash w
  /\ flash_writes (trace (world_of (run_mode fuel b w))) = flash_writes (trace w).
Proof.
  assert (H : persistent_view (world_of (run_mode fuel b w)) = persistent_view w).
  { unfold run_mode. destruct (dispatch (state w)).
    - apply RunTimer_view.
    - rewrite world_of_bind_const. apply RunCalibrate_view.
    - rewrite world_of_bind_const. unfold RunLowPower. cbv zeta.
      rewrite lowpower_loop_view. reflexivity.
    - rewrite world_of_bind_const. apply RunStealth_view.
    - unfold RunContinuous. cbv zeta. rewrite cont_loop_view. reflexivity. }
  unfold persistent_view in H. inversion H. auto.
Qed.



(** ** The display during the countdown *)

Lemma timer_tick_idle (i t : Z) (w : World) :
  mask_at w 0 = 0 ->
  fst (timer_tick i t w) = Some (if i =? 10 then 10 else if t =? 0 then 0 else t - 1)
  /\ power_events (trace (snd (timer_tick i t w)))
     = (if i =? 10 then (if t =? 0 then [1] else [])
        else if t =? 1 then [0] else []) ++ power_events (trace w)
  /\ env (snd (timer_tick i t w)) = env w
  /\ nbtn (snd (timer_tick i t w)) = S (nbtn w).
Proof.
  unfold timer_tick, GetButtons, mask_at, nonzero. cbn. rewrite Nat.add_0_r.
  intros ->. cbn.
  destruct (i =? 10) eqn:Ei.
  - destruct (t =? 0) eqn:Et; cbn; repeat split.
  - destruct (t =? 0) eqn:Et; cbn.
    + assert (Etmp : (t =? 1) = false) by (apply Z.eqb_neq; lia); rewrite Etmp ; clear Etmp. repeat split. f_equal. lia.
    + destruct (t - 1 =? 0) eqn:E1.
      * assert (Etmp : (t =? 1) = true) by (apply Z.eqb_eq; lia); rewrite Etmp ; clear Etmp. repeat split.
      * assert (Etmp : (t =? 1) = false) by (apply Z.eqb_neq; lia); rewrite Etmp ; clear Etmp. repeat split.
Qed.


Lemma idle_next (w w1 : World) (n : nat) :
  idle w (S n) -> env w1 = env w -> nbtn w1 = S (nbtn w) -> idle w1 n.
Proof.
  intros H He Hn k Hk. rewrite (mask_at_shift w w1 k He Hn). apply H. lia.
Qed.

Lemma timer_loop_last_seconds (n : nat) : forall w,
  (1 <= n <= 10)%nat -> idle w n ->
  snd (timer_loop n (Z.of_nat n) w) = true
  /\ power_events (trace (fst (timer_loop n (Z.of_nat n) w))) = 0 :: power_events (trace w).
Proof.
  induction n as [|n IH]; intros w Hn Hidle; [lia|].
  cbn [timer_loop].
  destruct (timer_tick_idle (Z.of_nat n) (Z.of_nat (S n)) w) as (T1 & T2 & T3 & T4).
  { apply Hidle. lia. }
  destruct (timer_tick (Z.of_nat n) (Z.of_nat (S n)) w) as [o w1]; cbn [fst snd] in *.
  subst o.
  assert (Etmp : (Z.of_nat n =? 10) = false) by (apply Z.eqb_neq; lia); rewrite Etmp in *; clear Etmp.
  assert (Etmp : (Z.of_nat (S n) =? 0) = false) by (apply Z.eqb_neq; lia); rewrite Etmp in *; clear Etmp.
  replace (Z.of_nat (S n) - 1) with (Z.of_nat n) by lia.
  destruct n as [|n].
  - cbn in *. split; [reflexivity | exact T2].
  - assert (Etmp : (Z.of_nat (S (S n)) =? 1) = false) by (apply Z.eqb_neq; lia); rewrite Etmp in T2; clear Etmp.
    destruct (IH w1) as (I1 & I2); [lia | apply (idle_next w w1 _ Hidle T3 T4) |].
    rewrite I1, I2, T2. split; reflexivity.
Qed.

Lemma timer_loop_dark (n : nat) : forall w,
  (11 <= n)%nat -> idle w n ->
  snd (timer_loop n 0 w) = true
  /\ power_events (trace (fst (timer_loop n 0 w))) = 0 :: 1 :: power_events (trace w).
Proof.
  induction n as [|n IH]; intros w Hn Hidle; [lia|].
  cbn [timer_loop].
  destruct (timer_tick_idle (Z.of_nat n) 0 w) as (T1 & T2 & T3 & T4).
  { apply Hidle. lia. }
  destruct (timer_tick (Z.of_nat n) 0 w) as [o w1]; cbn [fst snd] in *.
  subst o. pose proof (idle_next w w1 _ Hidle T3 T4) as Hidle1.
  destruct (Nat.eq_dec n 10) as [->|Hne].
  - change (Z.of_nat 10 =? 10) with true in *. cbn [Z.eqb] in T2.
    destruct (timer_loop_last_seconds 10 w1) as (I1 & I2); [lia | exact Hidle1 |].
    change (Z.of_nat 10) with 10 in *.
    rewrite I1, I2, T2. split; reflexivity.
  - assert (Etmp : (Z.of_nat n =? 10) = false) by (apply Z.eqb_neq; lia); rewrite Etmp in *; clear Etmp.
    cbn in T2. destruct (IH w1) as (I1 & I2); [lia | exact Hidle1 |].
    cbn [Z.eqb]. rewrite I1, I2, T2. split; reflexivity.
Qed.

Lemma timer_loop_first_seconds (t : nat) : forall n w,
  (1 <= t)%nat -> (11 + t <= n)%nat -> idle w n ->
  snd (timer_loop n (Z.of_nat t) w) = true
  /\ power_events (trace (fst (timer_loop n (Z.of_nat t) w)))
     = 0 :: 1 :: 0 :: power_events (trace w).
Proof.
  induction t as [|t IH]; intros n w Ht Hn Hidle; [lia|].
  destruct n as [|n]; [lia|].
  cbn [timer_loop].
  destruct (timer_tick_idle (Z.of_nat n) (Z.of_nat (S t)) w) as (T1 & T2 & T3 & T4).
  { apply Hidle. lia. }
  destruct (timer_tick (Z.of_nat n) (Z.of_nat (S t)) w) as [o w1]; cbn [fst snd] in *.
  subst o. pose proof (idle_next w w1 _ Hidle T3 T4) as Hidle1.
  assert (Etmp : (Z.of_nat n =? 10) = false) by (apply Z.eqb_neq; lia); rewrite Etmp in *; clear Etmp.
  assert (Etmp : (Z.of_nat (S t) =? 0) = false) by (apply Z.eqb_neq; lia); rewrite Etmp in *; clear Etmp.
  replace (Z.of_nat (S t) - 1) with (Z.of_nat t) by lia.
  destruct t as [|t].
  - change (Z.of_nat 1 =? 1) with true in T2.
    destruct (timer_loop_dark n w1) as (I1 & I2); [lia | exact Hidle1 |].
    change (Z.of_nat 0) with 0.
    rewrite I1, I2, T2. split; reflexivity.
  - assert (Etmp : (Z.of_nat (S (S t)) =? 1) = false) by (apply Z.eqb_neq; lia); rewrite Etmp in T2; clear Etmp.
    destruct (IH n w1) as (I1 & I2); [lia | lia | exact Hidle1 |].
    rewrite I1, I2, T2. split; reflexivity.
Qed.

Lemma ShowAlert_power (w : World) :
  power_events (trace (ShowAlert w)) = power_events (trace w).
Proof.
  unfold ShowAlert. cbn. break_all; reflexivity.
Qed.

Lemma timer_tick_schedule (i t : Z) (w : World) :
  mask_at w 0 = 0 ->
  display_schedule (trace (snd (timer_tick i t w)))
  = (if i =? 10 then (if t =? 0 then [PowerAt (Some i) 1] else [])
     else if t =? 1 then [PowerAt (Some i) 0] else []) ++ display_schedule (trace w).
Proof.
  unfold timer_tick, GetButtons, mask_at, nonzero. cbn. rewrite Nat.add_0_r.
  intros ->. cbn.
  destruct (i =? 10) eqn:Ei.
  - destruct (t =? 0) eqn:Et; cbn; reflexivity.
  - destruct (t =? 0) eqn:Et; cbn.
    + assert (Etmp : (t =? 1) = false) by (apply Z.eqb_neq; lia); rewrite Etmp; clear Etmp.
      reflexivity.
    + destruct (t - 1 =? 0) eqn:E1.
      * assert (Etmp : (t =? 1) = true) by (apply Z.eqb_eq; lia); rewrite Etmp; clear Etmp.
        reflexivity.
      * assert (Etmp : (t =? 1) = false) by (apply Z.eqb_neq; lia); rewrite Etmp; clear Etmp.
        reflexivity.
Qed.

Lemma timer_loop_last_schedule (n : nat) : forall w,
  (1 <= n <= 10)%nat -> idle w n ->
  display_schedule (trace (fst (timer_loop n (Z.of_nat n) w)))
  = PowerAt (Some 0) 0 :: display_schedule (trace w).
Proof.
  induction n as [|n IH]; intros w Hn Hidle; [lia|].
  cbn [timer_loop].
  destruct (timer_tick_idle (Z.of_nat n) (Z.of_nat (S n)) w) as (T1 & _ & T3 & T4).
  { apply Hidle. lia. }
  pose proof (timer_tick_schedule (Z.of_nat n) (Z.of_nat (S n)) w) as T2.
  specialize (T2 (Hidle 0%nat ltac:(lia))).
  destruct (timer_tick (Z.of_nat n) (Z.of_nat (S n)) w) as [o w1]; cbn [fst snd] in *.
  subst o.
  assert (Etmp : (Z.of_nat n =? 10) = false) by (apply Z.eqb_neq; lia); rewrite Etmp in *; clear Etmp.
  assert (Etmp : (Z.of_nat (S n) =? 0) = false) by (apply Z.eqb_neq; lia); rewrite Etmp in *; clear Etmp.
  replace (Z.of_nat (S n) - 1) with (Z.of_nat n) by lia.
  destruct n as [|n].
  - cbn in *. exact T2.
  - assert (Etmp : (Z.of_nat (S (S n)) =? 1) = false) by (apply Z.eqb_neq; lia); rewrite Etmp in T2; clear Etmp.
    rewrite (IH w1); [| lia | apply (idle_next w w1 _ Hidle T3 T4)].
    rewrite T2. reflexivity.
Qed.

Lemma timer_loop_dark_schedule (n : nat) : forall w,
  (11 <= n)%nat -> idle w n ->
  display_schedule (trace (fst (timer_loop n 0 w)))
  = PowerAt (Some 0) 0 :: PowerAt (Some 10) 1 :: display_schedule (trace w).
Proof.
  induction n as [|n IH]; intros w Hn Hidle; [lia|].
  cbn [timer_loop].
  destruct (timer_tick_idle (Z.of_nat n) 0 w) as (T1 & _ & T3 & T4).
  { apply Hidle. lia. }
  pose proof (timer_tick_schedule (Z.of_nat n) 0 w (Hidle 0%nat ltac:(lia))) as T2.
  destruct (timer_tick (Z.of_nat n) 0 w) as [o w1]; cbn [fst snd] in *.
  subst o. pose proof (idle_next w w1 _ Hidle T3 T4) as Hidle1.
  destruct (Nat.eq_dec n 10) as [->|Hne].
  - change (Z.of_nat 10 =? 10) with true in *. cbn [Z.eqb] in T2.
    pose proof (timer_loop_last_schedule 10 w1 ltac:(lia) Hidle1) as I3.
    change (Z.of_nat 10) with 10 in *. cbv iota.
    rewrite I3, T2. reflexivity.
  - assert (Etmp : (Z.of_nat n =? 10) = false) by (apply Z.eqb_neq; lia); rewrite Etmp in *; clear Etmp.
    cbn in T2. cbn [Z.eqb].
    rewrite (IH w1); [| lia | exact Hidle1].
    rewrite T2. reflexivity.
Qed.

Lemma timer_loop_first_schedule (t : nat) : forall n w,
  (1 <= t)%nat -> (11 + t <= n)%nat -> idle w n ->
  display_schedule (trace (fst (timer_loop n (Z.of_nat t) w)))
  = PowerAt (Some 0) 0 :: PowerAt (Some 10) 1
    :: PowerAt (Some (Z.of_nat n - Z.of_nat t)) 0 :: display_schedule (trace w).
Proof.
  induction t as [|t IH]; intros n w Ht Hn Hidle; [lia|].
  destruct n as [|n]; [lia|].
  cbn [timer_loop].
  destruct (timer_tick_idle (Z.of_nat n) (Z.of_nat (S t)) w) as (T1 & _ & T3 & T4).
  { apply Hidle. lia. }
  pose proof (timer_tick_schedule (Z.of_nat n) (Z.of_nat (S t)) w (Hidle 0%nat ltac:(lia)))
    as T2.
  destruct (timer_tick (Z.of_nat n) (Z.of_nat (S t)) w) as [o w1]; cbn [fst snd] in *.
  subst o. pose proof (idle_next w w1 _ Hidle T3 T4) as Hidle1.
  assert (Etmp : (Z.of_nat n =? 10) = false) by (apply Z.eqb_neq; lia); rewrite Etmp in *; clear Etmp.
  assert (Etmp : (Z.of_nat (S t) =? 0) = false) by (apply Z.eqb_neq; lia); rewrite Etmp in *; clear Etmp.
  replace (Z.of_nat (S t) - 1) with (Z.of_nat t) by lia.
  destruct t as [|t].
  - change (Z.of_nat 1 =? 1) with true in T2.
    change (Z.of_nat 0) with 0.
    rewrite (timer_loop_dark_schedule n w1); [| lia | exact Hidle1].
    rewrite T2. replace (Z.of_nat (S n) - Z.of_nat 1) with (Z.of_nat n) by lia.
    reflexivity.
  - assert (Etmp : (Z.of_nat (S (S t)) =? 1) = false) by (apply Z.eqb_neq; lia); rewrite Etmp in T2; clear Etmp.
    rewrite (IH n w1); [| lia | lia | exact Hidle1].
    rewrite T2.
    replace (Z.of_nat (S n) - Z.of_nat (S (S t))) with (Z.of_nat n - Z.of_nat (S t)) by lia.
    reflexivity.
Qed.

Lemma ShowAlert_schedule (w : World) :
  display_schedule (trace (ShowAlert w)) = AlertShown :: display_schedule (trace w).
Proof.
  unfold ShowAlert. cbn. break_all; reflexivity.
Qed.

(** X13: with no button pressed during a countdown of one minute or
    more, [RunTimer] calls [oledPower] three times: off at the fifth
    tick, while the display shows second iPeriod*60 - 4, on at second 10
    and off at second 0; [ShowAlert] follows. *)
Theorem RunTimer_display_schedule (w : World) :
  1 <= iPeriod (state w) <= 35791394 ->
  (forall k, (k <= Z.to_nat (iPeriod (state w) * 60))%nat -> mask_at w k = 0) ->
  power_events (trace (RunTimer w)) = 0 :: 1 :: 0 :: power_events (trace w)
  /\ display_schedule (trace (RunTimer w))
     = AlertShown
       :: PowerAt (Some 0) 0
       :: PowerAt (Some 10) 1
       :: PowerAt (Some (iPeriod (state w) * 60 - 4)) 0
       :: display_schedule (trace w).
Proof.
  intros Hp Hidle. unfold RunTimer. cbv zeta.
  set (w0 := oledWriteString 0 0 "Timer Mode" FONT_12x16 (oledFill 0 w)).
  change (state w0) with (state w).
  rewrite wrap32_id by (unfold in_int32; lia).
  assert (Hidle0 : idle w0 (Z.to_nat (iPeriod (state w) * 60 + 1))).
  { intros k Hk. change (mask_at w0 k) with (mask_at w k). apply Hidle. lia. }
  destruct (timer_loop_first_seconds 5 (Z.to_nat (iPeriod (state w) * 60 + 1)) w0)
    as (I1 & I2); [lia | lia | exact Hidle0 |].
  pose proof (timer_loop_first_schedule 5 (Z.to_nat (iPeriod (state w) * 60 + 1)) w0
                ltac:(lia) ltac:(lia) Hidle0) as I3.
  change (Z.of_nat 5) with 5 in *.
  destruct (timer_loop _ 5 w0) as [w1 b]; cbn [fst snd] in *. subst b.
  split.
  - rewrite ShowAlert_power. exact I2.
  - rewrite ShowAlert_schedule, I3.
    change (display_schedule (trace w0)) with (display_schedule (trace w)).
    replace (Z.of_nat (Z.to_nat (iPeriod (state w) * 60 + 1)) - 5)
      with (iPeriod (state w) * 60 - 4) by lia.
    reflexivity.
Qed.

Lemma RunTimer_display_schedule_witness :
  power_events (trace (RunTimer timer_world)) = [0; 1; 0]
  /\ display_schedule (trace (RunTimer timer_world))
     = [AlertShown; PowerAt (Some 0) 0; PowerAt (Some 10) 1; PowerAt (Some 56) 0].
Proof.
  apply (RunTimer_display_schedule timer_world).
  - simpl. lia.
  - intros k _. unfold mask_at. simpl. destruct k; reflexivity.
Defined.
(** ** Sampling cadence *)

Lemma lowpower_iter_sampling (v v' : LowPowerVars) (w : World) :
  fst (lowpower_iter v w) = Some v' ->
  0 <= iSampleTick v < 120 ->
  iSampleTick v' = (if iSampleTick v + 1 =? 120 then 0 else iSampleTick v + 1)
  /\ nsmp (snd (lowpower_iter v w))
     = (nsmp w + (if (iSampleTick v + 1 =? 120)%Z then 1 else 0))%nat.
Proof.
  intros H Hs. revert H.
  pose proof (wrap32_id (iSampleTick v + 1) ltac:(unfold in_int32; lia)) as Hw.
  unfold lowpower_iter, GetButtons, co2_led_cue. cbn -[wrap32].
  destruct (_ =? 3); [discriminate|].
  repeat (break_if; cbn -[wrap32] in *; rewrite ?Hw in *);
    intros H; inversion H; subst v'; cbn -[wrap32]; split; try reflexivity; try lia.
Qed.

Lemma lowpower_loop_sampling (fuel : nat) : forall v w w',
  lowpower_loop fuel v w = Timeout w' ->
  0 <= iSampleTick v < 120 ->
  nsmp w' = (nsmp w + Z.to_nat ((iSampleTick v + Z.of_nat fuel) / 120))%nat.
Proof.
  induction fuel as [|f IH]; intros v w w' H Hs.
  - cbn in H. inversion H; subst. rewrite Z.add_0_r, Z.div_small by lia. cbn. lia.
  - cbn [lowpower_loop] in H.
    pose proof (fun v' => lowpower_iter_sampling v v' w) as HI.
    destruct (lowpower_iter v w) as [[v1|] w1]; [|discriminate].
    destruct (HI v1 eq_refl Hs) as (T1 & T2). cbn [snd] in T2.
    rewrite (IH v1 w1 w' H), T1, T2.
    + destruct (iSampleTick v + 1 =? 120) eqn:E.
      * replace (iSampleTick v + Z.of_nat (S f)) with (1 * 120 + (0 + Z.of_nat f)) by lia.
        rewrite Z.div_add_l by lia.
        pose proof (Z.div_pos (0 + Z.of_nat f) 120 ltac:(lia) ltac:(lia)). lia.
      * replace (iSampleTick v + Z.of_nat (S f)) with (iSampleTick v + 1 + Z.of_nat f) by lia.
        lia.
    + rewrite T1. destruct (iSampleTick v + 1 =? 120) eqn:E; lia.
Qed.

(** X14: a LowPower session still running after [fuel] passes of its loop
    has taken exactly [fuel / 120] samples. *)
Theorem RunLowPower_sampling_cadence (fuel : nat) (w w' : World) :
  RunLowPower fuel w = Timeout w' ->
  nsmp w' = (nsmp w + fuel / 120)%nat.
Proof.
  unfold RunLowPower. cbv zeta. intros H.
  apply lowpower_loop_sampling in H; [|cbn; lia].
  cbn [iSampleTick] in H. rewrite H. cbn [nsmp scd41_start I2CSetSpeed emit].
  f_equal. rewrite Z.add_0_l.
  change 120 with (Z.of_nat 120). rewrite <- Nat2Z.inj_div, Nat2Z.id. reflexivity.
Qed.

Lemma RunLowPower_sampling_cadence_witness :
  nsmp (world_of (RunLowPower 250 (boot (env_of [] 700 0) (mkSTATE 1 0 30 5)))) = 2%nat.
Proof.
  rewrite (RunLowPower_sampling_cadence 250 (boot (env_of [] 700 0) (mkSTATE 1 0 30 5))
             (world_of (RunLowPower 250 (boot (env_of [] 700 0) (mkSTATE 1 0 30 5))))).
  - reflexivity.
  - vm_compute. reflexivity.
Defined.

(** X17: a Continuous session still running after [fuel] passes has taken
    [fuel] samples, counted them in [iSample] and polled the buttons 21
    times per pass. *)
Theorem RunContinuous_cadence (fuel : nat) (b : Z) (w w' : World) :
  RunContinuous fuel b w = Timeout w' ->
  -2147483648 <= iSample w -> iSample w + Z.of_nat fuel < 2147483648 ->
  nsmp w' = (nsmp w + fuel)%nat
  /\ nbtn w' = (nbtn w + 21 * fuel)%nat
  /\ iSample w' = iSample w + Z.of_nat fuel.
Proof.
  unfold RunContinuous. cbv zeta. intros H Hlo Hhi.
  apply cont_loop_cadence in H; [exact H | exact Hhi | exact Hlo].
Qed.

Lemma RunContinuous_cadence_witness :
  nbtn (world_of (RunContinuous 3 0 (boot (env_of [] 700 0) (mkSTATE 0 0 30 5)))) = 63%nat.
Proof.
  destruct (RunContinuous_cadence 3 0 (boot (env_of [] 700 0) (mkSTATE 0 0 30 5))
              (world_of (RunContinuous 3 0 (boot (env_of [] 700 0) (mkSTATE 0 0 30 5)))))
    as (_ & H & _).
  - vm_compute. reflexivity.
  - simpl. lia.
  - simpl. lia.
  - exact H.
Defined.

(** ** Alert patterns *)

(** X18: [ShowAlert] gives three vibration pulses for Vibration, four
    green-red blinks for LED, three pulses and three green-red blinks for
    Both, blocking for 2910, 2400 and 2850 ms; for any other alert value
    it does nothing; it never touches the settings or the FLASH. *)
Theorem ShowAlert_patterns (w : World) :
  let a := iAlert (state w) in
  pulses (trace (ShowAlert w))
  = ((if (a =? 0)%Z then 3 else if (a =? 1)%Z then 0 else if (a =? 2)%Z then 3 else 0)
     + pulses (trace w))%nat
  /\ led_blinks (trace (ShowAlert w))
     = (if a =? 0 then []
        else if a =? 1
          then [LED_RED; LED_GREEN; LED_RED; LED_GREEN; LED_RED; LED_GREEN; LED_RED; LED_GREEN]
        else if a =? 2 then [LED_RED; LED_GREEN; LED_RED; LED_GREEN; LED_RED; LED_GREEN]
        else []) ++ led_blinks (trace w)
  /\ busy_ms (trace (ShowAlert w))
     = (if a =? 0 then 2910 else if a =? 1 then 2400 else if a =? 2 then 2850 else 0)
       + busy_ms (trace w)
  /\ persistent_view (ShowAlert w) = persistent_view w.
Proof.
  cbv zeta. unfold ShowAlert, ALERT_VIBRATION, ALERT_LED, ALERT_BOTH.
  cbn [state emit].
  destruct (iAlert (state w) =? 0); [|destruct (iAlert (state w) =? 1);
    [|destruct (iAlert (state w) =? 2)]];
  (split; [reflexivity|]); (split; [reflexivity|]);
  (split; [cbn [busy_ms repeat_do Delay_Ms Vibrate BlinkLED pinMode digitalWrite emit trace];
           lia | reflexivity]).
Qed.



(** ** The display in Stealth and LowPower *)

Lemma GetButtons_power (w : World) :
  power_events (trace (snd (GetButtons w))) = power_events (trace w).
Proof. reflexivity. Qed.

Lemma wait_while_power (c : Z -> bool) (fuel : nat) : forall w,
  power_events (trace (world_of (wait_while c fuel w))) = power_events (trace w).
Proof.
  induction fuel as [|f IH]; intros w; [reflexivity|].
  cbn [wait_while].
  pose proof (GetButtons_power w) as HG.
  destruct (GetButtons w) as [j w1]; cbn [snd] in HG.
  destruct (c j).
  - rewrite IH. exact HG.
  - exact HG.
Qed.

Lemma buzz_power (n : nat) : forall t w,
  power_events (trace (snd (buzz n t w))) = power_events (trace w).
Proof.
  induction n as [|n IH]; intros t w; [reflexivity|].
  cbn [buzz]. rewrite IH. reflexivity.
Qed.

Lemma stealth_body_power (u t l : Z) (w : World) :
  power_events (trace (snd (stealth_body u t l w))) = power_events (trace w).
Proof.
  unfold stealth_body.
  destruct (Z.rem t 20 =? 19); destruct (Z.rem t u =? wrap32 (u - 1)).
  - destruct (buzz _ t _) as [t' w'] eqn:E. cbn [snd].
    change w' with (snd (t', w')). rewrite <- E, buzz_power. reflexivity.
  - reflexivity.
  - destruct (buzz _ t _) as [t' w'] eqn:E. cbn [snd].
    change w' with (snd (t', w')). rewrite <- E, buzz_power. reflexivity.
  - reflexivity.
Qed.

Lemma stealth_loop_power (fuel : nat) : forall u t l w,
  power_events (trace (world_of (stealth_loop fuel u t l w))) = power_events (trace w).
Proof.
  induction fuel as [|f IH]; intros u t l w; [reflexivity|].
  cbn [stealth_loop].
  pose proof (GetButtons_power w) as HG.
  destruct (GetButtons w) as [j w1]; cbn [snd] in HG.
  destruct (j =? 3).
  - cbn [world_of]. rewrite <- HG. reflexivity.
  - pose proof (stealth_body_power u t l w1) as HB.
    destruct (stealth_body u t l w1) as [[t' l'] w2]; cbn [snd] in HB.
    rewrite IH, HB. exact HG.
Qed.

(** X16: a Stealth session never switches the display on: either it is
    still at its start prompt, with no display power call and no sensor
    call made, or it has switched the display off exactly once. *)
Theorem RunStealth_display_stays_off (fuel : nat) (w : World) :
  (power_events (trace (world_of (RunStealth fuel w))) = power_events (trace w)
   /\ sensor_calls (trace (world_of (RunStealth fuel w))) = sensor_calls (trace w))
  \/ power_events (trace (world_of (RunStealth fuel w))) = 0 :: power_events (trace w).
Proof.
  unfold RunStealth. cbv zeta.
  set (w0 := oledWriteString 0 56 _ _ _).
  pose proof (wait_while_power nonzero fuel w0) as Q1.
  pose proof (sensor_quiet nonzero fuel w0) as R1.
  change (power_events (trace w0)) with (power_events (trace w)) in Q1.
  change (sensor_calls (trace w0)) with (sensor_calls (trace w)) in R1.
  destruct (wait_while nonzero fuel w0) as [j1 w1|w1]; cbn [bindO world_of] in *;
    [|left; split; assumption].
  pose proof (wait_while_power (fun j => j =? 0) fuel w1) as Q2.
  pose proof (sensor_quiet (fun j => j =? 0) fuel w1) as R2.
  destruct (wait_while (fun j => j =? 0) fuel w1) as [j2 w2|w2]; cbn [bindO world_of] in *;
    [|left; split; congruence].
  right. rewrite stealth_loop_power.
  change (0 :: power_events (trace w2) = 0 :: power_events (trace w)). congruence.
Qed.

Lemma co2_led_cue_quiet (x : World) :
  power_events (trace (co2_led_cue x)) = power_events (trace x)
  /\ env (co2_led_cue x) = env x /\ nbtn (co2_led_cue x) = nbtn x.
Proof.
  unfold co2_led_cue. repeat break_if; repeat split.
Qed.

Ltac lowpower_case :=
  cbn -[wrap32 co2_led_cue];
  try match goal with
      | |- context [co2_led_cue ?x] =>
          let C1 := fresh in let C2 := fresh in let C3 := fresh in
          destruct (co2_led_cue_quiet x) as (C1 & C2 & C3); rewrite C1, C2, C3
      end;
  cbn -[wrap32]; repeat split; try reflexivity; try lia.

Lemma lowpower_iter_idle (v : LowPowerVars) (w : World) :
  mask_at w 0 = 0 -> 0 <= iUITick v ->
  exists v',
    fst (lowpower_iter v w) = Some v'
    /\ iUITick v' = (if iUITick v =? 0 then 0 else iUITick v - 1)
    /\ power_events (trace (snd (lowpower_iter v w)))
       = (if iUITick v =? 1 then [0] else []) ++ power_events (trace w)
    /\ env (snd (lowpower_iter v w)) = env w
    /\ nbtn (snd (lowpower_iter v w)) = S (nbtn w).
Proof.
  unfold lowpower_iter, GetButtons, mask_at, nonzero.
  cbn -[wrap32 co2_led_cue]. rewrite Nat.add_0_r. intros -> Hu. cbn -[wrap32 co2_led_cue].
  destruct (iUITick v =? 0) eqn:E0.
  - assert (Etmp : (iUITick v >? 0) = false) by lia.
    assert (E1 : (iUITick v =? 1) = false) by lia. rewrite E1.
    destruct (wrap32 (iSampleTick v + 1) =? 120); cbn -[wrap32 co2_led_cue];
      rewrite Etmp; cbn -[wrap32 co2_led_cue]; eexists;
      (split; [reflexivity|]); lowpower_case.
  - assert (Etmp : (iUITick v >? 0) = true) by lia.
    destruct (iUITick v =? 1) eqn:E1.
    + assert (E2 : (iUITick v - 1 =? 0) = true) by lia.
      destruct (wrap32 (iSampleTick v + 1) =? 120); cbn -[wrap32 co2_led_cue];
        rewrite Etmp, E2; cbn -[wrap32 co2_led_cue]; eexists;
        (split; [reflexivity|]); lowpower_case.
    + assert (E2 : (iUITick v - 1 =? 0) = false) by lia.
      destruct (wrap32 (iSampleTick v + 1) =? 120); cbn -[wrap32 co2_led_cue];
        rewrite Etmp, E2; cbn -[wrap32 co2_led_cue]; eexists;
        (split; [reflexivity|]); lowpower_case.
Qed.

Lemma in_window (u n : Z) : ((1 <=? u) && (u <=? n)) = true <-> 1 <= u <= n.
Proof. rewrite andb_true_iff, !Z.leb_le. tauto. Qed.

Ltac windows :=
  repeat match goal with
         | |- context [(1 <=? ?u) && (?u <=? ?n)] =>
             let E := fresh "W" in
             destruct ((1 <=? u) && (u <=? n)) eqn:E;
             [apply in_window in E | apply not_true_iff_false in E; rewrite in_window in E]
         end;
  try reflexivity; exfalso; lia.

Lemma lowpower_loop_idle (fuel : nat) : forall v w,
  idle w fuel -> 0 <= iUITick v ->
  exists w',
    lowpower_loop fuel v w = Timeout w'
    /\ power_events (trace w')
       = (if (1 <=? iUITick v) && (iUITick v <=? Z.of_nat fuel) then [0] else [])
         ++ power_events (trace w).
Proof.
  induction fuel as [|f IH]; intros v w Hidle Hu.
  - exists w. split; [reflexivity|]. windows.
  - cbn [lowpower_loop].
    destruct (lowpower_iter_idle v w) as (v1 & T1 & T2 & T3 & T4 & T5);
      [apply Hidle; lia | exact Hu |].
    destruct (lowpower_iter v w) as [o w1]; cbn [fst snd] in *. subst o.
    destruct (IH v1 w1) as (w' & L1 & L2).
    { apply (idle_next w w1 f Hidle T4 T5). }
    { rewrite T2. destruct (iUITick v =? 0) eqn:E; lia. }
    exists w'. split; [exact L1|].
    rewrite L2, T3, T2.
    destruct (iUITick v =? 0) eqn:E0; destruct (iUITick v =? 1) eqn:E1; windows.
Qed.

(** X15: left alone, a LowPower session switches the display off once, at
    its twentieth pass, and never on. *)
Theorem RunLowPower_idle_display (fuel : nat) (w : World) :
  (forall k, (k < fuel)%nat -> mask_at w k = 0) ->
  exists w',
    RunLowPower fuel w = Timeout w'
    /\ power_events (trace w')
       = (if (20 <=? fuel)%nat then [0] else []) ++ power_events (trace w).
Proof.
  intros Hidle. unfold RunLowPower. cbv zeta.
  set (w0 := scd41_start SCD_POWERMODE_LOW _).
  destruct (lowpower_loop_idle fuel (mkLP 20 0 0) w0) as (w' & L1 & L2).
  - intros k Hk. change (mask_at w0 k) with (mask_at w k). apply Hidle. exact Hk.
  - cbn. lia.
  - exists w'. split; [exact L1|]. rewrite L2. cbn [iUITick].
    change (power_events (trace w0)) with (power_events (trace w)).
    destruct (20 <=? fuel)%nat eqn:E;
      [apply Nat.leb_le in E | apply Nat.leb_gt in E]; windows.
Qed.

Lemma RunLowPower_idle_display_witness :
  exists w', RunLowPower 30 (boot (env_of [] 700 0) (mkSTATE 1 0 30 5)) = Timeout w'
             /\ power_events (trace w') = [0].
Proof.
  destruct (RunLowPower_idle_display 30 (boot (env_of [] 700 0) (mkSTATE 1 0 30 5)))
    as (w' & R & P).
  - intros k _. unfold mask_at. simpl. destruct k; reflexivity.
  - exists w'. split; [exact R | exact P].
Defined.
